(** * Verification of the chat route of crypto_bot (src/routes/chat.js)

    The route is embedded as an executable state-and-exception monad over
    the process-wide [conversationMemory] object and a per-request trace of
    collaborator calls.

    - JavaScript strings are byte strings.  Case folding and white space
      are those of the ASCII range; other bytes are left as they are.
    - JavaScript numbers are IEEE 754 binary64 values (primitive floats);
      [parseFloat], [toFixed] and the number-to-string conversion are
      written out over their exact values.
    - [conversationMemory] is a finite map from user id to session.  User
      ids are taken not to be names of [Object.prototype] members; the
      theorems on the sessions of a process say so by [ownUserIds].
    - The message of a request is a string or is missing; [route] adds the
      values of other kinds.
    - The rows of the database and the data of the backend have every field
      the route reads, with its type; [responsesTable] tells what a NULL
      column does to the replies of the market branch.
    - [await] is sequencing; a rejected promise that is awaited throws.
      The calls of a [Promise.all] are issued in the order they are written.
    - The model (Gemini), the SQLite database and the Spring Boot backend
      are a record of answer functions; every call and its answer is
      recorded in the trace.  Logging to the console is left out. *)

From Stdlib Require Import ZArith String Ascii List Bool Lia Floats.
From Stdlib Require Import DecimalString DecimalPos DecimalN.
From stdpp Require Import gmap strings.
Import ListNotations.

Local Open Scope string_scope.
Local Open Scope Z_scope.
Local Open Scope list_scope.

(** ** JavaScript string built-ins used by the route *)

Module JsString.

(** The double-quote character, which the prompts embed around the query. *)
Definition dquote : string := String (ascii_of_nat 34) EmptyString.

(** Line feed, as written [\n] in the source. *)
Definition nl : string := String (ascii_of_nat 10) EmptyString.

Definition isUpper (c : ascii) : bool :=
  let n := nat_of_ascii c in ((65 <=? n)%nat && (n <=? 90)%nat)%bool.

Definition isLower (c : ascii) : bool :=
  let n := nat_of_ascii c in ((97 <=? n)%nat && (n <=? 122)%nat)%bool.

Definition lowerChar (c : ascii) : ascii :=
  if isUpper c then ascii_of_nat (nat_of_ascii c + 32) else c.

Definition upperChar (c : ascii) : ascii :=
  if isLower c then ascii_of_nat (nat_of_ascii c - 32) else c.

(** [String.prototype.toLowerCase] on ASCII text; bytes outside A-Z are
    left as they are. *)
Fixpoint toLowerCase (s : string) : string :=
  match s with
  | EmptyString => EmptyString
  | String c s' => String (lowerChar c) (toLowerCase s')
  end.

Fixpoint toUpperCase (s : string) : string :=
  match s with
  | EmptyString => EmptyString
  | String c s' => String (upperChar c) (toUpperCase s')
  end.

(** White space and line terminators of the ASCII range: TAB, LF, VT, FF,
    CR and SP. *)
Definition isSpace (c : ascii) : bool :=
  let n := nat_of_ascii c in
  ((n =? 9)%nat || (n =? 10)%nat || (n =? 11)%nat || (n =? 12)%nat
   || (n =? 13)%nat || (n =? 32)%nat)%bool.

Fixpoint trimStart (s : string) : string :=
  match s with
  | EmptyString => EmptyString
  | String c s' => if isSpace c then trimStart s' else s
  end.

Fixpoint trimEnd (s : string) : string :=
  match s with
  | EmptyString => EmptyString
  | String c s' =>
      match trimEnd s' with
      | EmptyString => if isSpace c then EmptyString else String c EmptyString
      | t => String c t
      end
  end.

(** [String.prototype.trim]. *)
Definition trim (s : string) : string := trimEnd (trimStart s).

Fixpoint startsWith (s p : string) : bool :=
  match p, s with
  | EmptyString, _ => true
  | String _ _, EmptyString => false
  | String a p', String b s' => if Ascii.eqb a b then startsWith s' p' else false
  end.

(** [String.prototype.includes]: [p] occurs somewhere in [s]. *)
Fixpoint includes (s p : string) : bool :=
  if startsWith s p then true
  else match s with
       | EmptyString => false
       | String _ s' => includes s' p
       end.

(** [Array.prototype.join]. *)
Fixpoint join (sep : string) (l : list string) : string :=
  match l with
  | [] => EmptyString
  | [x] => x
  | x :: r => x +:+ sep +:+ join sep r
  end.

(** [\d] of a JavaScript regular expression: the ten ASCII digits. *)
Definition isDigit (c : ascii) : bool :=
  let n := nat_of_ascii c in ((48 <=? n)%nat && (n <=? 57)%nat)%bool.

(** The longest prefix of digits and what follows it ([\d*], greedy). *)
Fixpoint spanDigits (s : string) : string * string :=
  match s with
  | EmptyString => (EmptyString, EmptyString)
  | String c s' =>
      if isDigit c
      then let '(d, r) := spanDigits s' in (String c d, r)
      else (EmptyString, s)
  end.

(** Every character of [s] is a digit. *)
Fixpoint allDigits (s : string) : bool :=
  match s with
  | EmptyString => true
  | String c s' => (isDigit c && allDigits s')%bool
  end.

(** [\d+(\.\d+)?] anchored at the start of [s], which starts with a digit:
    the digits, then a dot and further digits when at least one digit
    follows the dot. *)
Definition matchNumberHere (s : string) : string :=
  let '(d, r) := spanDigits s in
  match r with
  | String "." r' =>
      match spanDigits r' with
      | (EmptyString, _) => d
      | (f, _) => d +:+ "." +:+ f
      end
  | _ => d
  end.

(** [s.match(/(\d+(\.\d+)?)/)]: the text of the leftmost match
    ([amountMatch[0]]), or [None] when the regular expression does not
    match ([null]). *)
Fixpoint matchNumber (s : string) : option string :=
  match s with
  | EmptyString => None
  | String c s' => if isDigit c then Some (matchNumberHere s) else matchNumber s'
  end.

(** [s.replace(/\n/g, " ")]. *)
Fixpoint replaceNewlines (s : string) : string :=
  match s with
  | EmptyString => EmptyString
  | String c s' =>
      String (if (nat_of_ascii c =? 10)%nat then " "%char else c) (replaceNewlines s')
  end.

(** [s.replace(/\*\*/g, "").replace(/\*/g, "")]: both passes together
    delete every asterisk. *)
Fixpoint removeStars (s : string) : string :=
  match s with
  | EmptyString => EmptyString
  | String c s' =>
      if Ascii.eqb c "*"%char then removeStars s' else String c (removeStars s')
  end.

(** [s.replace(/\s+/g, " ")]: every maximal run of white space becomes one
    space. *)
Fixpoint collapseSpaces (s : string) : string :=
  match s with
  | EmptyString => EmptyString
  | String c s' =>
      if isSpace c
      then match s' with
           | String c' _ =>
               if isSpace c' then collapseSpaces s' else String " "%char (collapseSpaces s')
           | EmptyString => String " "%char EmptyString
           end
      else String c (collapseSpaces s')
  end.

(** JavaScript truthiness of a string that may be [null] or [undefined]. *)
Definition truthy (o : option string) : bool :=
  match o with
  | Some (String _ _) => true
  | _ => false
  end.

End JsString.

(** ** JavaScript numbers: binary64 values and their conversions *)

Module JsNumber.
Import JsString.

Definition digitVal (c : ascii) : Z := Z.of_nat (nat_of_ascii c) - 48.

(** The value of a string of decimal digits, most significant first. *)
Fixpoint digitsValue (acc : Z) (s : string) : Z :=
  match s with
  | EmptyString => acc
  | String c s' => digitsValue (10 * acc + digitVal c) s'
  end.

(** The decimal digits of a non-negative integer ("0" for zero). *)
Definition digitsOf (n : Z) : string :=
  DecimalString.NilZero.string_of_uint (N.to_uint (Z.to_N n)).

Fixpoint zeros (n : nat) : string :=
  match n with
  | O => EmptyString
  | S n' => String "0"%char (zeros n')
  end.

(** The binary64 value nearest to [m * 10^e] for [m >= 0] (ties to even):
    the quotient is taken with two extra bits and a sticky bit, and the
    rounding is that of the IEEE 754 specification ([binary_normalize]). *)
Definition roundDecimal (m e : Z) : spec_float :=
  if m =? 0 then S754_zero false
  else if 0 <=? e then binary_normalize prec emax (m * 10 ^ e) 0 false
  else
    let d := 10 ^ (- e) in
    let s := Z.max 0 (Z.log2 d + 56 - Z.log2 m) in
    let n := m * 2 ^ s in
    let sticky := if n mod d =? 0 then 0 else 1 in
    binary_normalize prec emax (2 * (n / d) + sticky) (- s - 1) false.

(** An optional sign at the start of [s]: whether it is a minus, and what
    follows it. *)
Definition splitSign (s : string) : bool * string :=
  match s with
  | String c r =>
      if Ascii.eqb c "-" then (true, r)
      else if Ascii.eqb c "+" then (false, r)
      else (false, s)
  | EmptyString => (false, s)
  end.

(** The exponent part [e[+-]ddd] at the start of [r], 0 when there is none. *)
Definition parseExponent (r : string) : Z :=
  match r with
  | String c r1 =>
      if (Ascii.eqb c "e" || Ascii.eqb c "E")%bool
      then
        let '(neg, r2) := splitSign r1 in
        match spanDigits r2 with
        | (EmptyString, _) => 0
        | (ds, _) => if neg then - digitsValue 0 ds else digitsValue 0 ds
        end
      else 0
  | EmptyString => 0
  end.

(** The fraction digits after a decimal point at the start of [r], and
    what follows them; no digits when [r] does not start with a point. *)
Definition fractionPart (r : string) : string * string :=
  match r with
  | String c r' => if Ascii.eqb c "." then spanDigits r' else (EmptyString, r)
  | EmptyString => (EmptyString, r)
  end.

(** The unsigned decimal literal at the start of [s]: [Infinity], or digits
    with an optional fraction and exponent; [NaN] when there is none. *)
Definition parseUnsigned (s : string) : float :=
  if startsWith s "Infinity" then infinity
  else
    let '(ip, r1) := spanDigits s in
    let '(fp, r2) := fractionPart r1 in
    match ip +:+ fp with
    | EmptyString => nan
    | ds =>
        SF2Prim (roundDecimal (digitsValue 0 ds)
                              (parseExponent r2 - Z.of_nat (String.length fp)))
    end.

(** [parseFloat]: leading white space is skipped and the longest prefix
    that is a signed decimal literal is converted. *)
Definition parseFloat (s : string) : float :=
  let '(neg, s2) := splitSign (trimStart s) in
  if neg then (- parseUnsigned s2)%float else parseUnsigned s2.

(** A positive finite binary64 value [m * 2^e] as a fraction [(a, b)]. *)
Definition fraction (m : positive) (e : Z) : Z * Z :=
  if 0 <=? e then (Z.pos m * 2 ^ e, 1) else (Z.pos m, 2 ^ (- e)).

(** The least [j >= 1] with [a * 10^j >= b], searched upwards. *)
Fixpoint leadingZeros (fuel : nat) (a b j : Z) : Z :=
  match fuel with
  | O => j
  | S fuel' => if b <=? a * 10 ^ j then j else leadingZeros fuel' a b (j + 1)
  end.

(** The [n] with [10^(n-1) <= a/b < 10^n]. *)
Definition decimalExponent (a b : Z) : Z :=
  if b <=? a then Z.of_nat (String.length (digitsOf (a / b)))
  else 1 - leadingZeros 400 a b 1.

(** [floor ((a/b) / 10^p)] and whether twice the remainder is below, at
    or above the divisor. *)
Definition scaledFloor (a b p : Z) : Z * comparison :=
  let '(num, den) := if 0 <=? p then (a, b * 10 ^ p) else (a * 10 ^ (- p), b) in
  (num / den, (2 * (num mod den)) ?= den).

(** The [k]-digit candidates [(s, n)] of Number::toString for [x = a/b]:
    those [s * 10^(n-k)] next to [x] that convert back to [x], the closest
    first (the even one on a tie). *)
Definition candidates (x : float) (a b n0 k : Z) : list (Z * Z) :=
  let '(lo, half) := scaledFloor a b (n0 - k) in
  let hi := if lo + 1 =? 10 ^ k then (10 ^ (k - 1), n0 + 1) else (lo + 1, n0) in
  let ok (c : Z * Z) := (SF2Prim (roundDecimal (fst c) (snd c - k)) =? x)%float in
  let ordered :=
    match half with
    | Lt => [(lo, n0); hi]
    | Gt => [hi; (lo, n0)]
    | Eq => if Z.even lo then [(lo, n0); hi] else [hi; (lo, n0)]
    end in
  filter ok ordered.

(** The shortest digit string: the least [k] that has a candidate. *)
Fixpoint shortest (fuel : nat) (x : float) (a b n0 k : Z) : Z * Z * Z :=
  match fuel with
  | O => (k, 0, n0)
  | S fuel' =>
      match candidates x a b n0 k with
      | (s, n) :: _ => (k, s, n)
      | [] => shortest fuel' x a b n0 (k + 1)
      end
  end.

(** The layout of Number::toString for digits [s] ([k] of them) and
    decimal exponent [n]. *)
Definition layout (k s n : Z) : string :=
  let ds := digitsOf s in
  if ((k <=? n) && (n <=? 21))%bool then ds +:+ zeros (Z.to_nat (n - k))
  else if ((0 <? n) && (n <=? 21))%bool
  then substring 0 (Z.to_nat n) ds +:+ "." +:+ substring (Z.to_nat n) (Z.to_nat (k - n)) ds
  else if ((-6 <? n) && (n <=? 0))%bool
  then "0." +:+ zeros (Z.to_nat (- n)) +:+ ds
  else
    let ex := (if 0 <=? n - 1 then "+" else "-") +:+ digitsOf (Z.abs (n - 1)) in
    if k =? 1 then ds +:+ "e" +:+ ex
    else substring 0 1 ds +:+ "." +:+ substring 1 (Z.to_nat (k - 1)) ds +:+ "e" +:+ ex.

(** Number::toString, the conversion a template literal applies to a
    number. *)
Definition toString (x : float) : string :=
  match Prim2SF x with
  | S754_nan => "NaN"
  | S754_zero _ => "0"
  | S754_infinity s => if s then "-Infinity" else "Infinity"
  | S754_finite s m e =>
      let '(a, b) := fraction m e in
      let '(k, d, n) := shortest 25 (abs x) a b (decimalExponent a b) 1 in
      (if s then "-" else "") +:+ layout k d n
  end.

(** The integer nearest to [m * 2^e * 10^f], the larger one on a tie. *)
Definition roundHalfUp (m : positive) (e : Z) (f : Z) : Z :=
  let n := Z.pos m * 10 ^ f in
  if 0 <=? e then n * 2 ^ e else (2 * n + 2 ^ (- e)) / 2 ^ (1 - e).

(** The digits of [n] with a decimal point before the last [f] of them,
    padded with zeros on the left to [f + 1] digits. *)
Definition fixedDigits (n : Z) (f : nat) : string :=
  let ds := digitsOf n in
  match f with
  | O => ds
  | _ =>
      let padded := zeros (S f - String.length ds) +:+ ds in
      let k := String.length padded in
      substring 0 (k - f) padded +:+ "." +:+ substring (k - f) f padded
  end.

(** [Number.prototype.toFixed] for [0 <= f <= 100]. *)
Definition toFixed (x : float) (f : nat) : string :=
  match Prim2SF x with
  | S754_nan => "NaN"
  | S754_infinity s => if s then "-Infinity" else "Infinity"
  | S754_zero _ => fixedDigits 0 f
  | S754_finite s m e =>
      if (1e21 <=? abs x)%float then toString x
      else (if s then "-" else "") +:+ fixedDigits (roundHalfUp m e (Z.of_nat f)) f
  end.

(** JavaScript truthiness of a number: neither zero nor [NaN]. *)
Definition truthy (x : float) : bool :=
  negb ((x =? 0)%float || is_nan x).

End JsNumber.

(** ** Data model *)

(** A row of [crypto_prices]. *)
Module CoinFact.
Record t := mk {
  name : string;
  symbol : string;
  price : float;
  market_cap : float;
  volume_24h : float;
  change_24h : float;
  last_updated : string
}.
End CoinFact.

(** A row of [crypto_news]. *)
Module NewsItem.
Record t := mk {
  title : string;
  url : string;
  source : string;
  published_at : string
}.
End NewsItem.

(** The [coin] object of a portfolio asset. *)
Module Coin.
Record t := mk { id : string; name : string; symbol : string }.
End Coin.

(** An element of the portfolio array served by [/api/assets]. *)
Module Asset.
Record t := mk { coin : Coin.t; quantity : float }.
End Asset.

Module Wallet.
Record t := mk { id : float; balance : float }.
End Wallet.

Module Profile.
Record t := mk { fullName : string; email : string; mobile : option string }.
End Profile.

Inductive OrderType := BUY | SELL.

(** The [orderData] object posted to [/api/orders/pay]. *)
Module Order.
Record t := mk { coinId : string; quantity : float; orderType : OrderType }.
End Order.

(** The five intents [detectIntent] may answer. *)
Inductive Intent := price | market_cap | volume | change | general.

(** One entry of [conversationMemory]: [history] is [None] while the
    property is undefined, [lastCoin] likewise. *)
Record Session := mkSession {
  history : option (list string);
  lastCoin : option string
}.

(** What the route reads of the request: [req.body.message],
    [req.headers.authorization] and [req.ip]. *)
Record Request := mkRequest {
  message : option string;
  authorization : option string;
  ip : string
}.

Inductive Body := Reply (reply : string) | Error (error : string).

Record Response := mkResponse { status : Z; body : Body }.

(** ** Collaborators *)

(** The callback of [db.get] / [db.all]: an error or the row(s). *)
Inductive DbResult (A : Type) := DbRows (rows : A) | DbError.
Arguments DbRows {A} rows.
Arguments DbError {A}.

(** An [axios.get]: a response whose [data] may be [null], or a failure
    with its [message]. *)
Inductive AxiosResult (A : Type) := AxResponse (data : option A) | AxError (msg : string).
Arguments AxResponse {A} data.
Arguments AxError {A} msg.

(** The [axios.post] of an order: success, or a failure with
    [error.response?.data?.error] and [error.message]. *)
Inductive PostResult := PostOk | PostError (upstream : option string) (msg : string).

(** Raw JSON of the two reads whose payload the route never inspects. *)
Definition Json := string.

(** A call to a collaborator together with its answer. *)
Inductive Event :=
| GenerateContent (prompt : string) (res : option string)
| DbGet (key : string) (res : DbResult (option CoinFact.t))
| DbAll (limit : Z) (res : DbResult (list NewsItem.t))
| GetProfile (auth : string) (res : AxiosResult Profile.t)
| GetAssets (auth : string) (res : AxiosResult (list Asset.t))
| GetOrders (auth : string) (res : AxiosResult Json)
| GetWallet (auth : string) (res : AxiosResult Wallet.t)
| GetWalletTransactions (auth : string) (res : AxiosResult Json)
| PostOrder (auth : string) (order : Order.t) (res : PostResult).

(** The world outside the route.  Every answer may depend on the calls the
    request has made so far, so that two lookups of one request may differ.
    [generateContent] answers [None] when the call or [response.text()]
    throws.  [toLocaleString] is the host's locale-dependent number format. *)
Record Collaborators := mkCollaborators {
  generateContent : list Event -> string -> option string;
  db_get : list Event -> string -> DbResult (option CoinFact.t);
  db_all : list Event -> Z -> DbResult (list NewsItem.t);
  get_profile : list Event -> string -> AxiosResult Profile.t;
  get_assets : list Event -> string -> AxiosResult (list Asset.t);
  get_orders : list Event -> string -> AxiosResult Json;
  get_wallet : list Event -> string -> AxiosResult Wallet.t;
  get_wallet_transactions : list Event -> string -> AxiosResult Json;
  post_order : list Event -> string -> Order.t -> PostResult;
  toLocaleString : float -> string
}.

(** ** The monad of the route: state, trace and exceptions *)

(** The state a request runs in: the global [conversationMemory] object and
    the calls made so far. *)
Record Run := mkRun {
  conversationMemory : gmap string Session;
  trace : list Event
}.

(** A computation returns a value or throws (a rejected promise that is
    awaited throws too). *)
Inductive Outcome (A : Type) := Return (a : A) | Throw.
Arguments Return {A} a.
Arguments Throw {A}.

Definition M (A : Type) : Type := Run -> Outcome A * Run.

Definition ret {A} (a : A) : M A := fun st => (Return a, st).

Definition throw {A} : M A := fun st => (Throw, st).

Definition bind {A B} (c : M A) (k : A -> M B) : M B :=
  fun st =>
    match c st with
    | (Return a, st') => k a st'
    | (Throw, st') => (Throw, st')
    end.

Notation "x <- c ;; k" := (bind c (fun x => k))
  (at level 100, c at next level, right associativity).
Notation "c ;;; k" := (bind c (fun _ => k))
  (at level 100, right associativity).

(** Ask a collaborator: the answer is computed from the trace so far and
    the call is recorded with it. *)
Definition call {A} (answer : list Event -> A) (ev : A -> Event) : M A :=
  fun st =>
    let a := answer (trace st) in
    (Return a, mkRun (conversationMemory st) (trace st ++ [ev a])%list).

Definition getMemory : M (gmap string Session) :=
  fun st => (Return (conversationMemory st), st).

Definition setMemory (m : gmap string Session) : M unit :=
  fun st => (Return tt, mkRun m (trace st)).

(** ** Conversation memory *)

(** [l.slice(-n)]: the last [n] elements, all of them when there are fewer. *)
Definition sliceLast {A} (n : nat) (l : list A) : list A :=
  drop (length l - n) l.

(** The history after one exchange (lines 16-24): the two entries are
    pushed and the array is cut back to its last 20 entries when longer. *)
Definition nextHistory (h : option (list string)) (userMessage botReply : string)
  : list string :=
  let h0 := match h with Some h => h | None => [] end in
  let h1 := (h0 ++ ["User: " +:+ userMessage; "Bot: " +:+ botReply])%list in
  if (20 <? length h1)%nat then sliceLast 20 h1 else h1.

(** [updateConversationMemory]: reading [conversationMemory[userId].history]
    throws a TypeError when the user has no entry. *)
Definition updateConversationMemory (userId userMessage botReply : string) : M unit :=
  mem <- getMemory ;;
  match mem !! userId with
  | None => throw
  | Some sess =>
      setMemory (<[userId := mkSession (Some (nextHistory (history sess) userMessage botReply))
                                       (lastCoin sess)]> mem)
  end.

(** [cleanResponse]. *)
Definition cleanResponse (text : string) : string :=
  JsString.trim
    (JsString.collapseSpaces (JsString.removeStars (JsString.replaceNewlines text))).

(** ** Gateways *)

(** [getCryptoData]: [coinName.toLowerCase()] throws inside the promise
    executor when [coinName] is [null], which rejects the promise; a
    database error rejects it too; otherwise it resolves with the row,
    [undefined] when no row matches. *)
Definition getCryptoData (E : Collaborators) (coinName : option string)
  : M (option CoinFact.t) :=
  match coinName with
  | None => throw
  | Some c =>
      let key := JsString.toLowerCase c in
      r <- call (fun t => db_get E t key) (DbGet key) ;;
      match r with
      | DbError => throw
      | DbRows row => ret row
      end
  end.

(** [getLatestNews]. *)
Definition getLatestNews (E : Collaborators) (limit : Z) : M (list NewsItem.t) :=
  r <- call (fun t => db_all E t limit) (DbAll limit) ;;
  match r with
  | DbError => throw
  | DbRows rows => ret rows
  end.

(** The body shared by the five account reads: [response.data] of the
    request, [null] when it fails. *)
Definition axiosGet {A} (answer : list Event -> AxiosResult A)
    (ev : AxiosResult A -> Event) : M (option A) :=
  r <- call answer ev ;;
  match r with
  | AxResponse data => ret data
  | AxError _ => ret None
  end.

Definition fetchUserProfile (E : Collaborators) (authHeader : string) :=
  axiosGet (fun t => get_profile E t authHeader) (GetProfile authHeader).

Definition fetchUserPortfolio (E : Collaborators) (authHeader : string) :=
  axiosGet (fun t => get_assets E t authHeader) (GetAssets authHeader).

Definition fetchOrderHistory (E : Collaborators) (authHeader : string) :=
  axiosGet (fun t => get_orders E t authHeader) (GetOrders authHeader).

Definition fetchUserWallet (E : Collaborators) (authHeader : string) :=
  axiosGet (fun t => get_wallet E t authHeader) (GetWallet authHeader).

Definition fetchWalletTransactions (E : Collaborators) (authHeader : string) :=
  axiosGet (fun t => get_wallet_transactions E t authHeader)
           (GetWalletTransactions authHeader).

Definition extractPrompt (userQuery : string) : string :=
  "Identify the cryptocurrency name or symbol from this query. Respond only with the name/symbol or "
  +:+ JsString.dquote +:+ "unknown" +:+ JsString.dquote +:+ ". Query: "
  +:+ JsString.dquote +:+ userQuery +:+ JsString.dquote.

(** [extractCoinName]: a failure of the model is caught and gives [null]. *)
Definition extractCoinName (E : Collaborators) (userQuery : string) : M (option string) :=
  let prompt := extractPrompt userQuery in
  r <- call (fun t => generateContent E t prompt) (GenerateContent prompt) ;;
  match r with
  | Some text =>
      let coinName := JsString.toLowerCase (JsString.trim text) in
      ret (if String.eqb coinName "unknown" then None else Some coinName)
  | None => ret None
  end.

Definition intentOfString (s : string) : option Intent :=
  if String.eqb s "price" then Some price
  else if String.eqb s "market_cap" then Some market_cap
  else if String.eqb s "volume" then Some volume
  else if String.eqb s "change" then Some change
  else if String.eqb s "general" then Some general
  else None.

Definition intentPrompt (userQuery coinName : string) : string :=
  "Classify this query about " +:+ coinName
  +:+ " into one of: price, market_cap, volume, change, general. Respond with only the category. Query: "
  +:+ JsString.dquote +:+ userQuery +:+ JsString.dquote.

(** [detectIntent]. *)
Definition detectIntent (E : Collaborators) (userQuery coinName : string) : M Intent :=
  let prompt := intentPrompt userQuery coinName in
  r <- call (fun t => generateContent E t prompt) (GenerateContent prompt) ;;
  match r with
  | Some text =>
      match intentOfString (JsString.toLowerCase (JsString.trim text)) with
      | Some intent => ret intent
      | None => ret general
      end
  | None => ret general
  end.

(** ** The route *)

Definition ok (text : string) : Response := mkResponse 200 (Reply text).

(** The end of every answered branch: record the exchange, then
    [res.json({ reply })]. *)
Definition respond (userId cleanMessage text : string) : M Response :=
  updateConversationMemory userId cleanMessage text ;;;
  ret (ok text).

Definition isNewsQuery (cleanMessage : string) : bool :=
  JsString.includes cleanMessage "news"
  || JsString.includes cleanMessage "headlines"
  || JsString.includes cleanMessage "latest news".

Definition newsLine (item : NewsItem.t) : string :=
  "• " +:+ NewsItem.title item +:+ " (Source: " +:+ NewsItem.source item
  +:+ ", Published: " +:+ NewsItem.published_at item +:+ ")" +:+ JsString.nl.

(** The news branch (lines 182-196). *)
Definition newsBranch (E : Collaborators) (userId cleanMessage : string) : M Response :=
  newsItems <- getLatestNews E 5 ;;
  match newsItems with
  | _ :: _ =>
      respond userId cleanMessage
        (fold_left (fun acc item => acc +:+ newsLine item) newsItems
                   ("Here are the latest news headlines:" +:+ JsString.nl))
  | [] => respond userId cleanMessage "No news available at the moment."
  end.

Definition orderTypeOf (cleanMessage : string) : OrderType :=
  if JsString.includes cleanMessage "buy" then BUY else SELL.

Definition orderTypeLower (o : OrderType) : string :=
  match o with BUY => "buy" | SELL => "sell" end.

Definition isDollarQuery (cleanMessage : string) : bool :=
  JsString.includes cleanMessage "dollar"
  || JsString.includes cleanMessage "usd"
  || JsString.includes cleanMessage "worth".

(** A coin name inside a template literal. *)
Definition showCoin (coinName : option string) : string :=
  match coinName with Some c => c | None => "null" end.

Definition noDataReply (coinName : option string) : string :=
  "⚠️ Couldn't find data for " +:+ showCoin coinName.

Definition notHoldingReply (coinName : string) : string :=
  "You are not holding " +:+ coinName +:+ ".".

(** The predicate of [portfolio.find]. *)
Definition holds (coinName : string) (asset : Asset.t) : bool :=
  String.eqb (JsString.toLowerCase (Coin.name (Asset.coin asset))) coinName
  || String.eqb (JsString.toLowerCase (Coin.symbol (Asset.coin asset))) coinName.

Definition buyCost (isDollar : bool) (parsedNumber quantity : float)
    (cryptoData : CoinFact.t) : float :=
  if isDollar then parsedNumber else (quantity * CoinFact.price cryptoData)%float.

(** Lines 283-305: build [orderData] and post it once; a failed post is
    answered too. *)
Definition placeOrder (E : Collaborators) (userId authHeader cleanMessage : string)
    (orderType : OrderType) (quantity : float) (cryptoData : CoinFact.t) : M Response :=
  let coinId := JsString.toLowerCase (CoinFact.name cryptoData) in
  let orderData :=
    Order.mk coinId (JsNumber.parseFloat (JsNumber.toFixed quantity 8)) orderType in
  r <- call (fun t => post_order E t authHeader orderData) (PostOrder authHeader orderData) ;;
  match r with
  | PostOk =>
      respond userId cleanMessage
        ("Order placed successfully for " +:+ orderTypeLower orderType +:+ "ing "
         +:+ CoinFact.name cryptoData +:+ ".")
  | PostError upstream msg =>
      respond userId cleanMessage
        ("❌ Failed to place the order. "
         +:+ match upstream with
             | Some (String _ _ as e) => e
             | _ => msg
             end)
  end.

(** Lines 246-281: the wallet check of a BUY, the holdings check of a SELL. *)
Definition validateOrder (E : Collaborators) (userId authHeader cleanMessage : string)
    (orderType : OrderType) (isDollar : bool) (parsedNumber quantity : float)
    (coinName : string) (cryptoData : CoinFact.t) : M Response :=
  match orderType with
  | BUY =>
      wallet <- fetchUserWallet E authHeader ;;
      match wallet with
      | None => respond userId cleanMessage "❌ Couldn't fetch wallet balance."
      | Some wallet =>
          let cost := buyCost isDollar parsedNumber quantity cryptoData in
          if (Wallet.balance wallet <? cost)%float
          then respond userId cleanMessage "Insufficient wallet balance to buy."
          else placeOrder E userId authHeader cleanMessage orderType quantity cryptoData
      end
  | SELL =>
      portfolio <- fetchUserPortfolio E authHeader ;;
      match portfolio with
      | None => respond userId cleanMessage "❌ Couldn't fetch your portfolio."
      | Some portfolio =>
          match find (holds coinName) portfolio with
          | None => respond userId cleanMessage (notHoldingReply coinName)
          | Some assetFound =>
              if (Asset.quantity assetFound <? quantity)%float
              then respond userId cleanMessage "Insufficient quantity to sell."
              else placeOrder E userId authHeader cleanMessage orderType quantity cryptoData
          end
      end
  end.

(** Lines 232-244: the coin check and the coin lookup that follow the
    computation of [quantity]. *)
Definition tradeWithQuantity (E : Collaborators) (userId authHeader cleanMessage : string)
    (orderType : OrderType) (isDollar : bool) (parsedNumber quantity : float)
    (coinName : option string) : M Response :=
  match coinName with
  | Some (String _ _ as c) =>
      cryptoData <- getCryptoData E coinName ;;
      match cryptoData with
      | None => respond userId cleanMessage (noDataReply coinName)
      | Some cryptoData =>
          validateOrder E userId authHeader cleanMessage orderType isDollar
                        parsedNumber quantity c cryptoData
      end
  | _ => respond userId cleanMessage "Please specify which coin you want to trade."
  end.

(** The buy/sell branch (lines 200-306).  For a BUY in dollars the price is
    looked up, with [coinName] as it is, before the coin check. *)
Definition tradeBranch (E : Collaborators) (userId authHeader cleanMessage : string)
    (coinName : option string) : M Response :=
  let orderType := orderTypeOf cleanMessage in
  match JsString.matchNumber cleanMessage with
  | None =>
      respond userId cleanMessage
        ("Please specify the amount to " +:+ orderTypeLower orderType +:+ ".")
  | Some amountMatch =>
      let parsedNumber := JsNumber.parseFloat amountMatch in
      let isDollar := isDollarQuery cleanMessage in
      let continue :=
        tradeWithQuantity E userId authHeader cleanMessage orderType isDollar
                          parsedNumber in
      match orderType with
      | BUY =>
          if isDollar
          then
            cryptoData <- getCryptoData E coinName ;;
            match cryptoData with
            | None => respond userId cleanMessage (noDataReply coinName)
            | Some cryptoData =>
                continue (parsedNumber / CoinFact.price cryptoData)%float coinName
            end
          else continue parsedNumber coinName
      | SELL => continue parsedNumber coinName
      end
  end.

Definition isHoldingQuery (cleanMessage : string) : bool :=
  JsString.includes cleanMessage "holding"
  || JsString.includes cleanMessage "am i holding".

(** [coinData && coinData.price ? (quantity * coinData.price).toFixed(2) : "N/A"],
    with [None] for ["N/A"]. *)
Definition currentValue (quantity : float) (coinData : option CoinFact.t) : option string :=
  match coinData with
  | Some cd =>
      if JsNumber.truthy (CoinFact.price cd)
      then Some (JsNumber.toFixed (quantity * CoinFact.price cd)%float 2)
      else None
  | None => None
  end.

(** The holdings branch (lines 310-332). *)
Definition holdingsBranch (E : Collaborators) (userId authHeader cleanMessage coinName : string)
  : M Response :=
  portfolio <- fetchUserPortfolio E authHeader ;;
  match portfolio with
  | None => respond userId cleanMessage "❌ Couldn't fetch your portfolio."
  | Some portfolio =>
      match find (holds coinName) portfolio with
      | Some assetFound =>
          coinData <- getCryptoData E (Some (Coin.id (Asset.coin assetFound))) ;;
          respond userId cleanMessage
            ("Yes, you are holding " +:+ JsNumber.toString (Asset.quantity assetFound)
             +:+ " " +:+ Coin.name (Asset.coin assetFound)
             +:+ " (" +:+ Coin.symbol (Asset.coin assetFound) +:+ ")."
             +:+ match currentValue (Asset.quantity assetFound) coinData with
                 | Some value => " Its current value is $" +:+ value +:+ "."
                 | None => ""
                 end)
      | None => respond userId cleanMessage (notHoldingReply coinName)
      end
  end.

(** The [responses] table (lines 339-345); [general] has no entry. *)
Definition responses (E : Collaborators) (cryptoData : CoinFact.t) (intent : Intent)
  : option string :=
  match intent with
  | price =>
      Some ("💰 Current price of " +:+ CoinFact.name cryptoData
            +:+ " (" +:+ JsString.toUpperCase (CoinFact.symbol cryptoData) +:+ ") is $"
            +:+ JsNumber.toFixed (CoinFact.price cryptoData) 2)
  | market_cap =>
      Some ("📊 Market Cap: $" +:+ toLocaleString E (CoinFact.market_cap cryptoData))
  | volume =>
      Some ("💹 24h Volume: $" +:+ toLocaleString E (CoinFact.volume_24h cryptoData))
  | change =>
      Some ("📈 24h Change: " +:+ JsNumber.toString (CoinFact.change_24h cryptoData) +:+ "%")
  | general => None
  end.

Definition sensitiveKeywords : list string :=
  ["profile"; "portfolio"; "orders"; "wallet"; "transaction"].

Definition profilePart (profile : Profile.t) : string :=
  "👤 User Profile:" +:+ JsString.nl
  +:+ "- Name: " +:+ Profile.fullName profile +:+ JsString.nl
  +:+ "- Email: " +:+ Profile.email profile +:+ JsString.nl
  +:+ "- Phone: " +:+ match Profile.mobile profile with
                      | Some (String _ _ as m) => m
                      | _ => "Not provided"
                      end.

(** One line of the portfolio block (lines 384-388). *)
Definition portfolioLine (E : Collaborators) (asset : Asset.t) : M string :=
  coinData <- getCryptoData E (Some (Coin.id (Asset.coin asset))) ;;
  ret ("- " +:+ JsNumber.toString (Asset.quantity asset)
       +:+ " " +:+ Coin.symbol (Asset.coin asset)
       +:+ " ($" +:+ match currentValue (Asset.quantity asset) coinData with
                     | Some v => v
                     | None => "N/A"
                     end
       +:+ ") @ $" +:+ match coinData with
                       | Some cd => JsNumber.toFixed (CoinFact.price cd) 2
                       | None => "N/A"
                       end).

(** [Promise.all(portfolio.map(...))]: every lookup is issued; the whole
    rejects when one of them does. *)
Fixpoint portfolioLines (E : Collaborators) (portfolio : list Asset.t) : M (list string) :=
  match portfolio with
  | [] => ret []
  | asset :: rest =>
      fun st =>
        let '(o, st1) := portfolioLine E asset st in
        let '(os, st2) := portfolioLines E rest st1 in
        match o, os with
        | Return l, Return ls => (Return (l :: ls), st2)
        | _, _ => (Throw, st2)
        end
  end.

Definition walletPart (wallet : Wallet.t) : string :=
  "💰 Wallet Balance: $" +:+ JsNumber.toFixed (Wallet.balance wallet) 2 +:+ JsString.nl
  +:+ "🔖 Wallet ID: #FAVHJY" +:+ JsNumber.toString (Wallet.id wallet).

(** Lines 370-395: the account context of the fallback prompt. *)
Definition contextParts (E : Collaborators) (authHeader : string) : M (list string) :=
  profile <- fetchUserProfile E authHeader ;;
  portfolio <- fetchUserPortfolio E authHeader ;;
  wallet <- fetchUserWallet E authHeader ;;
  let p1 := match profile with Some p => [profilePart p] | None => [] end in
  p2 <- match portfolio with
        | Some ((_ :: _) as assets) =>
            details <- portfolioLines E assets ;;
            ret ["📦 Portfolio Holdings:" +:+ JsString.nl +:+ JsString.join JsString.nl details]
        | _ => ret []
        end ;;
  let p3 := match wallet with Some w => [walletPart w] | None => [] end in
  ret (p1 ++ p2 ++ p3)%list.

(** The template of lines 400-404. *)
Definition buildPrompt (conversationHistory : string) (includeUserData : bool)
    (parts : list string) (cleanMessage : string) : string :=
  "You are a financial assistant." +:+ JsString.nl
  +:+ match conversationHistory with
      | EmptyString => ""
      | h => "Conversation History:" +:+ JsString.nl +:+ h +:+ JsString.nl
      end
  +:+ JsString.nl
  +:+ match includeUserData, parts with
      | true, _ :: _ =>
          "User Data:" +:+ JsString.nl
          +:+ JsString.join (JsString.nl +:+ JsString.nl) parts +:+ JsString.nl
      | _, _ => ""
      end
  +:+ JsString.nl
  +:+ "Current Query: " +:+ JsString.dquote +:+ cleanMessage +:+ JsString.dquote
  +:+ JsString.nl
  +:+ "Provide a detailed, specific response.".

(** The generative fallback (lines 358-409); a failure of the model is not
    caught here. *)
Definition fallbackBranch (E : Collaborators) (userId : string) (authHeader : option string)
    (cleanMessage : string) : M Response :=
  let includeUserData := existsb (JsString.includes cleanMessage) sensitiveKeywords in
  parts <- match authHeader with
           | Some (String _ _ as a) => if includeUserData then contextParts E a else ret []
           | _ => ret []
           end ;;
  mem <- getMemory ;;
  match mem !! userId with
  | Some (mkSession (Some h) _) =>
      let conversationHistory := JsString.join JsString.nl (sliceLast 10 h) in
      let prompt := buildPrompt conversationHistory includeUserData parts cleanMessage in
      result <- call (fun t => generateContent E t prompt) (GenerateContent prompt) ;;
      match result with
      | None => throw
      | Some text => respond userId cleanMessage (cleanResponse text)
      end
  | _ => throw
  end.

(** The market-data branch (lines 335-356); intent [general] falls through
    to the fallback. *)
Definition marketBranch (E : Collaborators) (userId : string) (authHeader : option string)
    (cleanMessage : string) (coinName : option string) : M Response :=
  match coinName with
  | Some (String _ _ as c) =>
      cryptoData <- getCryptoData E coinName ;;
      match cryptoData with
      | Some cryptoData =>
          intent <- detectIntent E cleanMessage c ;;
          match responses E cryptoData intent with
          | Some text => respond userId cleanMessage text
          | None => fallbackBranch E userId authHeader cleanMessage
          end
      | None => respond userId cleanMessage (noDataReply coinName)
      end
  | _ => fallbackBranch E userId authHeader cleanMessage
  end.

(** Lines 167-171: the user's entry is created on the first message. *)
Definition seedSession (userId : string) : M unit :=
  mem <- getMemory ;;
  match mem !! userId with
  | None => setMemory (<[userId := mkSession (Some []) None]> mem)
  | Some (mkSession None lc) => setMemory (<[userId := mkSession (Some []) lc]> mem)
  | Some _ => ret tt
  end.

(** Lines 174-179: the coin of this message, else the remembered one. *)
Definition resolveCoin (E : Collaborators) (userId cleanMessage : string) : M (option string) :=
  coinName <- extractCoinName E cleanMessage ;;
  mem <- getMemory ;;
  match mem !! userId with
  | None => throw
  | Some sess =>
      if JsString.truthy coinName
      then setMemory (<[userId := mkSession (history sess) coinName]> mem) ;;; ret coinName
      else if JsString.truthy (lastCoin sess) then ret (lastCoin sess)
      else ret coinName
  end.

Definition userIdOf (req : Request) : string :=
  match authorization req with
  | Some (String _ _ as a) => a
  | _ => ip req
  end.

(** The branches in their order (lines 181-409). *)
Definition dispatch (E : Collaborators) (userId : string) (authHeader : option string)
    (cleanMessage : string) (coinName : option string) : M Response :=
  if isNewsQuery cleanMessage then newsBranch E userId cleanMessage
  else
    match authHeader with
    | Some (String _ _ as a) =>
        if JsString.includes cleanMessage "buy" || JsString.includes cleanMessage "sell"
        then tradeBranch E userId a cleanMessage coinName
        else
          match coinName with
          | Some (String _ _ as c) =>
              if isHoldingQuery cleanMessage
              then holdingsBranch E userId a cleanMessage c
              else marketBranch E userId authHeader cleanMessage coinName
          | _ => marketBranch E userId authHeader cleanMessage coinName
          end
    | _ => marketBranch E userId authHeader cleanMessage coinName
    end.

(** Lines 164-179: the session is seeded and the coin resolved before any
    branch is tried. *)
Definition prelude (E : Collaborators) (userId cleanMessage : string) : M (option string) :=
  seedSession userId ;;;
  resolveCoin E userId cleanMessage.

Definition cleanOf (msg : string) : string :=
  JsString.trim (JsString.toLowerCase msg).

(** The body of the [try] block. *)
Definition handle (E : Collaborators) (req : Request) : M Response :=
  match message req with
  | Some (String _ _ as msg) =>
      let cleanMessage := cleanOf msg in
      let userId := userIdOf req in
      coinName <- prelude E userId cleanMessage ;;
      dispatch E userId (authorization req) cleanMessage coinName
  | _ => ret (mkResponse 400 (Error "Message is required"))
  end.

(** What serving one request leaves behind: the response sent, the
    conversation memory, and the collaborator calls made, in order. *)
Record Served := mkServed {
  response : Response;
  memory : gmap string Session;
  calls : list Event
}.

(** The route [router.post] registers: the handler run on the current
    memory; what is thrown inside is answered with status 500. *)
Definition chat (E : Collaborators) (req : Request) (mem : gmap string Session) : Served :=
  match handle E req (mkRun mem []) with
  | (Return res, st) => mkServed res (conversationMemory st) (trace st)
  | (Throw, st) =>
      mkServed (mkResponse 500 (Error "Internal server error"))
               (conversationMemory st) (trace st)
  end.

(** The orders posted within a trace. *)
Definition ordersIn (t : list Event) : list Order.t :=
  flat_map (fun e => match e with PostOrder _ o _ => [o] | _ => [] end) t.

(** The requests of a process served one after the other from an empty
    memory, each in its own world. *)
Fixpoint serve (reqs : list (Collaborators * Request)) (mem : gmap string Session)
  : gmap string Session :=
  match reqs with
  | [] => mem
  | (E, req) :: rest => serve rest (memory (chat E req mem))
  end.

(** The coin [extractCoinName] returns for a message at the start of a
    request, when no call has been made yet. *)
Definition extractedCoin (E : Collaborators) (cleanMessage : string) : option string :=
  match fst (extractCoinName E cleanMessage (mkRun ∅ [])) with
  | Return c => c
  | Throw => None
  end.

(** The coin name the branches of a request are entered with. *)
Definition resolvedCoin (E : Collaborators) (req : Request) (mem : gmap string Session)
  : option string :=
  match message req with
  | Some (String _ _ as msg) =>
      match fst (prelude E (userIdOf req) (cleanOf msg) (mkRun mem [])) with
      | Return c => c
      | Throw => None
      end
  | _ => None
  end.

(** The coin remembered for a user, if any. *)
Definition memLastCoin (mem : gmap string Session) (u : string) : option string :=
  mem !! u ≫= lastCoin.

(** The history stored for a user; an absent entry or property reads as the
    empty history. *)
Definition memHistory (mem : gmap string Session) (u : string) : list string :=
  default [] (mem !! u ≫= history).

Definition isDbGet (e : Event) : Prop :=
  match e with DbGet _ _ => True | _ => False end.

(** ** A weakest-precondition calculus for the monad *)

(** [wp c Q st]: running [c] from [st] ends in an outcome and a state that
    satisfy [Q].  Computations are total functions, so this is a statement
    about the one run there is. *)
Definition wp {A} (c : M A) (Q : Outcome A -> Run -> Prop) (st : Run) : Prop :=
  Q (fst (c st)) (snd (c st)).

(** How [chat] turns the end of the [try] block into what it leaves behind. *)
Definition finish (o : Outcome Response) (st : Run) : Served :=
  match o with
  | Return res => mkServed res (conversationMemory st) (trace st)
  | Throw =>
      mkServed (mkResponse 500 (Error "Internal server error"))
               (conversationMemory st) (trace st)
  end.

(** ** Sample worlds and requests *)

Definition bitcoin : CoinFact.t :=
  CoinFact.mk "Bitcoin" "btc" 42012.5 800000000000 30000000000 1.25 "2024-01-01 00:00:00".

(** A world whose answers do not depend on the calls made before: the
    model names [coin] when asked to identify one, classifies every query
    as general and otherwise writes a short text; every order is accepted. *)
Definition steadyWorld (coin : string) (row : DbResult (option CoinFact.t))
    (news : DbResult (list NewsItem.t)) (wallet : AxiosResult Wallet.t)
    (assets : AxiosResult (list Asset.t)) : Collaborators :=
  mkCollaborators
    (fun _ prompt =>
       if JsString.startsWith prompt "Identify" then Some coin
       else if JsString.startsWith prompt "Classify" then Some "general"
            else Some "Happy to help.")
    (fun _ _ => row)
    (fun _ _ => news)
    (fun _ _ => AxError "Network Error")
    (fun _ _ => assets)
    (fun _ _ => AxError "Network Error")
    (fun _ _ => wallet)
    (fun _ _ => AxError "Network Error")
    (fun _ _ _ => PostOk)
    JsNumber.toString.

Definition fullWallet : Wallet.t := Wallet.mk 7 100000.

Definition twoBitcoin : Asset.t := Asset.mk (Coin.mk "bitcoin" "Bitcoin" "BTC") 2.

(** The model recognises Bitcoin; the database, wallet and portfolio answer. *)
Definition bitcoinWorld : Collaborators :=
  steadyWorld "Bitcoin" (DbRows (Some bitcoin)) (DbRows [])
              (AxResponse (Some fullWallet)) (AxResponse (Some [twoBitcoin])).

(** The model finds no coin in the message. *)
Definition noCoinWorld : Collaborators :=
  steadyWorld "unknown" (DbRows (Some bitcoin)) (DbRows [])
              (AxResponse (Some fullWallet)) (AxResponse (Some [twoBitcoin])).

(** The database reports an error on every query. *)
Definition dbDownWorld : Collaborators :=
  steadyWorld "Bitcoin" DbError DbError
              (AxResponse (Some fullWallet)) (AxResponse (Some [twoBitcoin])).

Definition authed (msg : string) : Request :=
  mkRequest (Some msg) (Some "Bearer token") "203.0.113.7".

Definition anonymous (msg : string) : Request :=
  mkRequest (Some msg) None "203.0.113.7".

(** A history of ten exchanges, twenty entries. *)
Definition tenTurns : list string :=
  ["User: q01"; "Bot: r01"; "User: q02"; "Bot: r02"; "User: q03"; "Bot: r03";
   "User: q04"; "Bot: r04"; "User: q05"; "Bot: r05"; "User: q06"; "Bot: r06";
   "User: q07"; "Bot: r07"; "User: q08"; "Bot: r08"; "User: q09"; "Bot: r09";
   "User: q10"; "Bot: r10"].

Definition tenTurnMemory : gmap string Session :=
  {[ "203.0.113.7" := mkSession (Some tenTurns) None ]}.

(** The portfolio is empty. *)
Definition emptyHandedWorld : Collaborators :=
  steadyWorld "Bitcoin" (DbRows (Some bitcoin)) (DbRows [])
              (AxResponse (Some fullWallet)) (AxResponse (Some [])).

Definition headlines : list NewsItem.t :=
  [NewsItem.mk "Bitcoin climbs" "https://example.org/a" "Wire" "2024-01-02";
   NewsItem.mk "Ether steady" "https://example.org/b" "Desk" "2024-01-01"].

(** The database has two news items. *)
Definition newsWorld : Collaborators :=
  steadyWorld "unknown" (DbRows None) (DbRows headlines)
              (AxResponse (Some fullWallet)) (AxResponse (Some [twoBitcoin])).


Definition ada : Profile.t := Profile.mk "Ada Lovelace" "ada@example.org" None.

(** The model finds no coin; the backend serves the profile, the portfolio
    and the wallet. *)
Definition accountWorld : Collaborators :=
  mkCollaborators
    (generateContent noCoinWorld) (db_get noCoinWorld) (db_all noCoinWorld)
    (fun _ _ => AxResponse (Some ada))
    (get_assets noCoinWorld) (get_orders noCoinWorld) (get_wallet noCoinWorld)
    (get_wallet_transactions noCoinWorld) (post_order noCoinWorld)
    (toLocaleString noCoinWorld).

(** The stored price of Bitcoin is 0. *)
Definition zeroPriceWorld : Collaborators :=
  steadyWorld "Bitcoin"
    (DbRows (Some (CoinFact.mk "Bitcoin" "btc" 0 0 0 0 "2024-01-01 00:00:00")))
    (DbRows []) (AxResponse (Some fullWallet)) (AxResponse (Some [twoBitcoin])).

(** The backend refuses every order. *)
Definition refusingWorld : Collaborators :=
  mkCollaborators
    (generateContent bitcoinWorld) (db_get bitcoinWorld) (db_all bitcoinWorld)
    (get_profile bitcoinWorld) (get_assets bitcoinWorld) (get_orders bitcoinWorld)
    (get_wallet bitcoinWorld) (get_wallet_transactions bitcoinWorld)
    (fun _ _ _ => PostError (Some "Insufficient funds") "Request failed with status code 400")
    (toLocaleString bitcoinWorld).

(** The wallet cannot be fetched. *)
Definition noWalletWorld : Collaborators :=
  steadyWorld "Bitcoin" (DbRows (Some bitcoin)) (DbRows [])
              (AxError "Network Error") (AxResponse (Some [twoBitcoin])).

(** ** Predicates on texts, traces and histories *)

(** Every character of [s] passes the test [f]. *)
Fixpoint allChars (f : ascii -> bool) (s : string) : bool :=
  match s with
  | EmptyString => true
  | String c s' => f c && allChars f s'
  end.

Definition notStar (c : ascii) : bool := negb (Ascii.eqb c "*").

Definition headNotSpace (s : string) : bool :=
  match s with
  | EmptyString => true
  | String c _ => negb (JsString.isSpace c)
  end.

(** Every white space character of [s] is a space, and what follows it is
    not white space; [atEnd] tells whether the end of the text may follow. *)
Fixpoint singleSpaced (atEnd : bool) (s : string) : bool :=
  match s with
  | EmptyString => true
  | String c s' =>
      (if JsString.isSpace c
       then Ascii.eqb c " "
            && match s' with
               | EmptyString => atEnd
               | String c' _ => negb (JsString.isSpace c')
               end
       else true)
      && singleSpaced atEnd s'
  end.

(** A character of the ASCII range.  On texts made of these the case
    folding and the white space of the model are JavaScript's. *)
Definition isAscii (c : ascii) : bool := (nat_of_ascii c <? 128)%nat.

(** The characters [cleanResponse] never touches. *)
Definition isWordChar (c : ascii) : bool :=
  negb (JsString.isSpace c || Ascii.eqb c "*").

(** The characters of [s] that are neither white space nor asterisks. *)
Fixpoint wordChars (s : string) : list ascii :=
  match s with
  | EmptyString => []
  | String c s' => if isWordChar c then c :: wordChars s' else wordChars s'
  end.

Definition notDigit (c : ascii) : bool := negb (JsString.isDigit c).

Definition headNotDigit (s : string) : bool :=
  match s with
  | EmptyString => true
  | String c _ => negb (JsString.isDigit c)
  end.

(** [s] starts with a point that a digit follows. *)
Definition startsWithFraction (s : string) : bool :=
  match s with
  | String "." (String c _) => JsString.isDigit c
  | _ => false
  end.

(** The request passes the message guard of line 162. *)
Definition hasMessage (req : Request) : bool := JsString.truthy (message req).

(** The users of the requests that pass the message guard. *)
Definition usersServed (reqs : list (Collaborators * Request)) : list string :=
  map (fun p => userIdOf (snd p)) (List.filter (fun p => hasMessage (snd p)) reqs).

(** A history made of whole exchanges: a user entry, then a bot entry. *)
Fixpoint wholeExchanges (h : list string) : bool :=
  match h with
  | [] => true
  | u :: b :: rest =>
      JsString.startsWith u "User: " && JsString.startsWith b "Bot: " && wholeExchanges rest
  | [_] => false
  end.

(** The key [getCryptoData] looks an asset up by. *)
Definition assetKey (asset : Asset.t) : string :=
  JsString.toLowerCase (Coin.id (Asset.coin asset)).

(** The [db.get] calls with the given keys and answers. *)
Definition lookups (keys : list string) (answers : list (DbResult (option CoinFact.t)))
  : list Event :=
  map (fun ka => DbGet (fst ka) (snd ka)) (combine keys answers).

(** The credential a call to the account backend is made with. *)
Definition accountCredential (e : Event) : option string :=
  match e with
  | GetProfile a _ | GetAssets a _ | GetOrders a _ | GetWallet a _
  | GetWalletTransactions a _ | PostOrder a _ _ => Some a
  | GenerateContent _ _ | DbGet _ _ | DbAll _ _ => None
  end.

(** The prompts sent to the model within a trace. *)
Definition modelCalls (t : list Event) : list string :=
  flat_map (fun e => match e with GenerateContent p _ => [p] | _ => [] end) t.

(** ** Messages of other kinds, rows with NULL columns, inherited names *)

(** The value of [req.body.message] in a parsed body: absent, or a JSON
    value.  Arrays and objects are not told apart: both pass the guard of
    line 162 and neither has a method [toLowerCase]. *)
Inductive JsonValue :=
| JAbsent
| JNull
| JBool (b : bool)
| JNum (x : float)
| JStr (s : string)
| JStructured.

(** JavaScript truthiness of such a value. *)
Definition truthyValue (v : JsonValue) : bool :=
  match v with
  | JAbsent | JNull => false
  | JBool b => b
  | JNum x => JsNumber.truthy x
  | JStr s => JsString.truthy (Some s)
  | JStructured => true
  end.

(** The route on a message of any kind (lines 160-164 and the [catch]).  A
    string is handled by [chat], and so is a value the guard of line 162
    turns away.  Any other value passes the guard and has no method
    [toLowerCase]: line 164 throws a TypeError before the session is created
    or anything is called, and the [catch] answers with status 500. *)
Definition route (E : Collaborators) (msg : JsonValue) (authHeader : option string)
    (ip : string) (mem : gmap string Session) : Served :=
  match msg with
  | JStr s => chat E (mkRequest (Some s) authHeader ip) mem
  | _ =>
      if truthyValue msg
      then mkServed (mkResponse 500 (Error "Internal server error")) mem []
      else chat E (mkRequest None authHeader ip) mem
  end.

(** The names of the members of [Object.prototype].  [conversationMemory] is
    a plain object: indexed by one of these names it yields the inherited
    member, line 167 then creates no session, and what the route stores for
    such a user id is stored on that member (for [__proto__] on
    [Object.prototype] itself, where every other session inherits it). *)
Definition objectPrototypeMembers : list string :=
  ["constructor"; "__defineGetter__"; "__defineSetter__"; "hasOwnProperty";
   "__lookupGetter__"; "__lookupSetter__"; "isPrototypeOf"; "propertyIsEnumerable";
   "toString"; "valueOf"; "__proto__"; "toLocaleString"].

(** A user id for which [conversationMemory] is the finite map of the
    model: the object inherits nothing under that name. *)
Definition ownUserId (userId : string) : bool :=
  negb (existsb (String.eqb userId) objectPrototypeMembers).

(** Every user who passed the message guard has such a user id. *)
Definition ownUserIds (reqs : list (Collaborators * Request)) : bool :=
  forallb ownUserId (usersServed reqs).

(** A row of [crypto_prices] as the database hands it over: a column may be
    NULL. *)
Module PriceRow.
Record t := mk {
  name : option string;
  symbol : option string;
  price : option float;
  market_cap : option float;
  volume_24h : option float;
  change_24h : option float;
  last_updated : option string
}.
End PriceRow.



(** * Properties *)

(** ** Running the building blocks *)

Lemma respond_run u cm text mem t s :
  mem !! u = Some s ->
  respond u cm text (mkRun mem t) =
    (Return (ok text),
     mkRun (<[u := mkSession (Some (nextHistory (history s) cm text)) (lastCoin s)]> mem) t).
Proof.
  intros H. unfold respond, updateConversationMemory, bind, getMemory, setMemory, ret.
  cbn [conversationMemory trace]. rewrite H. reflexivity.
Qed.

Lemma extractCoinName_run E cm st :
  extractCoinName E cm st =
    (Return (match generateContent E (trace st) (extractPrompt cm) with
             | Some text =>
                 let c := JsString.toLowerCase (JsString.trim text) in
                 if String.eqb c "unknown" then None else Some c
             | None => None
             end),
     mkRun (conversationMemory st)
           (trace st ++ [GenerateContent (extractPrompt cm)
                           (generateContent E (trace st) (extractPrompt cm))])).
Proof.
  unfold extractCoinName, bind, call, ret.
  destruct (generateContent E (trace st) (extractPrompt cm)); reflexivity.
Qed.

(** The prelude never throws: it leaves the user with a session whose
    history is the one it had (empty for a new user) and makes exactly one
    call, the extraction. *)
Lemma prelude_run E u cm mem :
  exists mem1,
    prelude E u cm (mkRun mem []) =
      (Return (if JsString.truthy (extractedCoin E cm) then extractedCoin E cm
               else if JsString.truthy (memLastCoin mem u) then memLastCoin mem u
                    else extractedCoin E cm),
       mkRun mem1 [GenerateContent (extractPrompt cm)
                     (generateContent E [] (extractPrompt cm))])
    /\ mem1 !! u =
         Some (mkSession (Some (memHistory mem u))
                         (if JsString.truthy (extractedCoin E cm) then extractedCoin E cm
                          else memLastCoin mem u))
    /\ (forall v, v <> u -> mem1 !! v = mem !! v).
Proof.
  unfold prelude, seedSession, resolveCoin, extractedCoin, memLastCoin, memHistory.
  unfold bind at 1 2. unfold getMemory at 1. cbn [conversationMemory].
  destruct (mem !! u) as [[[h|] lc]|] eqn:Hu; cbn [setMemory ret];
    unfold bind; rewrite !extractCoinName_run;
    cbn [fst trace conversationMemory app getMemory];
    rewrite ?lookup_insert_eq, ?Hu; cbn [lastCoin history mbind option_bind default];
    set (c := match generateContent E [] (extractPrompt cm) with
              | Some text => _ | None => None end);
    destruct (JsString.truthy c) eqn:Hc; cbn [setMemory ret trace conversationMemory].
  all: try destruct (JsString.truthy lc) eqn:Hlc.
  all: eexists; (split; [reflexivity|]).
  all: rewrite ?lookup_insert_eq, ?Hu.
  all: (split; [reflexivity|]).
  all: intros v Hv; rewrite ?lookup_insert_ne by congruence; reflexivity.
Qed.

Lemma resolvedCoin_eq E req mem a msg :
  message req = Some (String a msg) ->
  resolvedCoin E req mem =
    let cm := cleanOf (String a msg) in
    let u := userIdOf req in
    if JsString.truthy (extractedCoin E cm) then extractedCoin E cm
    else if JsString.truthy (memLastCoin mem u) then memLastCoin mem u
         else extractedCoin E cm.
Proof.
  intros Hm. unfold resolvedCoin. rewrite Hm.
  destruct (prelude_run E (userIdOf req) (cleanOf (String a msg)) mem) as (mem1 & Hrun & _).
  rewrite Hrun. reflexivity.
Qed.

(** ** Rules of the calculus *)

Lemma wp_ret {A} (a : A) Q st : Q (Return a) st -> wp (ret a) Q st.
Proof. exact (fun H => H). Qed.

Lemma wp_throw {A} (Q : Outcome A -> Run -> Prop) st : Q Throw st -> wp throw Q st.
Proof. exact (fun H => H). Qed.

Lemma wp_bind {A B} (c : M A) (k : A -> M B) Q st :
  wp c (fun o st' => match o with
                     | Return a => wp (k a) Q st'
                     | Throw => Q Throw st'
                     end) st ->
  wp (bind c k) Q st.
Proof.
  unfold wp, bind. destruct (c st) as [[a|] st']; exact (fun H => H).
Qed.

Lemma wp_call {A} (answer : list Event -> A) (ev : A -> Event) Q mem t :
  (forall a, a = answer t -> Q (Return a) (mkRun mem (t ++ [ev a]))) ->
  wp (call answer ev) Q (mkRun mem t).
Proof. intros H. apply (H _ eq_refl). Qed.

Lemma wp_getMemory Q mem t :
  Q (Return mem) (mkRun mem t) -> wp getMemory Q (mkRun mem t).
Proof. exact (fun H => H). Qed.

Lemma wp_respond u cm text Q mem t s :
  mem !! u = Some s ->
  Q (Return (ok text))
    (mkRun (<[u := mkSession (Some (nextHistory (history s) cm text)) (lastCoin s)]> mem) t) ->
  wp (respond u cm text) Q (mkRun mem t).
Proof. intros Hs H. unfold wp. rewrite (respond_run _ _ _ _ _ _ Hs). exact H. Qed.

Lemma wp_prelude E u cm Q mem :
  (forall mem1 coin,
      coin = (if JsString.truthy (extractedCoin E cm) then extractedCoin E cm
              else if JsString.truthy (memLastCoin mem u) then memLastCoin mem u
                   else extractedCoin E cm) ->
      mem1 !! u =
        Some (mkSession (Some (memHistory mem u))
                        (if JsString.truthy (extractedCoin E cm) then extractedCoin E cm
                         else memLastCoin mem u)) ->
      (forall v, v <> u -> mem1 !! v = mem !! v) ->
      Q (Return coin)
        (mkRun mem1 [GenerateContent (extractPrompt cm)
                       (generateContent E [] (extractPrompt cm))])) ->
  wp (prelude E u cm) Q (mkRun mem []).
Proof.
  intros H. unfold wp.
  destruct (prelude_run E u cm mem) as (mem1 & Hrun & H1 & H2).
  rewrite Hrun. cbn [fst snd]. eapply H; eauto.
Qed.

(** The lookups of the portfolio block only add [db.get] calls. *)
Lemma portfolioLine_run E asset mem t :
  exists o a,
    portfolioLine E asset (mkRun mem t) =
      (o, mkRun mem (t ++ [DbGet (JsString.toLowerCase (Coin.id (Asset.coin asset))) a]))
    /\ (o = Throw -> a = DbError).
Proof.
  unfold portfolioLine, getCryptoData, bind, call, ret, throw.
  cbn [trace conversationMemory].
  destruct (db_get E t _); do 2 eexists; (split; [reflexivity|]); congruence.
Qed.

Lemma portfolioLines_run E l mem t :
  exists o evs,
    portfolioLines E l (mkRun mem t) = (o, mkRun mem (t ++ evs))
    /\ Forall isDbGet evs
    /\ (o = Throw -> exists key, In (DbGet key DbError) evs).
Proof.
  revert t. induction l as [|asset rest IH]; intros t.
  - exists (Return []), []. rewrite app_nil_r.
    split; [reflexivity|]. split; [constructor | discriminate].
  - cbn [portfolioLines].
    destruct (portfolioLine_run E asset mem t) as (o1 & a & -> & Ha).
    destruct (IH (t ++ [DbGet (JsString.toLowerCase (Coin.id (Asset.coin asset))) a]))
      as (os & evs & -> & Hevs & Hos).
    rewrite <- app_assoc. cbn [app].
    assert (Hall : Forall isDbGet
                     (DbGet (JsString.toLowerCase (Coin.id (Asset.coin asset))) a :: evs))
      by (constructor; [exact I | exact Hevs]).
    destruct o1 as [line|], os as [lines|]; do 2 eexists;
      (split; [reflexivity|]); (split; [exact Hall|]); intros Hthrow;
      try discriminate Hthrow.
    + destruct (Hos eq_refl) as (key & Hkey). exists key. right. exact Hkey.
    + rewrite (Ha eq_refl). eexists. left. reflexivity.
    + rewrite (Ha eq_refl). eexists. left. reflexivity.
Qed.

Lemma wp_portfolioLines E l (Q : Outcome (list string) -> Run -> Prop) mem t :
  (forall o evs,
      Forall isDbGet evs ->
      (o = Throw -> exists key, In (DbGet key DbError) evs) ->
      Q o (mkRun mem (t ++ evs))) ->
  wp (portfolioLines E l) Q (mkRun mem t).
Proof.
  intros H. unfold wp.
  destruct (portfolioLines_run E l mem t) as (o & evs & -> & Hevs & Hthrow).
  apply H; assumption.
Qed.

Lemma chat_wp E req mem (P : Served -> Prop) :
  wp (handle E req) (fun o st => P (finish o st)) (mkRun mem []) ->
  P (chat E req mem).
Proof.
  unfold wp, chat, finish.
  destruct (handle E req (mkRun mem [])) as [[r|] st]; exact (fun H => H).
Qed.

(** ** Symbolic execution of the route *)

Ltac wp_unfold c :=
  lazymatch c with
  | getCryptoData _ _ => unfold getCryptoData
  | getLatestNews _ _ => unfold getLatestNews
  | axiosGet _ _ => unfold axiosGet
  | fetchUserWallet _ _ => unfold fetchUserWallet
  | fetchUserPortfolio _ _ => unfold fetchUserPortfolio
  | fetchUserProfile _ _ => unfold fetchUserProfile
  | fetchOrderHistory _ _ => unfold fetchOrderHistory
  | fetchWalletTransactions _ _ => unfold fetchWalletTransactions
  | detectIntent _ _ _ => unfold detectIntent
  | dispatch _ _ _ _ _ => unfold dispatch
  | newsBranch _ _ _ => unfold newsBranch
  | tradeBranch _ _ _ _ _ => unfold tradeBranch
  | tradeWithQuantity _ _ _ _ _ _ _ _ _ => unfold tradeWithQuantity
  | validateOrder _ _ _ _ _ _ _ _ _ _ => unfold validateOrder
  | placeOrder _ _ _ _ _ _ _ => unfold placeOrder
  | holdingsBranch _ _ _ _ _ => unfold holdingsBranch
  | marketBranch _ _ _ _ _ => unfold marketBranch
  | fallbackBranch _ _ _ _ => unfold fallbackBranch
  | contextParts _ _ => unfold contextParts
  end.

Ltac wp_step :=
  lazymatch goal with
  | |- wp (bind _ _) _ _ => apply wp_bind
  | |- wp (ret _) _ _ => apply wp_ret
  | |- wp throw _ _ => apply wp_throw
  | |- wp (call _ _) _ _ => apply wp_call; intros ? ?
  | |- wp getMemory _ _ => apply wp_getMemory
  | |- wp (respond _ _ _) _ _ => eapply wp_respond; [eassumption|]
  | |- wp (portfolioLines _ _) _ _ => apply wp_portfolioLines; intros ? ? ? ?
  | |- wp (match ?m !! ?u with _ => _ end) _ _ =>
      match goal with H : m !! u = _ |- _ => rewrite H end
  | |- wp (match ?x with _ => _ end) _ _ => destruct x eqn:?
  | |- wp ?c _ _ => wp_unfold c
  | |- match ?x with _ => _ end => destruct x eqn:?
  end; cbv beta iota; cbn [trace conversationMemory app].

Ltac wp_run := repeat wp_step.

(** Enter the route for a request that carries a message: the prelude has
    run, [coin] is the resolved coin. *)
Ltac wp_enter :=
  apply chat_wp; unfold handle;
  lazymatch goal with
  | Hm : message ?req = Some (String _ _) |- _ => rewrite Hm
  end;
  cbv beta iota zeta;
  apply wp_bind, wp_prelude; intros mem1 coin Hcoin Hsess Hother; cbv beta iota.

(** ** What a request does to the conversation memory *)

(** The branches leave the memory untouched when they throw and append
    exactly one exchange to the user's history when they answer. *)
Lemma dispatch_memory E u auth cm coin mem1 t s :
  mem1 !! u = Some s ->
  wp (dispatch E u auth cm coin)
     (fun o st' =>
        (o = Throw /\ conversationMemory st' = mem1)
        \/ (exists text,
              o = Return (ok text)
              /\ conversationMemory st' =
                   <[u := mkSession (Some (nextHistory (history s) cm text)) (lastCoin s)]> mem1))
     (mkRun mem1 t).
Proof.
  intros Hs. destruct s as [h lc]. cbn [history lastCoin].
  wp_run.
  all: first [ left; split; reflexivity | right; eexists; split; reflexivity ].
Qed.

(** Every request that carries a message leaves the memory as the prelude
    made it when it ends with status 500, and with exactly one exchange
    appended to the user's history when it is answered. *)
Lemma chat_memory E req mem a msg :
  message req = Some (String a msg) ->
  let u := userIdOf req in
  let cm := cleanOf (String a msg) in
  let lc := if JsString.truthy (extractedCoin E cm) then extractedCoin E cm
            else memLastCoin mem u in
  exists mem1,
    mem1 !! u = Some (mkSession (Some (memHistory mem u)) lc)
    /\ (forall v, v <> u -> mem1 !! v = mem !! v)
    /\ ((response (chat E req mem) = mkResponse 500 (Error "Internal server error")
         /\ memory (chat E req mem) = mem1)
        \/ (exists text,
              response (chat E req mem) = ok text
              /\ memory (chat E req mem) =
                   <[u := mkSession (Some (nextHistory (Some (memHistory mem u)) cm text)) lc]>
                     mem1)).
Proof.
  intros Hm u cm lc.
  destruct (prelude_run E u cm mem) as (mem1 & Hrun & Hu & Hother).
  exists mem1. split; [exact Hu|]. split; [exact Hother|].
  unfold chat, handle. rewrite Hm. cbv beta iota zeta. fold u cm.
  unfold bind. rewrite Hrun.
  match goal with
  | |- context [dispatch E u ?au cm ?c ?st] =>
      pose proof (dispatch_memory E u au cm c mem1 (trace st) _ Hu) as Hd;
      unfold wp in Hd; cbn [history lastCoin trace] in Hd;
      destruct (dispatch E u au cm c st) as [o st']
  end.
  cbn [fst snd] in Hd.
  destruct Hd as [[-> ->]|(text & -> & ->)]; cbn [response memory]; eauto.
Qed.

(** ** The built-ins on sample values *)

Example matchNumber_first : JsString.matchNumber "buy 12.50 usd of btc 3" = Some "12.50".
Proof. reflexivity. Qed.

Example matchNumber_dot : JsString.matchNumber "sell 7. now" = Some "7".
Proof. reflexivity. Qed.

Example matchNumber_none : JsString.matchNumber "buy some bitcoin" = None.
Proof. reflexivity. Qed.

Example cleanOf_sample : cleanOf "  Buy 2 BTC  " = "buy 2 btc".
Proof. reflexivity. Qed.

Example cleanResponse_sample :
  cleanResponse ("**Bitcoin** is" +:+ JsString.nl +:+ "  a *coin*. ") = "Bitcoin is a coin.".
Proof. reflexivity. Qed.

Example parseFloat_tenth : JsNumber.parseFloat "0.1" = 0x1.999999999999ap-4%float.
Proof. vm_compute. reflexivity. Qed.

Example parseFloat_prefix : JsNumber.parseFloat "  -7.25abc" = (-7.25)%float.
Proof. vm_compute. reflexivity. Qed.

Example toString_sum :
  JsNumber.toString (JsNumber.parseFloat "0.1" + JsNumber.parseFloat "0.2")
  = "0.30000000000000004".
Proof. vm_compute. reflexivity. Qed.

Example toString_large : JsNumber.toString (JsNumber.parseFloat "1e21") = "1e+21".
Proof. vm_compute. reflexivity. Qed.

Example toString_small : JsNumber.toString (JsNumber.parseFloat "0.0000001") = "1e-7".
Proof. vm_compute. reflexivity. Qed.

Example toFixed_below_half : JsNumber.toFixed (JsNumber.parseFloat "1.005") 2 = "1.00".
Proof. vm_compute. reflexivity. Qed.

Example toFixed_tie : JsNumber.toFixed 2.5 0 = "3".
Proof. vm_compute. reflexivity. Qed.

Example toFixed_third : JsNumber.toFixed (100 / 3) 8 = "33.33333333".
Proof. vm_compute. reflexivity. Qed.

Example toFixed_tiny_negative :
  JsNumber.toFixed (JsNumber.parseFloat "-0.000000001") 8 = "-0.00000000".
Proof. vm_compute. reflexivity. Qed.

Example price_reply :
  responses bitcoinWorld bitcoin price = Some "💰 Current price of Bitcoin (BTC) is $42012.50".
Proof. vm_compute. reflexivity. Qed.

(** ** Facts on lists, strings and numbers *)

Lemma append_cons c p s : String c p +:+ s = String c (p +:+ s).
Proof. reflexivity. Qed.

Lemma append_nil_l s : "" +:+ s = s.
Proof. reflexivity. Qed.

Lemma append_nil_r s : s +:+ "" = s.
Proof. induction s as [|c s IH]; [reflexivity|]. rewrite append_cons, IH. reflexivity. Qed.





(** On binary64 values [a <= b] excludes [b < a] (neither holds when one
    of them is [NaN]). *)
Lemma SFcompare_antisym x y :
  SFcompare y x = match SFcompare x y with Some c => Some (CompOpp c) | None => None end.
Proof.
  destruct x as [sx|sx| |sx mx ex], y as [sy|sy| |sy my ey]; cbn [SFcompare];
    try reflexivity;
    try (destruct sx; reflexivity); try (destruct sy; reflexivity);
    try (destruct sx, sy; reflexivity).
  rewrite (Z.compare_antisym ex ey).
  destruct sx, sy; try reflexivity;
    destruct (ex ?= ey)%Z; cbn [CompOpp]; try reflexivity.
  - do 2 f_equal. symmetry. apply (Pos.compare_cont_antisym mx my Eq).
  - f_equal. symmetry. apply (Pos.compare_cont_antisym mx my Eq).
Qed.

Lemma float_le_not_gt (a b : float) :
  (a <=? b)%float = true -> (b <? a)%float = false.
Proof.
  rewrite leb_spec, ltb_spec. unfold SFleb, SFltb.
  rewrite (SFcompare_antisym (Prim2SF a) (Prim2SF b)).
  destruct (SFcompare (Prim2SF a) (Prim2SF b)) as [[]|]; cbn [CompOpp]; congruence.
Qed.

(** ** The rounding of the order quantity *)

(** What being a digit excludes. *)
Lemma digit_char c :
  JsString.isDigit c = true ->
  JsString.isSpace c = false
  /\ Ascii.eqb c "-" = false /\ Ascii.eqb c "+" = false
  /\ Ascii.eqb c "." = false /\ Ascii.eqb "I" c = false
  /\ 0 <= JsNumber.digitVal c <= 9.
Proof.
  destruct c as [[] [] [] [] [] [] [] []]; vm_compute; intros H;
    try discriminate H; repeat split; congruence.
Qed.

Lemma allDigits_app a b :
  JsString.allDigits (a +:+ b) = (JsString.allDigits a && JsString.allDigits b)%bool.
Proof.
  induction a as [|c a IH]; [reflexivity|].
  rewrite append_cons. cbn [JsString.allDigits]. rewrite IH, andb_assoc. reflexivity.
Qed.

Lemma allDigits_zeros k : JsString.allDigits (JsNumber.zeros k) = true.
Proof. induction k as [|k IH]; [reflexivity|]. cbn [JsNumber.zeros JsString.allDigits]. exact IH. Qed.

Lemma allDigits_of_uint d : JsString.allDigits (NilEmpty.string_of_uint d) = true.
Proof. induction d; cbn [NilEmpty.string_of_uint JsString.allDigits]; auto. Qed.

(** The digits of a non-negative integer: not empty, all digits, and read
    back to the integer. *)
Lemma digitsOf_eq n :
  JsNumber.digitsOf n = NilEmpty.string_of_uint (N.to_uint (Z.to_N n))
  /\ JsNumber.digitsOf n <> "".
Proof.
  unfold JsNumber.digitsOf, NilZero.string_of_uint.
  destruct (Z.to_N n) as [|p]; [split; [reflexivity | discriminate]|].
  cbn [N.to_uint].
  pose proof (DecimalPos.Unsigned.to_uint_nonnil p) as Hnil.
  destruct (Pos.to_uint p) eqn:Hp; try congruence; split; try reflexivity; discriminate.
Qed.

Lemma allDigits_digitsOf n : JsString.allDigits (JsNumber.digitsOf n) = true.
Proof. rewrite (proj1 (digitsOf_eq n)). apply allDigits_of_uint. Qed.

Lemma digitsValue_of_uint_acc d acc :
  JsNumber.digitsValue (Z.pos acc) (NilEmpty.string_of_uint d)
  = Z.pos (Pos.of_uint_acc d acc).
Proof.
  revert acc. induction d; intros acc;
    cbn [NilEmpty.string_of_uint JsNumber.digitsValue Pos.of_uint_acc];
    try reflexivity.
  all: match goal with
       | |- JsNumber.digitsValue ?v ?s = Z.pos (Pos.of_uint_acc ?d ?acc') =>
           replace v with (Z.pos acc'); [apply IHd|]
       end.
  all: unfold JsNumber.digitVal; vm_compute (Z.of_nat _); lia.
Qed.

Lemma digitsValue_of_uint d :
  JsNumber.digitsValue 0 (NilEmpty.string_of_uint d) = Z.of_N (Pos.of_uint d).
Proof.
  induction d; cbn [NilEmpty.string_of_uint JsNumber.digitsValue Pos.of_uint];
    try reflexivity; try exact IHd.
  all: match goal with
       | |- JsNumber.digitsValue ?v ?s = Z.of_N (N.pos (Pos.of_uint_acc ?d ?acc)) =>
           replace v with (Z.pos acc); [apply digitsValue_of_uint_acc | reflexivity]
       end.
Qed.

Lemma digitsValue_digitsOf n :
  0 <= n -> JsNumber.digitsValue 0 (JsNumber.digitsOf n) = n.
Proof.
  intros Hn. rewrite (proj1 (digitsOf_eq n)), digitsValue_of_uint.
  change (Pos.of_uint (N.to_uint (Z.to_N n))) with (N.of_uint (N.to_uint (Z.to_N n))).
  rewrite DecimalN.Unsigned.of_to. apply Z2N.id, Hn.
Qed.

Lemma digitsValue_app acc a b :
  JsNumber.digitsValue acc (a +:+ b)
  = JsNumber.digitsValue (JsNumber.digitsValue acc a) b.
Proof.
  revert acc. induction a as [|c a IH]; intros acc; [reflexivity|].
  rewrite append_cons. cbn [JsNumber.digitsValue]. apply IH.
Qed.

Lemma digitsValue_zeros k : JsNumber.digitsValue 0 (JsNumber.zeros k) = 0.
Proof. induction k as [|k IH]; [reflexivity|]. exact IH. Qed.

(** A run of digits followed by something that is not a digit is what
    [spanDigits] splits off. *)
Lemma spanDigits_digits ds rest :
  JsString.allDigits ds = true ->
  match rest with
  | EmptyString => True
  | String c _ => JsString.isDigit c = false
  end ->
  JsString.spanDigits (ds +:+ rest) = (ds, rest).
Proof.
  intros Hds Hrest. induction ds as [|c ds IH].
  - destruct rest as [|c r]; [reflexivity|].
    rewrite append_nil_l. cbn [JsString.spanDigits]. rewrite Hrest. reflexivity.
  - cbn [JsString.allDigits] in Hds. apply andb_true_iff in Hds as [Hc Hds].
    rewrite append_cons. cbn [JsString.spanDigits]. rewrite Hc, (IH Hds). reflexivity.
Qed.

Lemma length_append a b : String.length (a +:+ b) = (String.length a + String.length b)%nat.
Proof.
  induction a as [|c a IH]; [reflexivity|].
  rewrite append_cons. cbn [String.length]. rewrite IH. reflexivity.
Qed.

Lemma length_zeros k : String.length (JsNumber.zeros k) = k.
Proof. induction k as [|k IH]; [reflexivity|]. cbn [JsNumber.zeros String.length]. rewrite IH. reflexivity. Qed.

(** Cutting a string in two with [substring]. *)
Lemma substring_split s k :
  (k <= String.length s)%nat ->
  substring 0 k s +:+ substring k (String.length s - k) s = s
  /\ String.length (substring 0 k s) = k.
Proof.
  revert k. induction s as [|c s IH]; intros k Hk.
  - cbn [String.length] in Hk. assert (k = 0)%nat as -> by lia. split; reflexivity.
  - destruct k as [|k].
    + cbn [substring String.length Nat.sub]. split; [|reflexivity].
      change ("" +:+ String c (substring 0 (String.length s) s)) with
        (String c (substring 0 (String.length s) s)).
      f_equal. destruct (IH (String.length s) (le_n _)) as [H _].
      rewrite Nat.sub_diag in H.
      replace (substring (String.length s) 0 s) with "" in H.
      * rewrite append_nil_r in H. exact H.
      * clear. induction s as [|c s IH]; [reflexivity|]. cbn [String.length substring]. exact IH.
    + cbn [String.length] in Hk |- *. cbn [substring Nat.sub].
      destruct (IH k ltac:(lia)) as [H1 H2].
      rewrite append_cons, H1. cbn [String.length]. rewrite H2. split; reflexivity.
Qed.

(** The text [toFixed] writes for a non-negative scaled integer: digits, a
    point and exactly [f] digits, which together spell the integer. *)
Lemma fixedDigits_shape n f :
  0 <= n ->
  exists a b,
    JsNumber.fixedDigits n (S f) = a +:+ "." +:+ b
    /\ JsString.allDigits a = true /\ a <> ""
    /\ JsString.allDigits b = true /\ String.length b = S f
    /\ JsNumber.digitsValue 0 (a +:+ b) = n.
Proof.
  intros Hn. unfold JsNumber.fixedDigits.
  set (ds := JsNumber.digitsOf n).
  set (padded := JsNumber.zeros (S (S f) - String.length ds) +:+ ds).
  assert (Hlen : (S (S f) <= String.length padded)%nat).
  { unfold padded. rewrite length_append, length_zeros. lia. }
  assert (Hdig : JsString.allDigits padded = true).
  { unfold padded. rewrite allDigits_app, allDigits_zeros. apply allDigits_digitsOf. }
  assert (Hval : JsNumber.digitsValue 0 padded = n).
  { unfold padded. rewrite digitsValue_app, digitsValue_zeros. apply digitsValue_digitsOf, Hn. }
  destruct (substring_split padded (String.length padded - S f) ltac:(lia)) as [Hsplit Hla].
  replace (String.length padded - (String.length padded - S f))%nat with (S f) in Hsplit by lia.
  exists (substring 0 (String.length padded - S f) padded),
         (substring (String.length padded - S f) (S f) padded).
  rewrite <- Hsplit in Hdig at 1. rewrite allDigits_app in Hdig.
  apply andb_true_iff in Hdig as [Ha Hb].
  split; [reflexivity|]. split; [exact Ha|]. split.
  { intros Hnil. rewrite Hnil in Hla. cbn [String.length] in Hla. lia. }
  split; [exact Hb|]. split.
  { pose proof (f_equal String.length Hsplit) as Hl.
    rewrite length_append, Hla in Hl. lia. }
  rewrite Hsplit. exact Hval.
Qed.

(** [parseFloat] on such a text, with or without a minus in front, gives
    the binary64 value nearest to the decimal it spells. *)
Lemma parseFloat_fixed (neg : bool) a b :
  JsString.allDigits a = true -> a <> "" -> JsString.allDigits b = true ->
  JsNumber.parseFloat ((if neg then "-" else "") +:+ a +:+ "." +:+ b)
  = let v := SF2Prim (JsNumber.roundDecimal (JsNumber.digitsValue 0 (a +:+ b))
                                           (- Z.of_nat (String.length b))) in
    if neg then (- v)%float else v.
Proof.
  intros Ha Hne Hb. destruct a as [|c a]; [congruence|].
  pose proof Ha as Hc. cbn [JsString.allDigits] in Hc.
  apply andb_true_iff in Hc as [Hc _].
  destruct (digit_char c Hc) as (Hsp & Hminus & Hplus & Hdot & HI & _).
  assert (Hmag :
    JsNumber.parseUnsigned (String c a +:+ "." +:+ b)
    = SF2Prim (JsNumber.roundDecimal (JsNumber.digitsValue 0 (String c a +:+ b))
                                     (- Z.of_nat (String.length b)))).
  { unfold JsNumber.parseUnsigned.
    rewrite (spanDigits_digits (String c a) ("." +:+ b) Ha) by reflexivity.
    rewrite append_cons. cbn [JsString.startsWith]. rewrite HI.
    change ("." +:+ b) with (String "." b).
    cbn [JsNumber.fractionPart]. rewrite Ascii.eqb_refl.
    rewrite <- (append_nil_r b) at 1.
    rewrite (spanDigits_digits b "" Hb I).
    rewrite append_cons. cbn [JsNumber.parseExponent]. reflexivity. }
  unfold JsNumber.parseFloat. destruct neg.
  - change ("-" +:+ String c a +:+ "." +:+ b) with (String "-" (String c a +:+ "." +:+ b)).
    change (JsString.trimStart (String "-" (String c a +:+ "." +:+ b)))
      with (String "-" (String c a +:+ "." +:+ b)).
    change (JsNumber.splitSign (String "-" (String c a +:+ "." +:+ b)))
      with (true, String c a +:+ "." +:+ b).
    cbv beta iota. rewrite Hmag. reflexivity.
  - rewrite append_nil_l.
    assert (Hs : JsNumber.splitSign (JsString.trimStart (String c a +:+ "." +:+ b))
                 = (false, String c a +:+ "." +:+ b)).
    { rewrite append_cons. cbn [JsString.trimStart]. rewrite Hsp.
      cbn [JsNumber.splitSign]. rewrite Hminus, Hplus. reflexivity. }
    rewrite Hs. cbv beta iota. rewrite Hmag. reflexivity.
Qed.

(** The quantity of an order: for a finite [q] below [1e21] in magnitude,
    [parseFloat(q.toFixed(8))] is the binary64 value nearest to [n / 10^8],
    where [n] is [|q| * 10^8] rounded to the nearest integer (upwards on a
    tie), with the sign of [q]. *)
Lemma parseFloat_toFixed8 q s m e :
  Prim2SF q = S754_finite s m e ->
  (1e21 <=? abs q)%float = false ->
  JsNumber.parseFloat (JsNumber.toFixed q 8)
  = let v := SF2Prim (JsNumber.roundDecimal (JsNumber.roundHalfUp m e 8) (-8)) in
    if s then (- v)%float else v.
Proof.
  intros Hq Hbig. unfold JsNumber.toFixed. rewrite Hq, Hbig.
  change (Z.of_nat 8) with 8.
  assert (Hn : 0 <= JsNumber.roundHalfUp m e 8).
  { unfold JsNumber.roundHalfUp. destruct (0 <=? e) eqn:He.
    - apply Z.leb_le in He. apply Z.mul_nonneg_nonneg; [lia|]. apply Z.pow_nonneg. lia.
    - apply Z.div_pos; [|apply Z.pow_pos_nonneg; lia].
      pose proof (Z.pow_nonneg 2 (- e) ltac:(lia)). lia. }
  destruct (fixedDigits_shape _ 7 Hn) as (a & b & -> & Ha & Hne & Hb & Hlb & Hval).
  rewrite (parseFloat_fixed s a b Ha Hne Hb), Hval, Hlb. reflexivity.
Qed.

(** ** The message guard *)

Lemma chat_no_message E req mem :
  message req = None \/ message req = Some "" ->
  chat E req mem = mkServed (mkResponse 400 (Error "Message is required")) mem [].
Proof. intros [H|H]; unfold chat, handle; rewrite H; reflexivity. Qed.

(** C9.  A request without a message (missing or empty) is answered with
    status 400 and nothing else happens: no collaborator is called, so no
    order is posted, and the conversation memory is left as it was, with no
    session created. *)
Theorem missing_message_rejected E req mem :
  message req = None \/ message req = Some "" ->
  response (chat E req mem) = mkResponse 400 (Error "Message is required")
  /\ calls (chat E req mem) = []
  /\ ordersIn (calls (chat E req mem)) = []
  /\ memory (chat E req mem) = mem.
Proof.
  intros H. rewrite (chat_no_message E req mem H). repeat split.
Qed.

(** ** The history cap *)

Lemma memHistory_insert mem u h lc :
  memHistory (<[u := mkSession (Some h) lc]> mem) u = h.
Proof. unfold memHistory. rewrite lookup_insert_eq. reflexivity. Qed.

Lemma memHistory_other (mem mem' : gmap string Session) v :
  mem' !! v = mem !! v -> memHistory mem' v = memHistory mem v.
Proof. unfold memHistory. intros ->. reflexivity. Qed.

Lemma memHistory_seeded (mem1 : gmap string Session) u h lc :
  mem1 !! u = Some (mkSession (Some h) lc) -> memHistory mem1 u = h.
Proof. unfold memHistory. intros ->. reflexivity. Qed.




(** ** The remembered coin *)

Lemma memLastCoin_insert mem u h lc :
  memLastCoin (<[u := mkSession h lc]> mem) u = lc.
Proof. unfold memLastCoin. rewrite lookup_insert_eq. reflexivity. Qed.

(** C7.  A request that carries a message overwrites the user's [lastCoin]
    with the extracted coin when the extraction returns a (non-empty) name
    and leaves it as it was otherwise; so when a coin was extracted in one
    turn and none is in the user's next turn, that turn enters the branches
    with the coin of the turn before. *)
Theorem lastCoin_overwritten_or_retained E req mem msg E2 req2 msg2 :
  message req = Some msg -> msg <> "" ->
  let u := userIdOf req in
  let c := extractedCoin E (cleanOf msg) in
  let r := chat E req mem in
  memLastCoin (memory r) u = (if JsString.truthy c then c else memLastCoin mem u)
  /\ (message req2 = Some msg2 -> msg2 <> "" -> userIdOf req2 = u ->
      JsString.truthy c = true ->
      JsString.truthy (extractedCoin E2 (cleanOf msg2)) = false ->
      resolvedCoin E2 req2 (memory r) = c).
Proof.
  intros Hm Hne u c r.
  destruct msg as [|a msg]; [congruence|].
  assert (Hlc : memLastCoin (memory r) u
                = (if JsString.truthy c then c else memLastCoin mem u)).
  { destruct (chat_memory E req mem a msg Hm) as (mem1 & Hu & _ & Hcase).
    fold r u c in Hu, Hcase.
    destruct Hcase as [[_ ->]|(text & _ & ->)].
    - unfold memLastCoin. rewrite Hu. reflexivity.
    - apply memLastCoin_insert. }
  split; [exact Hlc|].
  intros Hm2 Hne2 Hu2 Hc Hc2.
  destruct msg2 as [|a2 msg2]; [congruence|].
  rewrite (resolvedCoin_eq E2 req2 (memory r) a2 msg2 Hm2). cbv zeta.
  rewrite Hc2, Hu2, Hlc, Hc, Hc. reflexivity.
Qed.

(** ** The trade branch *)

(** Use the hypotheses [In e t] over a trace that is known event by event:
    the events of another kind are dropped, the others identified. *)
Ltac event_eq H :=
  first [ discriminate H | injection H; clear H; intros; subst | clear H ].

Ltac trace_hyps :=
  repeat match goal with
         | H : In _ (_ :: _) |- _ => cbn [In] in H
         | H : In _ [] |- _ => destruct H
         | H : In _ (_ ++ _) |- _ => apply in_app_or in H
         | H : In ?e ?evs, HF : Forall isDbGet ?evs |- _ =>
             apply (proj1 (List.Forall_forall isDbGet evs) HF) in H
         | H : isDbGet _ |- _ => first [ destruct H | clear H ]
         | H : False |- _ => destruct H
         | H : _ \/ _ |- _ => destruct H
         | H : GenerateContent _ _ = _ |- _ => event_eq H
         | H : DbGet _ _ = _ |- _ => event_eq H
         | H : DbAll _ _ = _ |- _ => event_eq H
         | H : GetProfile _ _ = _ |- _ => event_eq H
         | H : GetAssets _ _ = _ |- _ => event_eq H
         | H : GetWallet _ _ = _ |- _ => event_eq H
         | H : PostOrder _ _ _ = _ |- _ => event_eq H
         end.

(** Enter the trade branch of a request with a message and a credential. *)
Ltac wp_trade :=
  apply chat_wp; unfold handle;
  lazymatch goal with
  | Hm : message ?req = Some (String _ _), Ha : authorization ?req = Some (String _ _) |- _ =>
      rewrite Hm; cbv beta iota zeta;
      apply wp_bind, wp_prelude; intros mem1 coin Hcoin Hsess Hother; cbv beta iota;
      unfold dispatch; rewrite Ha
  end.

(** C2.  A BUY of the trade branch whose wallet was fetched and whose coin
    was found costs the extracted amount when the message names dollars and
    amount times price otherwise (the quantity is then the amount itself);
    when the cost exceeds the balance the reply is the balance rejection and
    no order is posted; when the cost is at most the balance exactly one
    order, a BUY, is posted. *)
Theorem buy_balance_check E req mem msg auth wallet key cd :
  message req = Some msg -> authorization req = Some auth ->
  msg <> "" -> auth <> "" ->
  let cm := cleanOf msg in
  let r := chat E req mem in
  isNewsQuery cm = false ->
  JsString.includes cm "buy" = true ->
  In (GetWallet auth (AxResponse (Some wallet))) (calls r) ->
  In (DbGet key (DbRows (Some cd))) (calls r) ->
  exists amountMatch,
    JsString.matchNumber cm = Some amountMatch
    /\ let amount := JsNumber.parseFloat amountMatch in
       let cost := if isDollarQuery cm then amount
                   else (amount * CoinFact.price cd)%float in
       ((Wallet.balance wallet <? cost)%float = true ->
        response r = ok "Insufficient wallet balance to buy."
        /\ ordersIn (calls r) = [])
       /\ ((cost <=? Wallet.balance wallet)%float = true ->
           exists o res,
             calls r = removelast (calls r) ++ [PostOrder auth o res]
             /\ ordersIn (calls r) = [o]
             /\ Order.orderType o = BUY).
Proof.
  intros Hm Ha Hmsg Hauth cm r Hnews Hbuy.
  destruct msg as [|m0 msg']; [congruence|].
  destruct auth as [|a0 auth']; [congruence|].
  subst r. pattern (chat E req mem). wp_trade. fold cm.
  rewrite Hnews, Hbuy. cbn [orb]. unfold tradeBranch, orderTypeOf. rewrite Hbuy.
  wp_run.
  all: cbn [finish calls response trace conversationMemory].
  all: intros Hw Hd; trace_hyps; subst.
  all: eexists; split; [reflexivity|]; cbv zeta; unfold buyCost in *.
  all: split; [intros Hlt | intros Hle; apply float_le_not_gt in Hle]; try congruence.
  all: try (split; reflexivity).
  all: do 2 eexists; repeat split.
Qed.

Lemma holds_spec c asset :
  holds c asset = true
  <-> JsString.toLowerCase (Coin.name (Asset.coin asset)) = c
      \/ JsString.toLowerCase (Coin.symbol (Asset.coin asset)) = c.
Proof.
  unfold holds. rewrite orb_true_iff, !String.eqb_eq. reflexivity.
Qed.

Lemma find_first {A} (f : A -> bool) before x after :
  (forall y, In y before -> f y = false) -> f x = true ->
  find f (before ++ x :: after) = Some x.
Proof.
  intros Hb Hx. induction before as [|y before IH]; cbn [app find].
  - rewrite Hx. reflexivity.
  - rewrite (Hb y) by (left; reflexivity). apply IH.
    intros z Hz. apply Hb. right. exact Hz.
Qed.

Lemma not_holding_is_not_insufficient c :
  notHoldingReply c <> "Insufficient quantity to sell.".
Proof. unfold notHoldingReply. cbn. discriminate. Qed.

(** The two cases of the holdings check, once the run is known. *)
Ltac sell_none :=
  intros Hnone;
  lazymatch goal with
  | Hf : find _ _ = Some ?x |- _ =>
      apply find_some in Hf; destruct Hf as [Hin Hh];
      apply holds_spec in Hh; destruct (Hnone x Hin); tauto
  | Hf : find _ _ = None |- _ => split; reflexivity
  end.

Ltac sell_first :=
  intros before asset after -> Hb Hmatch Hlt;
  lazymatch goal with
  | Hf : find _ (_ ++ _ :: _) = _ |- _ =>
      rewrite find_first in Hf;
      [ first [ discriminate Hf
              | injection Hf as <-; first [ split; reflexivity | congruence ] ]
      | intros y Hy; destruct (holds _ y) eqn:Hh;
        [apply holds_spec in Hh; destruct (Hb y Hy); tauto | reflexivity]
      | apply holds_spec; exact Hmatch ]
  end.

(** C3.  A SELL of the trade branch whose portfolio was fetched: when no
    asset of the portfolio has the resolved coin as its lower-cased name or
    symbol the reply says the coin is not held; when the first asset that
    has holds less than the requested quantity the reply is the
    insufficient-quantity one; neither posts an order, and the two replies
    differ. *)
Theorem sell_holdings_check E req mem msg auth portfolio c :
  message req = Some msg -> authorization req = Some auth ->
  msg <> "" -> auth <> "" ->
  let cm := cleanOf msg in
  let r := chat E req mem in
  isNewsQuery cm = false ->
  JsString.includes cm "buy" = false ->
  JsString.includes cm "sell" = true ->
  In (GetAssets auth (AxResponse (Some portfolio))) (calls r) ->
  resolvedCoin E req mem = Some c ->
  exists amountMatch,
    JsString.matchNumber cm = Some amountMatch
    /\ ((forall asset, In asset portfolio ->
            JsString.toLowerCase (Coin.name (Asset.coin asset)) <> c
            /\ JsString.toLowerCase (Coin.symbol (Asset.coin asset)) <> c) ->
        response r = ok (notHoldingReply c) /\ ordersIn (calls r) = [])
    /\ (forall before asset after,
           portfolio = before ++ asset :: after ->
           (forall x, In x before ->
              JsString.toLowerCase (Coin.name (Asset.coin x)) <> c
              /\ JsString.toLowerCase (Coin.symbol (Asset.coin x)) <> c) ->
           JsString.toLowerCase (Coin.name (Asset.coin asset)) = c
           \/ JsString.toLowerCase (Coin.symbol (Asset.coin asset)) = c ->
           (Asset.quantity asset <? JsNumber.parseFloat amountMatch)%float = true ->
           response r = ok "Insufficient quantity to sell." /\ ordersIn (calls r) = [])
    /\ notHoldingReply c <> "Insufficient quantity to sell.".
Proof.
  intros Hm Ha Hmsg Hauth cm r Hnews Hbuy Hsell Hpf Hc.
  destruct msg as [|m0 msg']; [congruence|].
  destruct auth as [|a0 auth']; [congruence|].
  rewrite (resolvedCoin_eq E req mem m0 msg' Hm) in Hc. cbv zeta in Hc.
  revert Hpf. subst r. pattern (chat E req mem). wp_trade. fold cm in Hcoin, Hc |- *.
  rewrite <- Hcoin in Hc. subst coin.
  rewrite Hnews, Hbuy, Hsell. cbn [orb]. unfold tradeBranch, orderTypeOf. rewrite Hbuy.
  wp_run.
  all: cbn [finish calls response trace conversationMemory].
  all: intros Hpf; trace_hyps; subst.
  all: eexists; split; [reflexivity|].
  all: split; [|split; [|apply not_holding_is_not_insufficient]].
  - sell_none.
  - sell_first.
  - sell_none.
  - sell_first.
  - sell_none.
  - sell_first.
  - sell_none.
  - sell_first.
Qed.


(** C1 (the code departs from it).  In the trade branch, with an amount in
    the message and no coin resolved, the reply asks for the coin only when
    the order is not a BUY in dollars; a BUY in dollars looks the price up
    first, with the missing coin name, and the request ends with status 500
    before the coin check is reached. *)
Theorem trade_without_coin E req mem msg auth :
  message req = Some msg -> authorization req = Some auth ->
  msg <> "" -> auth <> "" ->
  let cm := cleanOf msg in
  let r := chat E req mem in
  isNewsQuery cm = false ->
  (JsString.includes cm "buy" || JsString.includes cm "sell") = true ->
  JsString.matchNumber cm <> None ->
  resolvedCoin E req mem = None ->
  response r =
    (if JsString.includes cm "buy" && isDollarQuery cm
     then mkResponse 500 (Error "Internal server error")
     else ok "Please specify which coin you want to trade.")
  /\ calls r = [GenerateContent (extractPrompt cm) (generateContent E [] (extractPrompt cm))].
Proof.
  intros Hm Ha Hmsg Hauth cm r Hnews Htrade Hamount Hc.
  destruct msg as [|m0 msg']; [congruence|].
  destruct auth as [|a0 auth']; [congruence|].
  rewrite (resolvedCoin_eq E req mem m0 msg' Hm) in Hc. cbv zeta in Hc.
  subst r. pattern (chat E req mem). wp_trade. fold cm in Hcoin, Hc |- *.
  rewrite <- Hcoin in Hc. subst coin.
  rewrite Hnews, Htrade. unfold tradeBranch, orderTypeOf.
  destruct (JsString.includes cm "buy") eqn:Hbuy; cbn [andb].
  all: wp_run.
  all: cbn [finish calls response trace conversationMemory].
  all: first [ split; reflexivity | congruence ].
Qed.

(** ** Orders *)

(** C8 (as amended).  An order is posted only by a request that carries a
    message and a credential, is not a news query, contains buy or sell,
    contains a number, has a non-empty resolved coin whose data was found,
    and has passed the wallet check (BUY) or the holdings check (SELL).  Its
    type is the one the message selects; its quantity is the amount, or the
    amount divided by the looked-up price for a BUY in dollars, after
    [toFixed(8)] and [parseFloat]: when that value is finite and below
    [1e21] in magnitude, the binary64 value nearest to it rounded to 8
    fractional digits.  Nothing makes the quantity positive.  The post is
    the last call of the request and the only post. *)
Theorem order_only_after_checks E req mem auth o res :
  let r := chat E req mem in
  In (PostOrder auth o res) (calls r) ->
  exists msg amountMatch c cd quantity,
    message req = Some msg
    /\ authorization req = Some auth
    /\ auth <> ""
    /\ isNewsQuery (cleanOf msg) = false
    /\ (JsString.includes (cleanOf msg) "buy" || JsString.includes (cleanOf msg) "sell") = true
    /\ JsString.matchNumber (cleanOf msg) = Some amountMatch
    /\ resolvedCoin E req mem = Some c
    /\ c <> ""
    /\ In (DbGet (JsString.toLowerCase c) (DbRows (Some cd))) (calls r)
    /\ (if match orderTypeOf (cleanOf msg) with
           | BUY => isDollarQuery (cleanOf msg)
           | SELL => false
           end
        then exists cd1,
               In (DbGet (JsString.toLowerCase c) (DbRows (Some cd1))) (calls r)
               /\ quantity = (JsNumber.parseFloat amountMatch / CoinFact.price cd1)%float
        else quantity = JsNumber.parseFloat amountMatch)
    /\ o = Order.mk (JsString.toLowerCase (CoinFact.name cd))
                    (JsNumber.parseFloat (JsNumber.toFixed quantity 8))
                    (orderTypeOf (cleanOf msg))
    /\ (forall s m e,
          Prim2SF quantity = S754_finite s m e ->
          (1e21 <=? abs quantity)%float = false ->
          Order.quantity o
          = let v := SF2Prim (JsNumber.roundDecimal (JsNumber.roundHalfUp m e 8) (-8)) in
            if s then (- v)%float else v)
    /\ match orderTypeOf (cleanOf msg) with
       | BUY =>
           exists wallet,
             In (GetWallet auth (AxResponse (Some wallet))) (calls r)
             /\ (Wallet.balance wallet
                 <? buyCost (isDollarQuery (cleanOf msg))
                            (JsNumber.parseFloat amountMatch) quantity cd)%float = false
       | SELL =>
           exists portfolio asset,
             In (GetAssets auth (AxResponse (Some portfolio))) (calls r)
             /\ find (holds c) portfolio = Some asset
             /\ (Asset.quantity asset <? quantity)%float = false
       end
    /\ calls r = removelast (calls r) ++ [PostOrder auth o res]
    /\ ordersIn (calls r) = [o].
Proof.
  intros r.
  destruct (message req) as [[|m0 msg']|] eqn:Hm;
    try (subst r; rewrite chat_no_message by auto; cbn [calls In]; intros []).
  pose proof (resolvedCoin_eq E req mem m0 msg' Hm) as Hrc. cbv zeta in Hrc.
  subst r. pattern (chat E req mem). wp_enter.
  rewrite <- Hcoin in Hrc. clear Hcoin.
  wp_run.
  all: cbn [finish calls response trace conversationMemory].
  all: intros Hin; trace_hyps.
  all: exists (String m0 msg').
  all: repeat match goal with
              | H : orderTypeOf _ = _ |- _ => rewrite H
              | H : isDollarQuery _ = _ |- _ => rewrite H
              end; cbv beta iota.
  all: do 4 eexists.
  all: repeat first [ split | eexists ].
  all: try eassumption; try discriminate; try (cbn [In]; auto 10).
  all: intros s m e Hfinite Hsmall; cbn [Order.quantity];
    apply parseFloat_toFixed8; assumption.
Qed.

(** ** The read gateways *)

(** The lookups of the portfolio block throw exactly when one of them met a
    database error. *)
Lemma portfolioLines_throw E l mem t :
  exists o evs,
    portfolioLines E l (mkRun mem t) = (o, mkRun mem (t ++ evs))
    /\ Forall isDbGet evs
    /\ (o = Throw <-> exists key, In (DbGet key DbError) evs).
Proof.
  revert t. induction l as [|asset rest IH]; intros t.
  - exists (Return []), []. rewrite app_nil_r.
    split; [reflexivity|]. split; [constructor|].
    split; [discriminate | intros (key & [])].
  - cbn [portfolioLines].
    set (k := JsString.toLowerCase (Coin.id (Asset.coin asset))).
    set (a := db_get E t k).
    assert (Hline : exists o1,
               portfolioLine E asset (mkRun mem t) = (o1, mkRun mem (t ++ [DbGet k a]))
               /\ (o1 = Throw <-> a = DbError)).
    { unfold portfolioLine, getCryptoData, bind, call, ret, throw.
      cbn [trace conversationMemory]. fold k. fold a.
      destruct a as [row|]; eexists; (split; [reflexivity|]); split; congruence. }
    destruct Hline as (o1 & -> & Ho1).
    destruct (IH (t ++ [DbGet k a])) as (os & evs & -> & Hevs & Hos).
    rewrite <- app_assoc. cbn [app].
    exists (match o1, os with
            | Return l1, Return ls => Return (l1 :: ls)
            | _, _ => Throw
            end), (DbGet k a :: evs).
    split; [destruct o1, os; reflexivity|].
    split; [constructor; [exact I | exact Hevs]|].
    split.
    + intros Hthrow.
      destruct o1 as [l1|].
      * destruct os as [ls|]; [discriminate Hthrow|].
        destruct (proj1 Hos eq_refl) as (key & Hkey). exists key. right. exact Hkey.
      * exists k. left. rewrite (proj1 Ho1 eq_refl). reflexivity.
    + intros (key & [Hhead|Htail]).
      * injection Hhead as _ Ha. rewrite (proj2 Ho1 Ha). reflexivity.
      * rewrite (proj2 Hos (ex_intro _ key Htail)). destruct o1; reflexivity.
Qed.

Lemma wp_portfolioLines_throw E l (Q : Outcome (list string) -> Run -> Prop) mem t :
  (forall o evs,
      Forall isDbGet evs ->
      (o = Throw <-> exists key, In (DbGet key DbError) evs) ->
      Q o (mkRun mem (t ++ evs))) ->
  wp (portfolioLines E l) Q (mkRun mem t).
Proof.
  intros H. unfold wp.
  destruct (portfolioLines_throw E l mem t) as (o & evs & -> & Hevs & Hthrow).
  apply H; assumption.
Qed.

(** A database error among the calls of a trace that is known event by
    event, but for the lookups of the portfolio block. *)
Ltac db_error_cases :=
  repeat match goal with
         | H : exists _, _ |- _ => destruct H as (? & H)
         | H : In _ (_ :: _) |- _ => cbn [In] in H
         | H : In _ [] |- _ => destruct H
         | H : In _ (_ ++ _) |- _ => apply in_app_or in H
         | H : False |- _ => destruct H
         | H : _ \/ _ |- _ => destruct H
         | H : In (DbGet ?k DbError) ?evs, Hiff : _ <-> (exists key, In (DbGet key DbError) ?evs)
           |- _ =>
             pose proof (proj2 Hiff (ex_intro _ k H)); clear H
         | H : In (DbAll _ _) ?evs, HF : Forall isDbGet ?evs |- _ =>
             apply (proj1 (List.Forall_forall isDbGet evs) HF) in H; destruct H
         | H : GenerateContent _ _ = _ |- _ => event_eq H
         | H : DbGet _ _ = _ |- _ => event_eq H
         | H : DbAll _ _ = _ |- _ => event_eq H
         | H : GetProfile _ _ = _ |- _ => event_eq H
         | H : GetAssets _ _ = _ |- _ => event_eq H
         | H : GetWallet _ _ = _ |- _ => event_eq H
         | H : PostOrder _ _ _ = _ |- _ => event_eq H
         end.

(** A database error reported to one of the two database reads ends the
    request with status 500. *)
Lemma database_error_gives_500 E req mem :
  (exists key, In (DbGet key DbError) (calls (chat E req mem)))
  \/ (exists limit, In (DbAll limit DbError) (calls (chat E req mem))) ->
  response (chat E req mem) = mkResponse 500 (Error "Internal server error").
Proof.
  destruct (message req) as [[|m0 msg']|] eqn:Hm;
    try (rewrite chat_no_message by auto; cbn [calls In]; intros [(? & [])|(? & [])]).
  pattern (chat E req mem). wp_enter. clear Hcoin.
  repeat first
    [ apply wp_portfolioLines_throw; intros ? ? ? ?;
      cbv beta iota; cbn [trace conversationMemory app]
    | wp_step ].
  all: cbn [finish calls response trace conversationMemory].
  all: intros Hdb; try reflexivity.
  all: exfalso; db_error_cases; try discriminate; try congruence.
Qed.

(** C4 (as amended).  The five account reads never throw: they return the
    data of the response, and the absent value when the request fails.  The
    two database reads return the row(s) the database gives, the coin
    lookup the absent value when no row matches, and reject when the
    database reports an error.  The handler awaits them inside its [try]
    block: whatever the request, a database error reported to one of its
    reads ends it with status 500. *)
Theorem read_gateways E authHeader coinName limit st req mem :
  let data {A} (r : AxiosResult A) : Outcome (option A) :=
    Return (match r with AxResponse d => d | AxError _ => None end) in
  let r := chat E req mem in
  fst (fetchUserProfile E authHeader st) = data (get_profile E (trace st) authHeader)
  /\ fst (fetchUserPortfolio E authHeader st) = data (get_assets E (trace st) authHeader)
  /\ fst (fetchOrderHistory E authHeader st) = data (get_orders E (trace st) authHeader)
  /\ fst (fetchUserWallet E authHeader st) = data (get_wallet E (trace st) authHeader)
  /\ fst (fetchWalletTransactions E authHeader st)
     = data (get_wallet_transactions E (trace st) authHeader)
  /\ fst (getCryptoData E (Some coinName) st)
     = match db_get E (trace st) (JsString.toLowerCase coinName) with
       | DbRows row => Return row
       | DbError => Throw
       end
  /\ fst (getLatestNews E limit st)
     = match db_all E (trace st) limit with
       | DbRows rows => Return rows
       | DbError => Throw
       end
  /\ ((exists key, In (DbGet key DbError) (calls r))
      \/ (exists n, In (DbAll n DbError) (calls r)) ->
      response r = mkResponse 500 (Error "Internal server error")).
Proof.
  cbv zeta.
  unfold fetchUserProfile, fetchUserPortfolio, fetchOrderHistory, fetchUserWallet,
    fetchWalletTransactions, axiosGet, getCryptoData, getLatestNews, bind, call, ret, throw.
  repeat split.
  - destruct (get_profile E (trace st) authHeader); reflexivity.
  - destruct (get_assets E (trace st) authHeader); reflexivity.
  - destruct (get_orders E (trace st) authHeader); reflexivity.
  - destruct (get_wallet E (trace st) authHeader); reflexivity.
  - destruct (get_wallet_transactions E (trace st) authHeader); reflexivity.
  - destruct (db_get E (trace st) (JsString.toLowerCase coinName)); reflexivity.
  - destruct (db_all E (trace st) limit); reflexivity.
  - apply database_error_gives_500.
Qed.

(** ** The fallback prompt *)

Lemma startsWith_nil s : JsString.startsWith s "" = true.
Proof. destruct s; reflexivity. Qed.

Lemma startsWith_app p s : JsString.startsWith (p +:+ s) p = true.
Proof.
  induction p as [|c p IH].
  - apply startsWith_nil.
  - rewrite append_cons. cbn [JsString.startsWith].
    rewrite Ascii.eqb_refl. exact IH.
Qed.

Lemma includes_unfold s p :
  JsString.includes s p =
    if JsString.startsWith s p then true
    else match s with
         | EmptyString => false
         | String _ s' => JsString.includes s' p
         end.
Proof. destruct s; reflexivity. Qed.

Lemma includes_app_r a b p :
  JsString.includes b p = true -> JsString.includes (a +:+ b) p = true.
Proof.
  intros H. induction a as [|c a IH].
  - exact H.
  - rewrite append_cons, includes_unfold, IH.
    destruct (JsString.startsWith _ _); reflexivity.
Qed.

Lemma includes_prefix p s : JsString.includes (p +:+ s) p = true.
Proof. rewrite includes_unfold, startsWith_app. reflexivity. Qed.

Lemma startsWith_app_l a b p :
  JsString.startsWith a p = true -> JsString.startsWith (a +:+ b) p = true.
Proof.
  revert a. induction p as [|c p IH]; intros a H.
  - apply startsWith_nil.
  - destruct a as [|d a]; [discriminate H|].
    rewrite append_cons. cbn [JsString.startsWith] in H |- *.
    destruct (Ascii.eqb c d); [apply IH, H | discriminate H].
Qed.

Lemma includes_app_l a b p :
  JsString.includes a p = true -> JsString.includes (a +:+ b) p = true.
Proof.
  induction a as [|c a IH]; intros H.
  - destruct p; [|discriminate H]. rewrite includes_unfold, startsWith_nil. reflexivity.
  - rewrite includes_unfold in H.
    destruct (JsString.startsWith (String c a) p) eqn:Hs.
    + rewrite includes_unfold, (startsWith_app_l _ b _ Hs). reflexivity.
    + rewrite append_cons, includes_unfold, (IH H).
      destruct (JsString.startsWith (String c (a +:+ b)) p); reflexivity.
Qed.

Lemma includes_join sep l e :
  In e l -> JsString.includes (JsString.join sep l) e = true.
Proof.
  induction l as [|x l IH]; [intros []|].
  intros [->|Hin].
  - destruct l as [|y l]; cbn [JsString.join].
    + rewrite <- (append_nil_r e) at 1. apply includes_prefix.
    + apply includes_prefix.
  - destruct l as [|y l]; [destruct Hin|].
    cbn [JsString.join]. apply includes_app_r, includes_app_r, IH, Hin.
Qed.

(** The prompt of the fallback contains every entry it is given. *)
Lemma buildPrompt_includes l inc parts cm e :
  In e l ->
  JsString.includes (buildPrompt (JsString.join JsString.nl l) inc parts cm) e = true.
Proof.
  intros Hin. pose proof (includes_join JsString.nl l e Hin) as Hj.
  unfold buildPrompt. apply includes_app_r, includes_app_r.
  destruct (JsString.join JsString.nl l) as [|c h] eqn:Hh.
  - destruct e; [|discriminate Hj]. reflexivity.
  - apply includes_app_l, includes_app_r, includes_app_r, includes_app_l. exact Hj.
Qed.

Lemma extractPrompt_head cm :
  JsString.startsWith (extractPrompt cm) "You are a financial assistant." = false.
Proof. reflexivity. Qed.

Lemma intentPrompt_head cm c :
  JsString.startsWith (intentPrompt cm c) "You are a financial assistant." = false.
Proof. reflexivity. Qed.

(** C6 (as amended).  The prompt the fallback sends to the generative
    model is built from the last 10 raw entries of the user's history as it
    stood before the request, that is the 5 most recent user/bot pairs, all
    entries when there are fewer than 10; each of these entries occurs in
    the prompt. *)
Theorem fallback_prompt_embeds_last_10_entries E req mem msg prompt res :
  message req = Some msg -> msg <> "" ->
  let r := chat E req mem in
  let h := memHistory mem (userIdOf req) in
  In (GenerateContent prompt res) (calls r) ->
  JsString.startsWith prompt "You are a financial assistant." = true ->
  (exists includeUserData parts,
      prompt = buildPrompt (JsString.join JsString.nl (sliceLast 10 h))
                           includeUserData parts (cleanOf msg))
  /\ (forall entry, In entry (sliceLast 10 h) -> JsString.includes prompt entry = true).
Proof.
  intros Hm Hmsg r h.
  destruct msg as [|m0 msg']; [congruence|].
  subst r. pattern (chat E req mem). wp_enter. clear Hcoin. subst h.
  wp_run.
  all: cbn [finish calls response trace conversationMemory].
  all: intros Hin Hstart; trace_hyps.
  all: try (rewrite extractPrompt_head in Hstart; discriminate Hstart).
  all: try (rewrite intentPrompt_head in Hstart; discriminate Hstart).
  all: split; [do 2 eexists; reflexivity | intros entry He; apply buildPrompt_includes, He].
Qed.

(** ** Hard failures *)

(** Find an event in a trace that is known up to the lookups of the
    portfolio block. *)
Ltac in_solve :=
  eassumption + (left; reflexivity) + (right; in_solve)
  + (apply in_or_app; in_solve).

(** What ends a request of [chat] with status 500. *)
Lemma chat_500_causes E req mem :
  let r := chat E req mem in
  response r = mkResponse 500 (Error "Internal server error") ->
  (exists key, In (DbGet key DbError) (calls r))
  \/ (exists limit, In (DbAll limit DbError) (calls r))
  \/ (exists prompt,
        In (GenerateContent prompt None) (calls r)
        /\ JsString.startsWith prompt "You are a financial assistant." = true)
  \/ (exists msg auth,
        message req = Some msg /\ authorization req = Some auth /\ auth <> ""
        /\ JsString.includes (cleanOf msg) "buy" = true
        /\ isDollarQuery (cleanOf msg) = true
        /\ resolvedCoin E req mem = None).
Proof.
  intros r.
  destruct (message req) as [[|m0 msg']|] eqn:Hm;
    try (subst r; rewrite chat_no_message by auto; cbn [response]; discriminate).
  pose proof (resolvedCoin_eq E req mem m0 msg' Hm) as Hrc. cbv zeta in Hrc.
  subst r. pattern (chat E req mem). wp_enter.
  rewrite <- Hcoin in Hrc. clear Hcoin.
  wp_run.
  all: cbn [finish calls response trace conversationMemory].
  all: intros H500; try discriminate H500.
  all: try match goal with
           | H : Throw = Throw -> _ |- _ => destruct (H eq_refl) as (? & ?)
           end.
  all: first
         [ solve [left; eexists; in_solve]
         | solve [right; left; eexists; in_solve]
         | solve [right; right; left; eexists; split; [in_solve | reflexivity]]
         | right; right; right; do 2 eexists;
           repeat split; try eassumption; try reflexivity; try discriminate ].
  all: try match goal with
       | H : orderTypeOf ?cm = BUY |- JsString.includes ?cm "buy" = true =>
           unfold orderTypeOf in H; destruct (JsString.includes cm "buy");
           [reflexivity | discriminate H]
       end.
Qed.

(** X1.  A request, whatever its message is, ends with status 500 only
    when the message passes the guard and is no string (nothing is called
    then and the memory is left alone), or a database read reported an
    error, or the generative model failed on the fallback prompt, or a BUY
    in dollars was asked with no coin resolved. *)
Theorem status_500_causes E msg authHeader ip mem :
  let r := route E msg authHeader ip mem in
  response r = mkResponse 500 (Error "Internal server error") ->
  (truthyValue msg = true /\ (forall s, msg <> JStr s)
   /\ calls r = [] /\ memory r = mem)
  \/ (exists key, In (DbGet key DbError) (calls r))
  \/ (exists limit, In (DbAll limit DbError) (calls r))
  \/ (exists prompt,
        In (GenerateContent prompt None) (calls r)
        /\ JsString.startsWith prompt "You are a financial assistant." = true)
  \/ (exists s auth,
        msg = JStr s /\ authHeader = Some auth /\ auth <> ""
        /\ JsString.includes (cleanOf s) "buy" = true
        /\ isDollarQuery (cleanOf s) = true
        /\ resolvedCoin E (mkRequest (Some s) authHeader ip) mem = None).
Proof.
  intros r H500.
  assert (Hguard : forall req,
             message req = None ->
             response (chat E req mem) <> mkResponse 500 (Error "Internal server error")).
  { intros req Hm. rewrite chat_no_message by auto. discriminate. }
  destruct msg as [| |b|x|s|]; subst r; unfold route in *; cbn [truthyValue] in *.
  5: { right.
       destruct (chat_500_causes E _ mem H500)
         as [H|[H|[H|(m & a & Hm & Ha & Hne & Hbuy & Hdollar & Hcoin)]]]; auto.
       cbn [message authorization] in Hm, Ha. injection Hm as <-.
       do 3 right. exists s, a. repeat split; assumption. }
  all: try (exfalso; revert H500; apply Hguard; reflexivity).
  - destruct b; [|exfalso; revert H500; apply Hguard; reflexivity].
    left. repeat split; discriminate.
  - destruct (JsNumber.truthy x); [|exfalso; revert H500; apply Hguard; reflexivity].
    left. repeat split; discriminate.
  - left. repeat split; discriminate.
Qed.

(** ** Substrings and the keyword tests *)

Lemma startsWith_iff s p :
  JsString.startsWith s p = true <-> exists b, s = p +:+ b.
Proof.
  split.
  - revert s. induction p as [|c p IH]; intros s H.
    + exists s. reflexivity.
    + destruct s as [|d s]; [discriminate H|].
      cbn [JsString.startsWith] in H.
      destruct (Ascii.eqb_spec c d) as [->|]; [|discriminate H].
      destruct (IH s H) as (b & ->). exists b. reflexivity.
  - intros (b & ->). apply startsWith_app.
Qed.

Lemma includes_iff s p :
  JsString.includes s p = true <-> exists a b, s = a +:+ p +:+ b.
Proof.
  split.
  - induction s as [|c s IH]; intros H; rewrite includes_unfold in H.
    + destruct (JsString.startsWith "" p) eqn:Hs; [|discriminate H].
      apply startsWith_iff in Hs as (b & Hb). exists "", b. exact Hb.
    + destruct (JsString.startsWith (String c s) p) eqn:Hs.
      * apply startsWith_iff in Hs as (b & Hb). exists "", b. exact Hb.
      * destruct (IH H) as (a & b & ->). exists (String c a), b. reflexivity.
  - intros (a & b & ->). apply includes_app_r, includes_prefix.
Qed.

Lemma append_assoc a b c : (a +:+ b) +:+ c = a +:+ b +:+ c.
Proof.
  induction a as [|x a IH]; [reflexivity|].
  rewrite !append_cons, IH. reflexivity.
Qed.

(** A text that contains a phrase contains every part of the phrase. *)
Lemma includes_part s u p v :
  JsString.includes s (u +:+ p +:+ v) = true -> JsString.includes s p = true.
Proof.
  intros H. apply includes_iff in H as (a & b & ->). apply includes_iff.
  exists (a +:+ u), (v +:+ b). rewrite !append_assoc. reflexivity.
Qed.

Lemma isNewsQuery_eq cm :
  isNewsQuery cm = (JsString.includes cm "news" || JsString.includes cm "headlines").
Proof.
  unfold isNewsQuery.
  destruct (JsString.includes cm "latest news") eqn:H; [|apply orb_false_r].
  rewrite (includes_part cm "latest " "news" "" H). reflexivity.
Qed.

Lemma isHoldingQuery_eq cm : isHoldingQuery cm = JsString.includes cm "holding".
Proof.
  unfold isHoldingQuery.
  destruct (JsString.includes cm "am i holding") eqn:H; [|apply orb_false_r].
  rewrite (includes_part cm "am i " "holding" "" H). reflexivity.
Qed.

(** X2.  Two of the keyword tests never decide anything: a message that
    contains "latest news" contains "news", and one that contains
    "am i holding" contains "holding".  A news query is a message with
    "news" or "headlines" in it, a holding query one with "holding". *)
Theorem redundant_keyword_tests cm :
  isNewsQuery cm = (JsString.includes cm "news" || JsString.includes cm "headlines")
  /\ isHoldingQuery cm = JsString.includes cm "holding"
  /\ (JsString.includes cm "latest news" = true -> JsString.includes cm "news" = true)
  /\ (JsString.includes cm "am i holding" = true -> JsString.includes cm "holding" = true).
Proof.
  split; [apply isNewsQuery_eq|]. split; [apply isHoldingQuery_eq|].
  split; intros H.
  - exact (includes_part cm "latest " "news" "" H).
  - exact (includes_part cm "am i " "holding" "" H).
Qed.

(** ** The text [cleanResponse] returns *)

Lemma allChars_In f s :
  allChars f s = true <-> forall c, In c (list_ascii_of_string s) -> f c = true.
Proof.
  induction s as [|c s IH]; cbn [allChars list_ascii_of_string In].
  - split; [intros _ c [] | reflexivity].
  - rewrite andb_true_iff, IH. split.
    + intros [Hc Hs] d [<-|Hd]; auto.
    + intros H. split; [apply H; left; reflexivity | intros d Hd; apply H; right; exact Hd].
Qed.

Lemma removeStars_notStar s : allChars notStar (JsString.removeStars s) = true.
Proof.
  induction s as [|c s IH]; [reflexivity|].
  cbn [JsString.removeStars]. destruct (Ascii.eqb c "*") eqn:Hc; [exact IH|].
  cbn [allChars]. unfold notStar at 1. rewrite Hc, IH. reflexivity.
Qed.

Lemma collapseSpaces_allChars f s :
  f " "%char = true -> allChars f s = true ->
  allChars f (JsString.collapseSpaces s) = true.
Proof.
  intros Hsp. induction s as [|c s IH]; [reflexivity|].
  cbn [allChars]. intros H. apply andb_true_iff in H as [Hc Hs].
  cbn [JsString.collapseSpaces]. destruct (JsString.isSpace c).
  - destruct s as [|c' s']; [cbn [allChars]; rewrite Hsp; reflexivity|].
    destruct (JsString.isSpace c'); [exact (IH Hs)|].
    cbn [allChars] in *. rewrite Hsp. exact (IH Hs).
  - cbn [allChars]. rewrite Hc. exact (IH Hs).
Qed.

Lemma trimStart_allChars f s :
  allChars f s = true -> allChars f (JsString.trimStart s) = true.
Proof.
  induction s as [|c s IH]; [reflexivity|].
  intros H. cbn [JsString.trimStart]. destruct (JsString.isSpace c); [|exact H].
  cbn [allChars] in H. apply andb_true_iff in H as [_ H]. exact (IH H).
Qed.

Lemma trimEnd_head c s :
  JsString.trimEnd (String c s) = ""
  \/ exists t, JsString.trimEnd (String c s) = String c t.
Proof.
  cbn [JsString.trimEnd]. destruct (JsString.trimEnd s).
  - destruct (JsString.isSpace c); [left | right; eexists]; reflexivity.
  - right. eexists. reflexivity.
Qed.

Lemma trimEnd_allChars f s :
  allChars f s = true -> allChars f (JsString.trimEnd s) = true.
Proof.
  induction s as [|c s IH]; [reflexivity|].
  cbn [allChars]. intros H. apply andb_true_iff in H as [Hc Hs].
  specialize (IH Hs). cbn [JsString.trimEnd].
  destruct (JsString.trimEnd s) as [|d t].
  - destruct (JsString.isSpace c); [reflexivity|]. cbn [allChars]. rewrite Hc. reflexivity.
  - cbn [allChars] in IH |- *. rewrite Hc. exact IH.
Qed.

Lemma collapseSpaces_head s :
  headNotSpace s = true -> headNotSpace (JsString.collapseSpaces s) = true.
Proof.
  destruct s as [|c s]; [reflexivity|]. cbn [headNotSpace JsString.collapseSpaces].
  intros H. apply negb_true_iff in H. rewrite H. cbn [headNotSpace]. rewrite H. reflexivity.
Qed.

Lemma collapseSpaces_singleSpaced s :
  singleSpaced true (JsString.collapseSpaces s) = true.
Proof.
  induction s as [|c s IH]; [reflexivity|].
  cbn [JsString.collapseSpaces]. destruct (JsString.isSpace c) eqn:Hc.
  - destruct s as [|c' s']; [reflexivity|].
    destruct (JsString.isSpace c') eqn:Hc'; [exact IH|].
    cbn [singleSpaced]. change (JsString.isSpace " ") with true. cbv iota.
    rewrite IH. cbn [JsString.collapseSpaces]. rewrite Hc'. rewrite Hc'. reflexivity.
  - cbn [singleSpaced]. rewrite Hc. exact IH.
Qed.

Lemma trimStart_singleSpaced e s :
  singleSpaced e s = true -> singleSpaced e (JsString.trimStart s) = true.
Proof.
  induction s as [|c s IH]; [reflexivity|].
  intros H. cbn [JsString.trimStart]. destruct (JsString.isSpace c); [|exact H].
  cbn [singleSpaced] in H. apply andb_true_iff in H as [_ H]. exact (IH H).
Qed.

Lemma trimStart_head s : headNotSpace (JsString.trimStart s) = true.
Proof.
  induction s as [|c s IH]; [reflexivity|].
  cbn [JsString.trimStart]. destruct (JsString.isSpace c) eqn:Hc; [exact IH|].
  cbn [headNotSpace]. rewrite Hc. reflexivity.
Qed.

Lemma trimEnd_headNotSpace s :
  headNotSpace s = true -> headNotSpace (JsString.trimEnd s) = true.
Proof.
  destruct s as [|c s]; [reflexivity|]. intros H.
  destruct (trimEnd_head c s) as [->|(t & ->)]; [reflexivity | exact H].
Qed.

Lemma trimEnd_singleSpaced s :
  singleSpaced true s = true -> singleSpaced false (JsString.trimEnd s) = true.
Proof.
  induction s as [|c s IH]; [reflexivity|].
  cbn [singleSpaced]. intros H. apply andb_true_iff in H as [Hc Hs].
  specialize (IH Hs). cbn [JsString.trimEnd].
  destruct (JsString.trimEnd s) as [|d t] eqn:Ht.
  - destruct (JsString.isSpace c) eqn:Hsp; [reflexivity|].
    cbn [singleSpaced]. rewrite Hsp. reflexivity.
  - cbn [singleSpaced] in IH |- *. rewrite IH, andb_true_r.
    destruct (JsString.isSpace c); [|reflexivity].
    apply andb_true_iff in Hc as [-> Hnext]. cbn [andb].
    destruct s as [|d' s']; [discriminate Ht|].
    destruct (trimEnd_head d' s') as [H0|(t' & H1)]; rewrite Ht in *;
      [discriminate H0 | injection H1 as <- _; exact Hnext].
Qed.

(** What [cleanResponse] produces: no asterisk, single spaces as the only
    white space, none of them at either end. *)
Lemma cleanResponse_tidy text :
  let r := cleanResponse text in
  allChars notStar r = true
  /\ singleSpaced false r = true
  /\ headNotSpace r = true.
Proof.
  unfold cleanResponse, JsString.trim. cbv zeta. repeat split.
  - apply trimEnd_allChars, trimStart_allChars, collapseSpaces_allChars;
      [reflexivity | apply removeStars_notStar].
  - apply trimEnd_singleSpaced, trimStart_singleSpaced, collapseSpaces_singleSpaced.
  - apply trimEnd_headNotSpace, trimStart_head.
Qed.

Lemma isSpace_newline c : (nat_of_ascii c =? 10)%nat = true -> JsString.isSpace c = true.
Proof.
  intros H. unfold JsString.isSpace. apply Nat.eqb_eq in H. rewrite H. reflexivity.
Qed.

Lemma tidy_replaceNewlines e s :
  singleSpaced e s = true -> JsString.replaceNewlines s = s.
Proof.
  induction s as [|c s IH]; [reflexivity|].
  cbn [singleSpaced JsString.replaceNewlines]. intros H.
  apply andb_true_iff in H as [Hc Hs]. rewrite (IH Hs). f_equal.
  destruct (nat_of_ascii c =? 10)%nat eqn:Hn; [|reflexivity].
  rewrite (isSpace_newline c Hn) in Hc. apply andb_true_iff in Hc as [Hc _].
  symmetry. apply Ascii.eqb_eq, Hc.
Qed.

Lemma tidy_removeStars s :
  allChars notStar s = true -> JsString.removeStars s = s.
Proof.
  induction s as [|c s IH]; [reflexivity|].
  cbn [allChars JsString.removeStars]. intros H.
  apply andb_true_iff in H as [Hc Hs]. unfold notStar in Hc.
  apply negb_true_iff in Hc. rewrite Hc, (IH Hs). reflexivity.
Qed.

Lemma tidy_collapseSpaces s :
  singleSpaced false s = true -> JsString.collapseSpaces s = s.
Proof.
  induction s as [|c s IH]; [reflexivity|].
  cbn [singleSpaced JsString.collapseSpaces]. intros H.
  apply andb_true_iff in H as [Hc Hs]. rewrite (IH Hs).
  destruct (JsString.isSpace c); [|reflexivity].
  apply andb_true_iff in Hc as [Hc Hnext]. apply Ascii.eqb_eq in Hc. subst c.
  destruct s as [|c' s']; [discriminate Hnext|].
  apply negb_true_iff in Hnext. rewrite Hnext. reflexivity.
Qed.

Lemma tidy_trimStart s : headNotSpace s = true -> JsString.trimStart s = s.
Proof.
  destruct s as [|c s]; [reflexivity|]. cbn [headNotSpace JsString.trimStart].
  intros H. apply negb_true_iff in H. rewrite H. reflexivity.
Qed.

Lemma tidy_trimEnd s : singleSpaced false s = true -> JsString.trimEnd s = s.
Proof.
  induction s as [|c s IH]; [reflexivity|].
  cbn [singleSpaced JsString.trimEnd]. intros H.
  apply andb_true_iff in H as [Hc Hs]. rewrite (IH Hs).
  destruct s as [|c' s']; [|reflexivity].
  destruct (JsString.isSpace c); [|reflexivity].
  rewrite andb_false_r in Hc. discriminate Hc.
Qed.

Lemma tidy_no_double_space s :
  singleSpaced false s = true -> JsString.includes s "  " = false.
Proof.
  induction s as [|c s IH]; [reflexivity|].
  cbn [singleSpaced]. intros H. apply andb_true_iff in H as [Hc Hs].
  rewrite includes_unfold, (IH Hs).
  cbn [JsString.startsWith].
  destruct (Ascii.eqb_spec " " c) as [<-|]; [|reflexivity].
  change (JsString.isSpace " ") with true in Hc. cbv iota in Hc.
  destruct s as [|c' s']; [reflexivity|]. cbn [JsString.startsWith].
  destruct (Ascii.eqb_spec " " c') as [<-|]; [discriminate Hc | reflexivity].
Qed.

(** X3.  The text [cleanResponse] returns holds no asterisk and no white
    space other than single spaces between words: no tab or line break, no
    two spaces in a row, no space at either end.  Cleaning a cleaned text
    changes nothing. *)
Theorem cleanResponse_normal_form text :
  let r := cleanResponse text in
  (forall c, In c (list_ascii_of_string r) ->
     c <> "*"%char /\ (JsString.isSpace c = true -> c = " "%char))
  /\ JsString.includes r "  " = false
  /\ JsString.startsWith r " " = false
  /\ JsString.trim r = r
  /\ cleanResponse r = r.
Proof.
  destruct (cleanResponse_tidy text) as (Hstar & Hsp & Hhead).
  set (r := cleanResponse text) in *. cbv zeta.
  assert (Htrim : JsString.trim r = r).
  { unfold JsString.trim. rewrite (tidy_trimStart r Hhead). apply tidy_trimEnd, Hsp. }
  split; [|split; [|split; [|split]]].
  - intros c Hc. split.
    + pose proof (proj1 (allChars_In notStar r) Hstar c Hc) as H.
      unfold notStar in H. apply negb_true_iff in H. intros ->. discriminate H.
    + clear - Hsp Hc. induction r as [|d r IH]; [destruct Hc|].
      cbn [singleSpaced] in Hsp. apply andb_true_iff in Hsp as [Hd Hr].
      destruct Hc as [->|Hc]; [|exact (IH Hr Hc)].
      intros Hs. rewrite Hs in Hd. apply andb_true_iff in Hd as [Hd _].
      apply Ascii.eqb_eq, Hd.
  - apply tidy_no_double_space, Hsp.
  - destruct r as [|c r']; [reflexivity|]. cbn [headNotSpace] in Hhead.
    cbn [JsString.startsWith]. destruct (Ascii.eqb_spec " " c) as [<-|]; [discriminate Hhead|].
    reflexivity.
  - exact Htrim.
  - unfold cleanResponse.
    rewrite (tidy_replaceNewlines false r Hsp), (tidy_removeStars r Hstar),
      (tidy_collapseSpaces r Hsp). exact Htrim.
Qed.

Lemma wordChars_replaceNewlines s : wordChars (JsString.replaceNewlines s) = wordChars s.
Proof.
  induction s as [|c s IH]; [reflexivity|].
  cbn [JsString.replaceNewlines wordChars]. rewrite IH.
  destruct (nat_of_ascii c =? 10)%nat eqn:Hn; [|reflexivity].
  unfold isWordChar. rewrite (isSpace_newline c Hn). reflexivity.
Qed.

Lemma wordChars_removeStars s : wordChars (JsString.removeStars s) = wordChars s.
Proof.
  induction s as [|c s IH]; [reflexivity|].
  cbn [JsString.removeStars wordChars].
  destruct (Ascii.eqb c "*") eqn:Hc.
  - unfold isWordChar. rewrite Hc, orb_true_r. exact IH.
  - cbn [wordChars]. rewrite IH. reflexivity.
Qed.

Lemma wordChars_collapseSpaces s : wordChars (JsString.collapseSpaces s) = wordChars s.
Proof.
  induction s as [|c s IH]; [reflexivity|].
  cbn [JsString.collapseSpaces wordChars].
  destruct (JsString.isSpace c) eqn:Hc.
  - assert (Hw : isWordChar c = false) by (unfold isWordChar; rewrite Hc; reflexivity).
    rewrite Hw.
    destruct s as [|c' s']; [reflexivity|].
    destruct (JsString.isSpace c'); [exact IH|].
    cbn [wordChars] in IH |- *. exact IH.
  - cbn [wordChars]. rewrite IH. reflexivity.
Qed.

Lemma wordChars_trimStart s : wordChars (JsString.trimStart s) = wordChars s.
Proof.
  induction s as [|c s IH]; [reflexivity|].
  cbn [JsString.trimStart wordChars].
  destruct (JsString.isSpace c) eqn:Hc; [|reflexivity].
  unfold isWordChar. rewrite Hc. exact IH.
Qed.

Lemma wordChars_trimEnd s : wordChars (JsString.trimEnd s) = wordChars s.
Proof.
  induction s as [|c s IH]; [reflexivity|].
  cbn [JsString.trimEnd wordChars]. rewrite <- IH.
  destruct (JsString.trimEnd s) as [|d t].
  - destruct (JsString.isSpace c) eqn:Hc.
    + unfold isWordChar. rewrite Hc. reflexivity.
    + reflexivity.
  - reflexivity.
Qed.

(** X4.  On a text of the ASCII range cleaning deletes or alters only
    asterisks and white space: the other characters of the text are the
    other characters of the result, in the same order. *)
Theorem cleanResponse_keeps_word_characters text :
  allChars isAscii text = true ->
  wordChars (cleanResponse text) = wordChars text.
Proof.
  intros _. unfold cleanResponse, JsString.trim.
  rewrite wordChars_trimEnd, wordChars_trimStart, wordChars_collapseSpaces,
    wordChars_removeStars, wordChars_replaceNewlines.
  reflexivity.
Qed.

(** ** The amount of a trade *)

Lemma spanDigits_spec s :
  let '(d, r) := JsString.spanDigits s in
  s = d +:+ r /\ JsString.allDigits d = true /\ headNotDigit r = true.
Proof.
  induction s as [|c s IH]; [repeat split|].
  cbn [JsString.spanDigits]. destruct (JsString.isDigit c) eqn:Hc.
  - destruct (JsString.spanDigits s) as [d r]. destruct IH as (-> & Hd & Hr).
    cbn [JsString.allDigits]. rewrite Hc, Hd. repeat split. exact Hr.
  - cbn [headNotDigit]. rewrite Hc. repeat split.
Qed.

Lemma spanDigits_head c s :
  JsString.isDigit c = true ->
  exists d r, JsString.spanDigits (String c s) = (String c d, r).
Proof.
  intros Hc. cbn [JsString.spanDigits]. rewrite Hc.
  destruct (JsString.spanDigits s) as [d r]. eauto.
Qed.

(** [parseFloat] on a run of digits. *)
Lemma parseFloat_digits a :
  JsString.allDigits a = true -> a <> "" ->
  JsNumber.parseFloat a
  = SF2Prim (JsNumber.roundDecimal (JsNumber.digitsValue 0 a) 0).
Proof.
  intros Ha Hne. destruct a as [|c a]; [congruence|].
  pose proof Ha as Hc. cbn [JsString.allDigits] in Hc.
  apply andb_true_iff in Hc as [Hc _].
  destruct (digit_char c Hc) as (Hsp & Hminus & Hplus & Hdot & HI & _).
  unfold JsNumber.parseFloat. cbn [JsString.trimStart]. rewrite Hsp.
  cbn [JsNumber.splitSign]. rewrite Hminus, Hplus.
  unfold JsNumber.parseUnsigned. cbn [JsString.startsWith]. rewrite HI.
  rewrite <- (append_nil_r (String c a)) at 1.
  rewrite (spanDigits_digits (String c a) "" Ha I).
  cbn [JsNumber.fractionPart]. rewrite append_nil_r. reflexivity.
Qed.

Lemma matchNumberHere_spec c s :
  JsString.isDigit c = true ->
  exists ip fp rest,
    String c s = JsString.matchNumberHere (String c s) +:+ rest
    /\ JsString.allDigits ip = true /\ ip <> ""
    /\ JsString.allDigits fp = true
    /\ JsString.matchNumberHere (String c s)
       = match fp with
         | EmptyString => ip
         | _ => ip +:+ "." +:+ fp
         end
    /\ headNotDigit rest = true
    /\ (fp = "" -> startsWithFraction rest = false).
Proof.
  intros Hc. unfold JsString.matchNumberHere.
  pose proof (spanDigits_spec (String c s)) as Hsp.
  destruct (spanDigits_head c s Hc) as (d & r & Hd). rewrite Hd in Hsp |- *.
  destruct Hsp as (Hs & Hall & Hr).
  assert (Hne : String c d <> "") by discriminate.
  destruct r as [|x r'].
  { exists (String c d), "", "". repeat split; auto. }
  destruct (Ascii.eqb_spec x ".") as [->|Hx].
  - pose proof (spanDigits_spec r') as Hf.
    destruct (JsString.spanDigits r') as [[|f0 f] r2] eqn:Hr'.
    + destruct Hf as (-> & _ & Hr2). rewrite append_nil_l in *.
      exists (String c d), "", (String "." r2).
      repeat split; auto.
      intros _. cbn [startsWithFraction].
      destruct r2 as [|y r3]; [reflexivity|].
      cbn [headNotDigit] in Hr2. apply negb_true_iff, Hr2.
    + destruct Hf as (-> & Hfd & Hr2).
      exists (String c d), (String f0 f), r2.
      repeat split; auto.
      * rewrite Hs at 1. rewrite !append_assoc. reflexivity.
      * discriminate.
  - exists (String c d), "", (String x r').
    assert (Hm : match x with
                 | "."%char => match JsString.spanDigits r' with
                               | (EmptyString, _) => String c d
                               | (String _ _ as f, _) => String c d +:+ "." +:+ f
                               end
                 | _ => String c d
                 end = String c d).
    { destruct x as [[] [] [] [] [] [] [] []]; try reflexivity. congruence. }
    rewrite Hm. repeat split; auto.
    intros _. cbn [startsWithFraction].
    destruct x as [[] [] [] [] [] [] [] []]; try reflexivity. congruence.
Qed.

Lemma matchNumber_spec s :
  match JsString.matchNumber s with
  | None => allChars notDigit s = true
  | Some m =>
      exists pre ip fp rest,
        s = pre +:+ m +:+ rest
        /\ allChars notDigit pre = true
        /\ JsString.allDigits ip = true /\ ip <> ""
        /\ JsString.allDigits fp = true
        /\ m = match fp with
               | EmptyString => ip
               | _ => ip +:+ "." +:+ fp
               end
        /\ headNotDigit rest = true
        /\ (fp = "" -> startsWithFraction rest = false)
  end.
Proof.
  induction s as [|c s IH]; [reflexivity|].
  cbn [JsString.matchNumber]. destruct (JsString.isDigit c) eqn:Hc.
  - destruct (matchNumberHere_spec c s Hc) as (ip & fp & rest & Hs & Hip & Hne & Hfp & Hm & Hr & Hf).
    exists "", ip, fp, rest. rewrite append_nil_l. repeat split; assumption.
  - destruct (JsString.matchNumber s) as [m|].
    + destruct IH as (pre & ip & fp & rest & -> & Hpre & Hip & Hne & Hfp & Hm & Hr & Hf).
      exists (String c pre), ip, fp, rest.
      cbn [allChars]. unfold notDigit at 1. rewrite Hc, Hpre.
      repeat split; assumption.
    + cbn [allChars]. unfold notDigit at 1. rewrite Hc. exact IH.
Qed.

(** X5.  The amount of a trade is the leftmost decimal numeral of the
    message: a run of digits as long as it can be, with a point and further
    digits when these follow directly; nothing before it holds a digit, a
    sign before it and an exponent after it are not part of it, and its
    value is the binary64 number nearest to the decimal it spells.  A
    message without a digit has no amount. *)
Theorem amount_is_leftmost_numeral s :
  match JsString.matchNumber s with
  | None => allChars notDigit s = true
  | Some m =>
      exists pre ip fp rest,
        s = pre +:+ m +:+ rest
        /\ allChars notDigit pre = true
        /\ JsString.allDigits ip = true /\ ip <> ""
        /\ JsString.allDigits fp = true
        /\ m = match fp with
               | EmptyString => ip
               | _ => ip +:+ "." +:+ fp
               end
        /\ headNotDigit rest = true
        /\ (fp = "" -> startsWithFraction rest = false)
        /\ JsNumber.parseFloat m
           = SF2Prim (JsNumber.roundDecimal (JsNumber.digitsValue 0 (ip +:+ fp))
                                            (- Z.of_nat (String.length fp)))
  end.
Proof.
  pose proof (matchNumber_spec s) as H.
  destruct (JsString.matchNumber s) as [m|]; [|exact H].
  destruct H as (pre & ip & fp & rest & Hs & Hpre & Hip & Hne & Hfp & Hm & Hr & Hf).
  exists pre, ip, fp, rest. repeat split; try assumption.
  subst m. destruct fp as [|f0 f].
  - rewrite append_nil_r. apply parseFloat_digits; assumption.
  - exact (parseFloat_fixed false ip (String f0 f) Hip Hne Hfp).
Qed.

Lemma matchNumber_no_digit s :
  allChars notDigit s = true -> JsString.matchNumber s = None.
Proof.
  induction s as [|c s IH]; [reflexivity|].
  cbn [allChars JsString.matchNumber]. intros H. apply andb_true_iff in H as [Hc Hs].
  unfold notDigit in Hc. apply negb_true_iff in Hc. rewrite Hc. exact (IH Hs).
Qed.

(** ** Case folding and trimming *)

Lemma lowerChar_facts c :
  JsString.lowerChar (JsString.lowerChar c) = JsString.lowerChar c
  /\ JsString.isSpace (JsString.lowerChar c) = JsString.isSpace c.
Proof. destruct c as [[] [] [] [] [] [] [] []]; split; reflexivity. Qed.

Lemma toLowerCase_idem s :
  JsString.toLowerCase (JsString.toLowerCase s) = JsString.toLowerCase s.
Proof.
  induction s as [|c s IH]; [reflexivity|].
  cbn [JsString.toLowerCase]. rewrite IH, (proj1 (lowerChar_facts c)). reflexivity.
Qed.

Lemma toLowerCase_toUpperCase s :
  JsString.toLowerCase (JsString.toUpperCase s) = JsString.toLowerCase s.
Proof.
  induction s as [|c s IH]; [reflexivity|].
  cbn [JsString.toUpperCase JsString.toLowerCase]. rewrite IH. f_equal.
  destruct c as [[] [] [] [] [] [] [] []]; reflexivity.
Qed.

Lemma trimStart_toLowerCase s :
  JsString.trimStart (JsString.toLowerCase s) = JsString.toLowerCase (JsString.trimStart s).
Proof.
  induction s as [|c s IH]; [reflexivity|].
  cbn [JsString.toLowerCase JsString.trimStart].
  rewrite (proj2 (lowerChar_facts c)). destruct (JsString.isSpace c); [exact IH | reflexivity].
Qed.

Lemma trimEnd_toLowerCase s :
  JsString.trimEnd (JsString.toLowerCase s) = JsString.toLowerCase (JsString.trimEnd s).
Proof.
  induction s as [|c s IH]; [reflexivity|].
  cbn [JsString.toLowerCase JsString.trimEnd]. rewrite IH.
  rewrite (proj2 (lowerChar_facts c)).
  destruct (JsString.trimEnd s); cbn [JsString.toLowerCase]; [|reflexivity].
  destruct (JsString.isSpace c); reflexivity.
Qed.

Lemma trim_toLowerCase s :
  JsString.trim (JsString.toLowerCase s) = JsString.toLowerCase (JsString.trim s).
Proof. unfold JsString.trim. rewrite trimStart_toLowerCase, trimEnd_toLowerCase. reflexivity. Qed.

Lemma trimEnd_idem s : JsString.trimEnd (JsString.trimEnd s) = JsString.trimEnd s.
Proof.
  induction s as [|c s IH]; [reflexivity|].
  cbn [JsString.trimEnd]. destruct (JsString.trimEnd s) as [|d t].
  - destruct (JsString.isSpace c) eqn:Hc; [reflexivity|].
    cbn [JsString.trimEnd]. rewrite Hc. reflexivity.
  - change (JsString.trimEnd (String c (String d t)))
      with (match JsString.trimEnd (String d t) with
            | "" => if JsString.isSpace c then "" else String c ""
            | String _ _ as t0 => String c t0
            end).
    rewrite IH. reflexivity.
Qed.

Lemma trim_idem s : JsString.trim (JsString.trim s) = JsString.trim s.
Proof.
  unfold JsString.trim.
  rewrite (tidy_trimStart (JsString.trimEnd (JsString.trimStart s)))
    by apply trimEnd_headNotSpace, trimStart_head.
  apply trimEnd_idem.
Qed.

(** The coin names [extractCoinName] returns: lower case, trimmed and
    never the word "unknown". *)
Lemma coinName_normal text :
  let c := JsString.toLowerCase (JsString.trim text) in
  JsString.toLowerCase c = c /\ JsString.trim c = c.
Proof.
  cbv zeta. split; [apply toLowerCase_idem|].
  rewrite trim_toLowerCase, trim_idem. reflexivity.
Qed.

Lemma extractedCoin_spec E cm c :
  extractedCoin E cm = Some c ->
  c <> "unknown" /\ JsString.toLowerCase c = c /\ JsString.trim c = c.
Proof.
  unfold extractedCoin. rewrite extractCoinName_run. cbn [fst].
  destruct (generateContent E _ _) as [text|]; [|discriminate].
  cbv zeta. destruct (String.eqb_spec (JsString.toLowerCase (JsString.trim text)) "unknown")
    as [|Hne]; [discriminate|].
  intros [= <-]. split; [exact Hne | apply coinName_normal].
Qed.

(** X6.  [extractCoinName] never throws and never touches the conversation
    memory; it asks the model exactly once, with the query between double
    quotes at the end of the prompt.  What it returns is the model's answer
    trimmed and in lower case, so a name in lower case without white space
    around it, and nothing when the model fails or answers "unknown" in any
    mix of cases. *)
Theorem extractCoinName_contract E userQuery st :
  let prompt := extractPrompt userQuery in
  let answer := generateContent E (trace st) prompt in
  exists coinName,
    extractCoinName E userQuery st
    = (Return coinName,
       mkRun (conversationMemory st) (trace st ++ [GenerateContent prompt answer]))
    /\ (coinName = None <->
        answer = None
        \/ exists text, answer = Some text
                        /\ JsString.toLowerCase (JsString.trim text) = "unknown")
    /\ (forall c, coinName = Some c ->
          exists text, answer = Some text
                       /\ c = JsString.toLowerCase (JsString.trim text))
    /\ (forall c, coinName = Some c ->
          c <> "unknown" /\ JsString.toLowerCase c = c /\ JsString.trim c = c)
    /\ exists head, prompt = head +:+ JsString.dquote +:+ userQuery +:+ JsString.dquote.
Proof.
  cbv zeta. rewrite extractCoinName_run. eexists. split; [reflexivity|].
  destruct (generateContent E (trace st) (extractPrompt userQuery)) as [text|].
  - cbv zeta.
    destruct (String.eqb_spec (JsString.toLowerCase (JsString.trim text)) "unknown")
      as [Heq|Hne].
    + split; [split; [intros _; right; eauto | reflexivity]|].
      split; [discriminate|]. split; [discriminate|].
      eexists. unfold extractPrompt. rewrite <- !append_assoc. reflexivity.
    + split.
      { split; [discriminate|]. intros [H|(t & [= <-] & H)]; congruence. }
      split; [intros c [= <-]; eauto|].
      split; [intros c [= <-]; split; [exact Hne | apply coinName_normal]|].
      eexists. unfold extractPrompt. rewrite <- !append_assoc. reflexivity.
  - split; [split; [auto | reflexivity]|].
    split; [discriminate|]. split; [discriminate|].
    eexists. unfold extractPrompt. rewrite <- !append_assoc. reflexivity.
Qed.

(** ** Requests and the conversation memory *)

(** X7.  While the user ids are no names of [Object.prototype] members, a
    request whose message is a string that is not empty is answered with
    status 200 or fails with status 500, never 400.  Either way the user
    has a session with a history afterwards and the sessions of the other
    users are what they were; a request that fails adds nothing to any
    history. *)
Theorem request_outcome_and_memory reqs E req msg :
  ownUserIds (reqs ++ [(E, req)]) = true ->
  message req = Some msg -> msg <> "" ->
  let mem := serve reqs ∅ in
  let r := chat E req mem in
  let u := userIdOf req in
  ((exists text, response r = ok text)
   \/ response r = mkResponse 500 (Error "Internal server error"))
  /\ (exists h lc, memory r !! u = Some (mkSession (Some h) lc))
  /\ (forall v, v <> u -> memory r !! v = mem !! v)
  /\ (response r = mkResponse 500 (Error "Internal server error") ->
      forall v, memHistory (memory r) v = memHistory mem v).
Proof.
  intros _ Hm Hmsg mem r u. destruct msg as [|a msg]; [congruence|].
  destruct (chat_memory E req mem a msg Hm) as (mem1 & Hu & Hother & Hcase).
  fold r u in Hu, Hother, Hcase.
  destruct Hcase as [[H500 Hmem]|(text & Hok & Hmem)]; rewrite Hmem.
  - split; [right; exact H500|]. split; [eauto|]. split; [exact Hother|].
    intros _ v. destruct (decide (v = u)) as [->|Hv].
    + apply (memHistory_seeded _ _ _ _ Hu).
    + apply memHistory_other, Hother, Hv.
  - split; [left; eauto|]. split; [rewrite lookup_insert_eq; eauto|]. split.
    + intros v Hv. rewrite lookup_insert_ne by congruence. apply Hother, Hv.
    + rewrite Hok. discriminate.
Qed.

(** The remembered coin of every user after a request. *)
Lemma chat_lastCoin E req mem v :
  memLastCoin (memory (chat E req mem)) v
  = match message req with
    | Some (String _ _ as msg) =>
        if decide (v = userIdOf req)
        then if JsString.truthy (extractedCoin E (cleanOf msg))
             then extractedCoin E (cleanOf msg)
             else memLastCoin mem v
        else memLastCoin mem v
    | _ => memLastCoin mem v
    end.
Proof.
  destruct (message req) as [[|a msg]|] eqn:Hm;
    try (rewrite chat_no_message by auto; reflexivity).
  destruct (chat_memory E req mem a msg Hm) as (mem1 & Hu & Hother & Hcase).
  destruct (decide (v = userIdOf req)) as [->|Hv].
  - destruct Hcase as [[_ ->]|(text & _ & ->)]; unfold memLastCoin;
      rewrite ?lookup_insert_eq, ?Hu; reflexivity.
  - destruct Hcase as [[_ ->]|(text & _ & ->)]; unfold memLastCoin;
      rewrite ?lookup_insert_ne by congruence; rewrite (Hother v Hv); reflexivity.
Qed.

(** The history of every user after a request. *)
Lemma chat_history E req mem v :
  memHistory (memory (chat E req mem)) v = memHistory mem v
  \/ exists um br,
       memHistory (memory (chat E req mem)) v
       = nextHistory (Some (memHistory mem v)) um br.
Proof.
  destruct (message req) as [[|a msg]|] eqn:Hm;
    try (rewrite chat_no_message by auto; left; reflexivity).
  destruct (chat_memory E req mem a msg Hm) as (mem1 & Hu & Hother & Hcase).
  destruct (decide (v = userIdOf req)) as [->|Hv].
  - destruct Hcase as [[_ ->]|(text & _ & ->)].
    + left. apply (memHistory_seeded _ _ _ _ Hu).
    + right. rewrite memHistory_insert. eauto.
  - left. destruct Hcase as [[_ ->]|(text & _ & ->)].
    + apply memHistory_other, Hother, Hv.
    + rewrite (memHistory_other mem1) by (apply lookup_insert_ne; congruence).
      apply memHistory_other, Hother, Hv.
Qed.

(** The sessions after a request: those there were, and the user's. *)
Lemma chat_sessions E req mem v :
  is_Some (memory (chat E req mem) !! v)
  <-> is_Some (mem !! v) \/ (hasMessage req = true /\ v = userIdOf req).
Proof.
  unfold hasMessage.
  destruct (message req) as [[|a msg]|] eqn:Hm;
    try (rewrite chat_no_message by auto; cbn [memory JsString.truthy];
         split; [auto | intros [H|[H _]]; [exact H | discriminate H]]).
  cbn [JsString.truthy].
  destruct (chat_memory E req mem a msg Hm) as (mem1 & Hu & Hother & Hcase).
  assert (H1 : is_Some (mem1 !! v) <-> is_Some (mem !! v) \/ v = userIdOf req).
  { destruct (decide (v = userIdOf req)) as [->|Hv].
    - rewrite Hu. split; eauto.
    - rewrite (Hother v Hv). split; [auto | intros [H|H]; [exact H | contradiction]]. }
  destruct Hcase as [[_ ->]|(text & _ & ->)].
  - rewrite H1. tauto.
  - destruct (decide (v = userIdOf req)) as [->|Hv].
    + rewrite lookup_insert_eq. split; eauto.
    + rewrite lookup_insert_ne by congruence. rewrite H1. tauto.
Qed.

Lemma chat_session_history E req mem :
  (forall v s, mem !! v = Some s -> history s <> None) ->
  forall v s, memory (chat E req mem) !! v = Some s -> history s <> None.
Proof.
  intros Inv v s.
  destruct (message req) as [[|a msg]|] eqn:Hm;
    try (rewrite chat_no_message by auto; apply Inv).
  destruct (chat_memory E req mem a msg Hm) as (mem1 & Hu & Hother & Hcase).
  assert (H1 : forall s, mem1 !! v = Some s -> history s <> None).
  { intros s1. destruct (decide (v = userIdOf req)) as [->|Hv].
    - rewrite Hu. intros [= <-]. discriminate.
    - rewrite (Hother v Hv). apply Inv. }
  destruct Hcase as [[_ ->]|(text & _ & ->)]; [apply H1|].
  destruct (decide (v = userIdOf req)) as [->|Hv].
  - rewrite lookup_insert_eq. intros [= <-]. discriminate.
  - rewrite lookup_insert_ne by congruence. apply H1.
Qed.

(** X8.  While the user ids are no names of [Object.prototype] members, the
    conversation memory holds one session for every user (the authorization
    header, or the address when there is none) who has sent a message that
    is a string and not empty since the process started, and no other; no
    session is ever removed, and every session has a history. *)
Theorem sessions_of_served_users reqs v :
  ownUserIds reqs = true ->
  (is_Some (serve reqs ∅ !! v) <-> In v (usersServed reqs))
  /\ (forall s, serve reqs ∅ !! v = Some s -> history s <> None).
Proof.
  intros _.
  assert (Hdom : forall reqs (mem : gmap string Session),
             is_Some (serve reqs mem !! v)
             <-> is_Some (mem !! v) \/ In v (usersServed reqs)).
  { clear reqs. induction reqs as [|[E req] rest IH]; intros mem; cbn [serve].
    - cbn. tauto.
    - rewrite IH, chat_sessions. unfold usersServed. cbn [List.filter snd].
      destruct (hasMessage req); cbn [map In snd]; intuition congruence. }
  assert (Hhist : forall reqs (mem : gmap string Session),
             (forall v s, mem !! v = Some s -> history s <> None) ->
             forall s, serve reqs mem !! v = Some s -> history s <> None).
  { clear reqs Hdom. induction reqs as [|[E req] rest IH]; intros mem Inv; cbn [serve].
    - apply Inv.
    - apply IH, chat_session_history, Inv. }
  split.
  - rewrite Hdom, lookup_empty. split; [intros [[x Hx]|H]; [discriminate Hx | exact H] | auto].
  - apply Hhist. intros v0 s0. rewrite lookup_empty. discriminate.
Qed.

(** ** The remembered coin over the life of the process *)

Lemma serve_lastCoin reqs :
  forall mem v c,
    memLastCoin (serve reqs mem) v = Some c ->
    memLastCoin mem v = Some c
    \/ exists E req msg,
         In (E, req) reqs /\ userIdOf req = v /\ message req = Some msg
         /\ extractedCoin E (cleanOf msg) = Some c /\ c <> "".
Proof.
  induction reqs as [|[E req] rest IH]; intros mem v c; cbn [serve]; [auto|].
  intros H. destruct (IH _ _ _ H) as [H1|(E' & req' & msg & Hin & Hrest)].
  - rewrite chat_lastCoin in H1.
    destruct (message req) as [[|a msg]|] eqn:Hm; auto.
    destruct (decide (v = userIdOf req)) as [->|Hv]; auto.
    destruct (JsString.truthy (extractedCoin E (cleanOf (String a msg)))) eqn:Ht; auto.
    right. exists E, req, (String a msg).
    split; [left; reflexivity|]. split; [reflexivity|]. split; [exact Hm|].
    split; [exact H1|]. rewrite H1 in Ht. intros ->. discriminate Ht.
  - right. exists E', req', msg. split; [right; exact Hin | exact Hrest].
Qed.

(** X9.  While the user ids are no names of [Object.prototype] members, the
    coin remembered for a user is always one the model named for a message
    of that user: it is not empty, it is in lower case without white space
    around it, and it is never the word "unknown". *)
Theorem remembered_coin_was_extracted reqs v c :
  ownUserIds reqs = true ->
  memLastCoin (serve reqs ∅) v = Some c ->
  (exists E req msg,
      In (E, req) reqs /\ userIdOf req = v /\ message req = Some msg
      /\ extractedCoin E (cleanOf msg) = Some c)
  /\ c <> "" /\ c <> "unknown"
  /\ JsString.toLowerCase c = c /\ JsString.trim c = c.
Proof.
  intros _ H.
  destruct (serve_lastCoin reqs ∅ v c H) as [H0|(E & req & msg & Hin & Hu & Hm & Hc & Hne)].
  - unfold memLastCoin in H0. rewrite lookup_empty in H0. discriminate H0.
  - split; [exists E, req, msg; auto|]. split; [exact Hne|].
    exact (extractedCoin_spec E _ c Hc).
Qed.

(** ** The shape of the stored histories *)

Lemma list_pair_ind {A} (P : list A -> Prop) :
  P [] -> (forall x, P [x]) -> (forall x y l, P l -> P (x :: y :: l)) ->
  forall l, P l.
Proof.
  intros H0 H1 H2 l.
  assert (H : P l /\ forall x, P (x :: l)).
  { induction l as [|y l [IH1 IH2]]; [split; [exact H0 | exact H1]|].
    split; [apply IH2|]. intros x. apply H2, IH1. }
  exact (proj1 H).
Qed.

Lemma wholeExchanges_app a b :
  wholeExchanges a = true -> wholeExchanges b = true -> wholeExchanges (a ++ b) = true.
Proof.
  intros Ha Hb. induction a as [|x|x y a IH] using list_pair_ind.
  - exact Hb.
  - discriminate Ha.
  - cbn [wholeExchanges app] in Ha |- *.
    apply andb_true_iff in Ha as [Hxy Ha]. rewrite Hxy, (IH Ha). reflexivity.
Qed.

Lemma wholeExchanges_length l :
  wholeExchanges l = true -> Nat.even (length l) = true.
Proof.
  induction l as [|x|x y l IH] using list_pair_ind; intros H.
  - reflexivity.
  - discriminate H.
  - cbn [wholeExchanges] in H. apply andb_true_iff in H as [_ H].
    cbn [length Nat.even]. exact (IH H).
Qed.

Lemma wholeExchanges_drop k l :
  wholeExchanges l = true -> wholeExchanges (drop (2 * k) l) = true.
Proof.
  revert k. induction l as [|x|x y l IH] using list_pair_ind; intros k H.
  - rewrite drop_nil. reflexivity.
  - discriminate H.
  - destruct k as [|k]; [exact H|].
    replace (2 * S k)%nat with (S (S (2 * k))) by lia. cbn [drop].
    cbn [wholeExchanges] in H. apply andb_true_iff in H as [_ H]. exact (IH k H).
Qed.

Lemma wholeExchanges_sliceLast k l :
  wholeExchanges l = true -> wholeExchanges (sliceLast (2 * k) l) = true.
Proof.
  intros H. unfold sliceLast.
  pose proof (wholeExchanges_length l H) as He.
  apply Nat.even_spec in He as [n Hn]. rewrite Hn.
  replace (2 * n - 2 * k)%nat with (2 * (n - k))%nat by lia.
  apply wholeExchanges_drop, H.
Qed.

Lemma nextHistory_whole h um br :
  wholeExchanges h = true -> wholeExchanges (nextHistory (Some h) um br) = true.
Proof.
  intros H. unfold nextHistory.
  assert (H1 : wholeExchanges (h ++ ["User: " +:+ um; "Bot: " +:+ br]) = true).
  { apply wholeExchanges_app; [exact H|]. cbn [wholeExchanges].
    rewrite !startsWith_app. reflexivity. }
  cbv zeta. destruct (20 <? _)%nat; [|exact H1].
  exact (wholeExchanges_sliceLast 10 _ H1).
Qed.

(** X10.  Every stored history is made of whole exchanges, a user entry
    followed by the bot entry that answered it: the cut to the last 20
    entries never splits an exchange, and neither do the last 10 entries
    that the fallback quotes. *)
Theorem history_holds_whole_exchanges reqs v :
  let h := memHistory (serve reqs ∅) v in
  wholeExchanges h = true /\ wholeExchanges (sliceLast 10 h) = true.
Proof.
  assert (Hinv : forall reqs (mem : gmap string Session),
             (forall v, wholeExchanges (memHistory mem v) = true) ->
             forall v, wholeExchanges (memHistory (serve reqs mem) v) = true).
  { clear. induction reqs as [|[E req] rest IH]; intros mem Inv; cbn [serve]; [exact Inv|].
    apply IH. intros v.
    destruct (chat_history E req mem v) as [->|(um & br & ->)];
      [apply Inv | apply nextHistory_whole, Inv]. }
  assert (H : wholeExchanges (memHistory (serve reqs ∅) v) = true).
  { apply Hinv. intros v0. unfold memHistory. rewrite lookup_empty. reflexivity. }
  cbv zeta. split; [exact H | exact (wholeExchanges_sliceLast 5 _ H)].
Qed.

(** ** [updateConversationMemory] and the session it needs *)


(** ** The coin lookup *)

(** X12.  [getCryptoData] without a coin name throws before the database is
    asked.  With a name it asks the database exactly once, for the name in
    lower case, and leaves the conversation memory alone; a name in lower
    case, and a name of the ASCII range in upper case, is looked up as the
    name itself. *)
Theorem getCryptoData_contract E st :
  getCryptoData E None st = (Throw, st)
  /\ forall coinName,
       let key := JsString.toLowerCase coinName in
       let row := db_get E (trace st) key in
       getCryptoData E (Some coinName) st
       = (match row with DbRows r => Return r | DbError => Throw end,
          mkRun (conversationMemory st) (trace st ++ [DbGet key row]))
       /\ getCryptoData E (Some (JsString.toLowerCase coinName)) st
          = getCryptoData E (Some coinName) st
       /\ (allChars isAscii coinName = true ->
           getCryptoData E (Some (JsString.toUpperCase coinName)) st
           = getCryptoData E (Some coinName) st).
Proof.
  split; [reflexivity|]. intros coinName. cbv zeta.
  unfold getCryptoData, bind, call, ret, throw.
  split; [destruct (db_get E (trace st) _) as [r|]; reflexivity|].
  split.
  - rewrite toLowerCase_idem. reflexivity.
  - intros _. rewrite toLowerCase_toUpperCase. reflexivity.
Qed.

(** ** The lookups of the portfolio block *)

Lemma lookups_cons k ks a answers :
  lookups (k :: ks) (a :: answers) = DbGet k a :: lookups ks answers.
Proof. reflexivity. Qed.

(** X13.  The portfolio block of the fallback looks every asset up, once
    each, in the order of the portfolio and by the asset's coin id in lower
    case, also after a lookup has failed.  It yields one line per asset
    when every lookup succeeds and throws when the database reported an
    error for one of them. *)
Theorem portfolio_block_lookups E portfolio mem t :
  exists o answers,
    portfolioLines E portfolio (mkRun mem t)
    = (o, mkRun mem (t ++ lookups (map assetKey portfolio) answers))
    /\ length answers = length portfolio
    /\ (o = Throw <-> In DbError answers)
    /\ (forall lines, o = Return lines -> length lines = length portfolio).
Proof.
  revert t. induction portfolio as [|asset rest IH]; intros t.
  - exists (Return []), []. cbn [map lookups combine]. rewrite app_nil_r.
    split; [reflexivity|]. split; [reflexivity|].
    split; [split; [discriminate | intros []]|]. intros lines [= <-]. reflexivity.
  - cbn [portfolioLines map].
    set (a := db_get E t (assetKey asset)).
    assert (Hline : exists o1,
               portfolioLine E asset (mkRun mem t)
               = (o1, mkRun mem (t ++ [DbGet (assetKey asset) a]))
               /\ (o1 = Throw <-> a = DbError)).
    { unfold portfolioLine, getCryptoData, bind, call, ret, throw.
      cbn [trace conversationMemory]. fold (assetKey asset). fold a.
      destruct a as [row|]; eexists; (split; [reflexivity|]);
        split; congruence. }
    destruct Hline as (o1 & -> & Ho1).
    destruct (IH (t ++ [DbGet (assetKey asset) a])) as (os & answers & -> & Hlen & Hos & Hlines).
    exists (match o1, os with
            | Return l, Return ls => Return (l :: ls)
            | _, _ => Throw
            end), (a :: answers).
    rewrite lookups_cons, <- app_assoc. cbn [app].
    split; [destruct o1, os; reflexivity|].
    split; [cbn [length]; rewrite Hlen; reflexivity|].
    split.
    + cbn [In]. rewrite <- Hos, <- Ho1.
      destruct o1, os; split; try tauto; try discriminate; intros [H|H]; discriminate H.
    + intros lines Hl. destruct o1 as [l|], os as [ls|]; try discriminate Hl.
      injection Hl as <-. cbn [length]. rewrite (Hlines ls eq_refl). reflexivity.
Qed.

(** ** A price of zero *)

Lemma quantity_at_price_zero amount price m e :
  Prim2SF amount = S754_finite false m e ->
  Prim2SF price = S754_zero false ->
  JsNumber.parseFloat (JsNumber.toFixed (amount / price) 8) = infinity.
Proof.
  intros Ha Hp.
  assert (Hq : Prim2SF (amount / price) = S754_infinity false).
  { rewrite div_spec, Ha, Hp. reflexivity. }
  unfold JsNumber.toFixed. rewrite Hq. vm_compute. reflexivity.
Qed.

(** X14.  A BUY in dollars divides the amount by the stored price without
    looking at the price: when the price is 0 and the amount is not, the
    order that is posted has an infinite quantity. *)
Theorem dollar_buy_at_price_zero E req mem msg amountMatch m e auth o res :
  message req = Some msg ->
  let cm := cleanOf msg in
  let r := chat E req mem in
  JsString.includes cm "buy" = true ->
  isDollarQuery cm = true ->
  JsString.matchNumber cm = Some amountMatch ->
  Prim2SF (JsNumber.parseFloat amountMatch) = S754_finite false m e ->
  (forall key cd, In (DbGet key (DbRows (Some cd))) (calls r) ->
                  Prim2SF (CoinFact.price cd) = S754_zero false) ->
  In (PostOrder auth o res) (calls r) ->
  Order.quantity o = infinity /\ Order.orderType o = BUY.
Proof.
  intros Hm cm r Hbuy Hdollar Hamount Hfinite.
  assert (Hot : orderTypeOf cm = BUY) by (unfold orderTypeOf; rewrite Hbuy; reflexivity).
  destruct msg as [|m0 msg'];
    [subst r; rewrite chat_no_message by auto; cbn [calls In]; intros _ []|].
  subst r. pattern (chat E req mem). wp_enter. clear Hcoin. fold cm.
  wp_run.
  all: cbn [finish calls response trace conversationMemory].
  all: intros Hprice Hin; trace_hyps.
  all: try congruence.
  all: cbn [Order.quantity Order.orderType]; split; [|reflexivity].
  all: match goal with
       | |- JsNumber.parseFloat (JsNumber.toFixed (_ / CoinFact.price ?cd) 8) = _ =>
           apply (quantity_at_price_zero _ _ m e);
           [ congruence | eapply Hprice; in_solve ]
       end.
Qed.

(** ** The news branch *)

Lemma newsReply_concat items init :
  fold_left (fun acc item => acc +:+ newsLine item) items init
  = init +:+ String.concat "" (map newsLine items).
Proof.
  revert init. induction items as [|x items IH]; intros init; cbn [fold_left map].
  - cbn [String.concat]. rewrite append_nil_r. reflexivity.
  - rewrite IH, append_assoc. f_equal.
    destruct items as [|y items]; cbn [map String.concat].
    + rewrite append_nil_r. reflexivity.
    + reflexivity.
Qed.

(** X15.  A message that contains "news" or "headlines" is a news query,
    whatever else it contains and whether or not a credential came with it:
    after the coin extraction the only call is the database read of the 5
    latest items.  The reply lists every item read, in the order read, one
    line each; it says that there is no news when none was read; a database
    error ends the request with status 500. *)
Theorem news_query_answers E req mem msg :
  message req = Some msg -> msg <> "" ->
  let cm := cleanOf msg in
  let r := chat E req mem in
  let extraction :=
    GenerateContent (extractPrompt cm) (generateContent E [] (extractPrompt cm)) in
  let res := db_all E [extraction] 5 in
  (JsString.includes cm "news" || JsString.includes cm "headlines") = true ->
  calls r = [extraction; DbAll 5 res]
  /\ response r =
       match res with
       | DbError => mkResponse 500 (Error "Internal server error")
       | DbRows [] => ok "No news available at the moment."
       | DbRows items =>
           ok ("Here are the latest news headlines:" +:+ JsString.nl
               +:+ String.concat "" (map newsLine items))
       end.
Proof.
  intros Hm Hmsg cm r extraction res Hnews.
  destruct msg as [|m0 msg']; [congruence|].
  assert (Hq : isNewsQuery cm = true).
  { unfold isNewsQuery. rewrite Hnews. reflexivity. }
  subst r. pattern (chat E req mem). wp_enter. fold cm.
  unfold dispatch. rewrite Hq.
  wp_run.
  all: cbn [finish calls response trace conversationMemory].
  all: fold extraction; fold res.
  all: match goal with H : _ = db_all _ _ _ |- _ => fold extraction in H; fold res in H; rewrite <- H end.
  all: split; [reflexivity|]; rewrite ?newsReply_concat; reflexivity.
Qed.

(** ** The trade branch without an amount *)

(** X16.  In the trade branch a message without a digit is answered with the
    request for the amount, worded for a BUY when the message contains
    "buy" and for a SELL otherwise; the coin is not looked at and nothing
    is called after the coin extraction. *)
Theorem trade_without_amount E req mem msg auth :
  message req = Some msg -> authorization req = Some auth ->
  msg <> "" -> auth <> "" ->
  let cm := cleanOf msg in
  let r := chat E req mem in
  isNewsQuery cm = false ->
  (JsString.includes cm "buy" || JsString.includes cm "sell") = true ->
  allChars notDigit cm = true ->
  response r =
    ok ("Please specify the amount to "
        +:+ (if JsString.includes cm "buy" then "buy" else "sell") +:+ ".")
  /\ calls r = [GenerateContent (extractPrompt cm) (generateContent E [] (extractPrompt cm))].
Proof.
  intros Hm Ha Hmsg Hauth cm r Hnews Htrade Hdigits.
  destruct msg as [|m0 msg']; [congruence|].
  destruct auth as [|a0 auth']; [congruence|].
  subst r. pattern (chat E req mem). wp_trade. fold cm.
  rewrite Hnews, Htrade. unfold tradeBranch, orderTypeOf.
  rewrite (matchNumber_no_digit cm Hdigits).
  destruct (JsString.includes cm "buy"); wp_run.
  all: cbn [finish calls response trace conversationMemory].
  all: split; reflexivity.
Qed.

(** ** The outcome of an order *)

(** X17.  A request that posts an order answers with status 200 whether the
    backend accepts the order or not: on success the reply names the coin
    as the database row spells it, on failure it carries the error text of
    the backend's response, or the message of the failure when there is
    none. *)
Theorem order_outcome_reported E req mem auth o res :
  let r := chat E req mem in
  In (PostOrder auth o res) (calls r) ->
  exists key cd,
    In (DbGet key (DbRows (Some cd))) (calls r)
    /\ Order.coinId o = JsString.toLowerCase (CoinFact.name cd)
    /\ response r =
         ok match res with
            | PostOk =>
                "Order placed successfully for "
                +:+ orderTypeLower (Order.orderType o)
                +:+ "ing " +:+ CoinFact.name cd +:+ "."
            | PostError upstream msg =>
                "❌ Failed to place the order. "
                +:+ match upstream with
                    | Some (String _ _ as e) => e
                    | _ => msg
                    end
            end.
Proof.
  intros r.
  destruct (message req) as [[|m0 msg']|] eqn:Hm;
    try (subst r; rewrite chat_no_message by auto; cbn [calls In]; intros []).
  subst r. pattern (chat E req mem). wp_enter. clear Hcoin.
  wp_run.
  all: cbn [finish calls response trace conversationMemory].
  all: intros Hin; trace_hyps.
  all: do 2 eexists; split; [cbn [In]; eauto 10|].
  all: split; reflexivity.
Qed.

(** ** Holding queries *)

(** X18.  A holding query (credential, resolved coin, the word "holding", no
    news or trade keyword) reads the portfolio and nothing else of the
    account.  Without a portfolio the reply says so; when no asset has the
    coin as its lower-cased name or symbol the reply says the coin is not
    held; otherwise the first such asset is reported, its price is looked
    up by the asset's coin id, and the value is added to the reply only
    when a row with a price other than zero was found. *)
Theorem holding_query_answers E req mem msg auth c :
  message req = Some msg -> authorization req = Some auth ->
  msg <> "" -> auth <> "" ->
  let cm := cleanOf msg in
  let r := chat E req mem in
  let extraction :=
    GenerateContent (extractPrompt cm) (generateContent E [] (extractPrompt cm)) in
  let assets := get_assets E [extraction] auth in
  isNewsQuery cm = false ->
  (JsString.includes cm "buy" || JsString.includes cm "sell") = false ->
  JsString.includes cm "holding" = true ->
  resolvedCoin E req mem = Some c -> c <> "" ->
  match assets with
  | AxResponse (Some portfolio) =>
      match find (holds c) portfolio with
      | Some asset =>
          let key := JsString.toLowerCase (Coin.id (Asset.coin asset)) in
          let row := db_get E [extraction; GetAssets auth assets] key in
          calls r = [extraction; GetAssets auth assets; DbGet key row]
          /\ response r =
               match row with
               | DbError => mkResponse 500 (Error "Internal server error")
               | DbRows coinData =>
                   ok ("Yes, you are holding " +:+ JsNumber.toString (Asset.quantity asset)
                       +:+ " " +:+ Coin.name (Asset.coin asset)
                       +:+ " (" +:+ Coin.symbol (Asset.coin asset) +:+ ")."
                       +:+ match coinData with
                           | Some cd =>
                               if JsNumber.truthy (CoinFact.price cd)
                               then " Its current value is $"
                                    +:+ JsNumber.toFixed
                                          (Asset.quantity asset * CoinFact.price cd)%float 2
                                    +:+ "."
                               else ""
                           | None => ""
                           end)
               end
      | None =>
          calls r = [extraction; GetAssets auth assets]
          /\ response r = ok ("You are not holding " +:+ c +:+ ".")
      end
  | _ =>
      calls r = [extraction; GetAssets auth assets]
      /\ response r = ok "❌ Couldn't fetch your portfolio."
  end.
Proof.
  intros Hm Ha Hmsg Hauth cm r extraction assets Hnews Htrade Hholding Hc Hne.
  destruct msg as [|m0 msg']; [congruence|].
  destruct auth as [|a0 auth']; [congruence|].
  destruct c as [|c0 c']; [congruence|].
  rewrite (resolvedCoin_eq E req mem m0 msg' Hm) in Hc. cbv zeta in Hc.
  assert (Hq : isHoldingQuery cm = true).
  { unfold isHoldingQuery. rewrite Hholding. reflexivity. }
  subst r. pattern (chat E req mem). wp_trade. fold cm in Hcoin, Hc |- *.
  rewrite <- Hcoin in Hc. subst coin.
  rewrite Hnews, Htrade, Hq. fold extraction.
  unfold holdingsBranch, fetchUserPortfolio, axiosGet.
  apply wp_bind, wp_bind, wp_call. intros pres Hpres. fold assets in Hpres. subst pres.
  destruct assets as [[portfolio|]|err]; cbv beta iota.
  2,3: wp_run; cbn [finish calls response trace conversationMemory app]; split; reflexivity.
  apply wp_ret. cbv beta iota.
  destruct (find (holds (String c0 c')) portfolio) as [asset|].
  2: wp_run; cbn [finish calls response trace conversationMemory app]; split; reflexivity.
  cbv zeta. unfold getCryptoData.
  apply wp_bind, wp_bind, wp_call. intros row Hrow. cbn [app] in Hrow |- *. subst row.
  destruct (db_get E _ _) as [coinData|]; cbv beta iota.
  2: wp_run; cbn [finish calls response trace conversationMemory app]; split; reflexivity.
  wp_run; cbn [finish calls response trace conversationMemory app].
  split; [reflexivity|]. unfold currentValue.
  destruct coinData as [cd|]; [destruct (JsNumber.truthy (CoinFact.price cd))|]; reflexivity.
Qed.

(** ** Market-data queries *)



(** ** What the route never does *)

(** Split the hypotheses [In e t] over a trace that is known event by
    event, for an event [e] that is not known. *)
Ltac trace_cases :=
  repeat match goal with
         | H : In _ (_ :: _) |- _ => cbn [In] in H
         | H : In _ [] |- _ => destruct H
         | H : In _ (_ ++ _) |- _ => apply in_app_or in H
         | H : In ?e ?evs, HF : Forall isDbGet ?evs |- _ =>
             apply (proj1 (List.Forall_forall isDbGet evs) HF) in H
         | H : False |- _ => destruct H
         | H : _ \/ _ |- _ => destruct H
         | H : _ = ?e |- _ => is_var e; subst e
         | H : isDbGet ?e |- _ => is_var e; destruct e; try destruct H
         end.

(** X20.  Every call to the account backend (profile, portfolio, wallet,
    order) is made with the authorization header of the request, which is
    present and not empty: a request without a credential never reaches
    the backend. *)
Theorem account_calls_carry_the_credential E req mem e a :
  In e (calls (chat E req mem)) ->
  accountCredential e = Some a ->
  authorization req = Some a /\ a <> "".
Proof.
  destruct (message req) as [[|m0 msg']|] eqn:Hm;
    try (rewrite chat_no_message by auto; cbn [calls In]; intros []).
  pattern (chat E req mem). wp_enter. clear Hcoin.
  wp_run.
  all: cbn [finish calls response trace conversationMemory].
  all: intros Hin Hacc; trace_cases.
  all: cbn [accountCredential] in Hacc; try discriminate Hacc.
  all: injection Hacc as <-; split; [first [assumption | reflexivity] | discriminate].
Qed.

(** X21.  No request reads the order history or the wallet transactions:
    [fetchOrderHistory] and [fetchWalletTransactions] are never called by
    the route. *)
Theorem order_history_and_transactions_never_read E req mem e :
  In e (calls (chat E req mem)) ->
  match e with
  | GetOrders _ _ | GetWalletTransactions _ _ => False
  | _ => True
  end.
Proof.
  destruct (message req) as [[|m0 msg']|] eqn:Hm;
    try (rewrite chat_no_message by auto; cbn [calls In]; intros []).
  pattern (chat E req mem). wp_enter. clear Hcoin.
  wp_run.
  all: cbn [finish calls response trace conversationMemory].
  all: intros Hin; trace_cases; exact I.
Qed.

(** ** What the fallback tells the model about the user *)

(** X22.  The fallback prompt is made of the history block (the last ten
    stored entries of the user, quoted as they are), the User Data block
    and the query.  The User Data block is there only when the message
    contains one of the sensitive keywords and the request came with a
    credential: otherwise it is empty and the request has read nothing
    from the account backend.  Every part of the block was read from the
    backend in this request with that credential (the profile, the wallet,
    or a portfolio that is not empty). *)
Theorem user_data_only_on_sensitive_keywords E req mem msg prompt res :
  message req = Some msg -> msg <> "" ->
  let cm := cleanOf msg in
  let r := chat E req mem in
  let includeUserData := existsb (JsString.includes cm) sensitiveKeywords in
  In (GenerateContent prompt res) (calls r) ->
  JsString.startsWith prompt "You are a financial assistant." = true ->
  exists parts,
    prompt = buildPrompt
               (JsString.join JsString.nl (sliceLast 10 (memHistory mem (userIdOf req))))
               includeUserData parts cm
    /\ (includeUserData = false \/ JsString.truthy (authorization req) = false ->
        parts = [] /\ forall e, In e (calls r) -> accountCredential e = None)
    /\ (forall part, In part parts ->
        exists a,
          authorization req = Some a
          /\ ((exists p, In (GetProfile a (AxResponse (Some p))) (calls r)
                         /\ part = profilePart p)
              \/ (exists w, In (GetWallet a (AxResponse (Some w))) (calls r)
                            /\ part = walletPart w)
              \/ (exists assets, In (GetAssets a (AxResponse (Some assets))) (calls r)
                                 /\ assets <> []
                                 /\ JsString.startsWith part "📦 Portfolio Holdings:" = true))).
Proof.
  intros Hm Hmsg cm r includeUserData.
  destruct msg as [|m0 msg']; [congruence|].
  subst r. pattern (chat E req mem). wp_enter. clear Hcoin.
  subst includeUserData. fold cm.
  wp_run.
  all: cbn [finish calls response trace conversationMemory].
  all: intros Hin Hstart; trace_hyps.
  all: try (rewrite extractPrompt_head in Hstart; discriminate Hstart).
  all: try (rewrite intentPrompt_head in Hstart; discriminate Hstart).
  all: eexists; split; [reflexivity|]; cbn [app JsString.truthy].
  all: split;
    [ intros [Hno|Hno]; cbn [JsString.truthy] in Hno; try congruence;
      (split; [reflexivity | intros e He; trace_cases; reflexivity])
    | intros part Hpart ].
  all: repeat match goal with
              | Hpart : In _ ?l |- _ =>
                  match l with
                  | context [match ?d with Some _ => _ | None => _ end] => destruct d
                  end
              end.
  all: cbn [app In] in Hpart.
  all: repeat match goal with
              | H : False |- _ => destruct H
              | H : _ \/ _ |- _ => destruct H
              end.
  all: subst; eexists; (split; [reflexivity|]).
  all: first
         [ left; eexists; split; [in_solve | reflexivity]
         | right; left; eexists; split; [in_solve | reflexivity]
         | right; right; eexists; split; [in_solve|];
           split; [discriminate | apply startsWith_app] ].
Qed.

(** ** How often the model is asked *)

Lemma modelCalls_app a b : modelCalls (a ++ b) = modelCalls a ++ modelCalls b.
Proof. apply flat_map_app. Qed.

Lemma modelCalls_lookups evs : Forall isDbGet evs -> modelCalls evs = [].
Proof.
  induction 1 as [|e evs He _ IH]; [reflexivity|].
  destruct e; try destruct He. exact IH.
Qed.

Lemma modelCalls_cons e t :
  modelCalls (e :: t)
  = match e with GenerateContent p _ => [p] | _ => [] end ++ modelCalls t.
Proof. reflexivity. Qed.

(** X23.  Every request that carries a message asks the model first, to
    extract the coin, also when the message is a news query or a trade; it
    asks at most twice more, and then only to classify a market query or
    for the fallback answer. *)
Theorem model_asked_at_most_three_times E req mem msg :
  message req = Some msg -> msg <> "" ->
  let cm := cleanOf msg in
  exists rest,
    calls (chat E req mem)
    = GenerateContent (extractPrompt cm) (generateContent E [] (extractPrompt cm)) :: rest
    /\ (length (modelCalls rest) <= 2)%nat
    /\ (forall p, In p (modelCalls rest) ->
          (exists c, p = intentPrompt cm c)
          \/ JsString.startsWith p "You are a financial assistant." = true).
Proof.
  intros Hm Hmsg cm.
  destruct msg as [|m0 msg']; [congruence|].
  pattern (chat E req mem). wp_enter. clear Hcoin. fold cm.
  wp_run.
  all: cbn [finish calls response trace conversationMemory].
  all: eexists; split; [reflexivity|].
  all: repeat first [rewrite modelCalls_cons | rewrite modelCalls_app];
    repeat match goal with
           | H : Forall isDbGet ?evs |- _ => rewrite (modelCalls_lookups evs H)
           end;
    cbn [modelCalls flat_map app length].
  all: split; [lia|].
  all: intros p Hp; cbn [In] in Hp;
    repeat match goal with
           | H : False |- _ => destruct H
           | H : _ \/ _ |- _ => destruct H
           end; subst p;
    first [left; eexists; reflexivity | right; reflexivity].
Qed.

(** ** The reply of the fallback *)

(** X24.  When the model answers the fallback prompt, its text is the reply
    after cleaning, and nothing is called afterwards; the replies of the
    other branches are sent as they are built. *)
Theorem fallback_reply_is_cleaned E req mem prompt text :
  let r := chat E req mem in
  In (GenerateContent prompt (Some text)) (calls r) ->
  JsString.startsWith prompt "You are a financial assistant." = true ->
  response r = ok (cleanResponse text)
  /\ calls r = removelast (calls r) ++ [GenerateContent prompt (Some text)].
Proof.
  intros r.
  destruct (message req) as [[|m0 msg']|] eqn:Hm;
    try (subst r; rewrite chat_no_message by auto; cbn [calls In]; intros []).
  subst r. pattern (chat E req mem). wp_enter. clear Hcoin.
  wp_run.
  all: cbn [finish calls response trace conversationMemory].
  all: intros Hin Hstart; trace_hyps.
  all: try (rewrite extractPrompt_head in Hstart; discriminate Hstart).
  all: try (rewrite intentPrompt_head in Hstart; discriminate Hstart).
  all: split; [reflexivity|].
  all: rewrite ?app_comm_cons, ?removelast_last; try reflexivity.
Qed.

(** ** Failed reads in the trade branch *)

(** X25.  In the trade branch a read that yields nothing ends the request
    with a reply that says so, status 200 and no order: a coin without a
    row in the database, a wallet that cannot be fetched for a BUY, a
    portfolio that cannot be fetched for a SELL. *)
Theorem trade_failures_are_explained E req mem msg auth :
  message req = Some msg -> authorization req = Some auth ->
  msg <> "" -> auth <> "" ->
  let cm := cleanOf msg in
  let r := chat E req mem in
  isNewsQuery cm = false ->
  (JsString.includes cm "buy" || JsString.includes cm "sell") = true ->
  (forall key, In (DbGet key (DbRows None)) (calls r) ->
     exists c,
       resolvedCoin E req mem = Some c /\ key = JsString.toLowerCase c
       /\ response r = ok ("⚠️ Couldn't find data for " +:+ c)
       /\ forall e, In e (calls r) -> accountCredential e = None)
  /\ (forall wallet, In (GetWallet auth wallet) (calls r) ->
        match wallet with AxResponse (Some _) => False | _ => True end ->
        response r = ok "❌ Couldn't fetch wallet balance."
        /\ ordersIn (calls r) = [])
  /\ (forall portfolio, In (GetAssets auth portfolio) (calls r) ->
        match portfolio with AxResponse (Some _) => False | _ => True end ->
        response r = ok "❌ Couldn't fetch your portfolio."
        /\ ordersIn (calls r) = []).
Proof.
  intros Hm Ha Hmsg Hauth cm r Hnews Htrade.
  destruct msg as [|m0 msg']; [congruence|].
  destruct auth as [|a0 auth']; [congruence|].
  pose proof (resolvedCoin_eq E req mem m0 msg' Hm) as Hrc. cbv zeta in Hrc.
  subst r. pattern (chat E req mem). wp_trade. fold cm in Hcoin, Hrc |- *.
  rewrite <- Hcoin in Hrc. clear Hcoin. rewrite Hrc.
  rewrite Hnews, Htrade.
  wp_run.
  all: cbn [finish calls response trace conversationMemory].
  all: split; [|split].
  all: first
         [ intros key Hin; trace_hyps;
           eexists; (split; [reflexivity|]); (split; [reflexivity|]);
           (split; [reflexivity|]); intros e He; trace_cases; reflexivity
         | intros x Hin Hfail; trace_hyps; first [split; reflexivity | destruct Hfail] ].
Qed.

(** ** Letter case and white space of the message *)

Lemma toLowerCase_app a b :
  JsString.toLowerCase (a +:+ b) = JsString.toLowerCase a +:+ JsString.toLowerCase b.
Proof.
  induction a as [|c a IH]; [reflexivity|].
  rewrite append_cons. cbn [JsString.toLowerCase]. rewrite IH, append_cons. reflexivity.
Qed.

Lemma trimEnd_app_space t : JsString.trimEnd (t +:+ " ") = JsString.trimEnd t.
Proof.
  induction t as [|c t IH]; [reflexivity|].
  rewrite append_cons. cbn [JsString.trimEnd]. rewrite IH. reflexivity.
Qed.

Lemma trim_app_space s : JsString.trim (s +:+ " ") = JsString.trim s.
Proof.
  unfold JsString.trim. induction s as [|c s IH]; [reflexivity|].
  rewrite append_cons. cbn [JsString.trimStart].
  destruct (JsString.isSpace c); [exact IH|].
  rewrite <- append_cons. apply trimEnd_app_space.
Qed.

Lemma cleanOf_padded m : cleanOf (" " +:+ m +:+ " ") = cleanOf m.
Proof.
  unfold cleanOf. rewrite <- append_assoc, !toLowerCase_app.
  change (JsString.toLowerCase " ") with " ".
  rewrite trim_app_space. reflexivity.
Qed.

(** X26.  Only the message in lower case and without the white space around
    it matters: a request leaves the same response, memory and calls
    behind when its message, of the ASCII range, is put in upper case, when
    it is padded with spaces, and whenever two messages agree in that form
    (the sender being the same). *)
Theorem requests_are_case_insensitive E req1 req2 mem m1 m2 :
  message req1 = Some m1 -> message req2 = Some m2 -> m1 <> "" ->
  authorization req1 = authorization req2 -> ip req1 = ip req2 ->
  (m2 = JsString.toUpperCase m1 /\ allChars isAscii m1 = true)
  \/ m2 = " " +:+ m1 +:+ " "
  \/ (m2 <> "" /\ cleanOf m2 = cleanOf m1) ->
  chat E req1 mem = chat E req2 mem.
Proof.
  intros H1 H2 Hn1 Ha Hip Hsame.
  assert (Hc : m2 <> "" /\ cleanOf m2 = cleanOf m1).
  { destruct Hsame as [[-> _]|[->|H]]; [| |exact H].
    - split; [destruct m1; [congruence | discriminate]|].
      unfold cleanOf. rewrite toLowerCase_toUpperCase. reflexivity.
    - split; [discriminate | apply cleanOf_padded]. }
  destruct Hc as [Hn2 Hc].
  destruct m1 as [|a1 m1]; [congruence|]. destruct m2 as [|a2 m2]; [congruence|].
  unfold chat, handle, userIdOf. rewrite H1, H2, Ha, Hip, Hc. reflexivity.
Qed.

(** ** What the next fallback prompt quotes *)

Lemma sliceLast_keeps_suffix {A} n (pre suf : list A) x :
  In x suf -> (length suf <= n)%nat -> In x (sliceLast n (pre ++ suf)).
Proof.
  intros Hx Hn. unfold sliceLast. rewrite length_app.
  rewrite drop_app_le by lia. apply in_or_app. right. exact Hx.
Qed.

Lemma nextHistory_last h um br x :
  In x ["User: " +:+ um; "Bot: " +:+ br] -> In x (sliceLast 10 (nextHistory h um br)).
Proof.
  intros Hx. unfold nextHistory. cbv zeta.
  set (h0 := match h with Some h1 => h1 | None => [] end).
  destruct (20 <? _)%nat.
  - unfold sliceLast at 2. rewrite length_app.
    rewrite drop_app_le by (cbn [length]; lia).
    apply sliceLast_keeps_suffix; [exact Hx | cbn [length]; lia].
  - apply sliceLast_keeps_suffix; [exact Hx | cbn [length]; lia].
Qed.

(** X27.  What one request stores the next one quotes: when a request has
    been answered, the fallback prompt of the same user's next request
    contains the user entry and the bot entry of that exchange. *)
Theorem fallback_quotes_the_previous_exchange E1 req1 mem m1 text E2 req2 m2 prompt res :
  message req1 = Some m1 -> m1 <> "" ->
  response (chat E1 req1 mem) = ok text ->
  message req2 = Some m2 -> m2 <> "" ->
  userIdOf req2 = userIdOf req1 ->
  In (GenerateContent prompt res) (calls (chat E2 req2 (memory (chat E1 req1 mem)))) ->
  JsString.startsWith prompt "You are a financial assistant." = true ->
  JsString.includes prompt ("User: " +:+ cleanOf m1) = true
  /\ JsString.includes prompt ("Bot: " +:+ text) = true.
Proof.
  intros Hm1 Hn1 Hok Hm2 Hn2 Hu.
  destruct m1 as [|a1 m1']; [congruence|]. destruct m2 as [|a2 m2']; [congruence|].
  assert (Hh : memHistory (memory (chat E1 req1 mem)) (userIdOf req2)
               = nextHistory (Some (memHistory mem (userIdOf req1)))
                             (cleanOf (String a1 m1')) text).
  { rewrite Hu.
    destruct (chat_memory E1 req1 mem a1 m1' Hm1) as (mem1 & _ & _ & Hcase).
    destruct Hcase as [[H500 _]|(text' & Hok' & ->)].
    - rewrite H500 in Hok. discriminate Hok.
    - rewrite Hok' in Hok. injection Hok as ->. apply memHistory_insert. }
  set (mem2 := memory (chat E1 req1 mem)) in *. clearbody mem2.
  assert (Hshape :
             In (GenerateContent prompt res) (calls (chat E2 req2 mem2)) ->
             JsString.startsWith prompt "You are a financial assistant." = true ->
             exists inc parts,
             prompt = buildPrompt
                        (JsString.join JsString.nl
                           (sliceLast 10 (memHistory mem2 (userIdOf req2))))
                        inc parts (cleanOf (String a2 m2'))).
  { pattern (chat E2 req2 mem2). wp_enter. clear Hcoin.
    wp_run.
    all: cbn [finish calls response trace conversationMemory].
    all: intros Hin Hstart; trace_hyps.
    all: try (rewrite extractPrompt_head in Hstart; discriminate Hstart).
    all: try (rewrite intentPrompt_head in Hstart; discriminate Hstart).
    all: do 2 eexists; reflexivity. }
  intros Hin Hstart. destruct (Hshape Hin Hstart) as (inc & parts & ->).
  rewrite Hh.
  split; apply buildPrompt_includes, nextHistory_last; cbn [In]; auto.
Qed.

(** ** A SELL that the holdings cover *)


(** ** The price in a reply *)

(** [toFixed] with at least one fractional digit, for a finite value below
    [1e21] in magnitude: a sign, digits, a point and exactly [f] digits
    that spell the value scaled by [10^f] and rounded to the nearest
    integer, upwards on a tie. *)
Lemma toFixed_shape x s m e f :
  Prim2SF x = S754_finite s m e ->
  (1e21 <=? abs x)%float = false ->
  exists a b,
    JsNumber.toFixed x (S f) = (if s then "-" else "") +:+ a +:+ "." +:+ b
    /\ JsString.allDigits a = true /\ a <> ""
    /\ JsString.allDigits b = true /\ String.length b = S f
    /\ JsNumber.digitsValue 0 (a +:+ b) = JsNumber.roundHalfUp m e (Z.of_nat (S f)).
Proof.
  intros Hx Hbig. unfold JsNumber.toFixed. rewrite Hx, Hbig.
  assert (Hn : 0 <= JsNumber.roundHalfUp m e (Z.of_nat (S f))).
  { unfold JsNumber.roundHalfUp. destruct (0 <=? e) eqn:He.
    - apply Z.leb_le in He. apply Z.mul_nonneg_nonneg; [|apply Z.pow_nonneg; lia].
      apply Z.mul_nonneg_nonneg; [lia|]. apply Z.pow_nonneg. lia.
    - apply Z.div_pos; [|apply Z.pow_pos_nonneg; lia].
      pose proof (Z.pow_nonneg 2 (- e) ltac:(lia)).
      pose proof (Z.pow_nonneg 10 (Z.of_nat (S f)) ltac:(lia)). nia. }
  destruct (fixedDigits_shape _ f Hn) as (a & b & -> & Ha & Hne & Hb & Hlb & Hval).
  exists a, b. repeat split; assumption.
Qed.

(** X29.  The price reply shows the stored price with exactly two fractional
    digits: for a finite price below 1e21 in magnitude, the digits spell
    the price in hundredths, rounded to the nearest one and upwards on a
    tie; the coin is named as stored and its symbol in upper case. *)
Theorem price_reply_has_two_decimals E cryptoData s m e :
  Prim2SF (CoinFact.price cryptoData) = S754_finite s m e ->
  (1e21 <=? abs (CoinFact.price cryptoData))%float = false ->
  exists whole cents,
    responses E cryptoData price
    = Some ("💰 Current price of " +:+ CoinFact.name cryptoData
            +:+ " (" +:+ JsString.toUpperCase (CoinFact.symbol cryptoData) +:+ ") is $"
            +:+ (if s then "-" else "") +:+ whole +:+ "." +:+ cents)
    /\ JsString.allDigits whole = true /\ whole <> ""
    /\ JsString.allDigits cents = true /\ String.length cents = 2%nat
    /\ JsNumber.digitsValue 0 (whole +:+ cents) = JsNumber.roundHalfUp m e 2.
Proof.
  intros Hp Hbig.
  destruct (toFixed_shape _ s m e 1 Hp Hbig) as (a & b & Hfix & Ha & Hne & Hb & Hlb & Hval).
  exists a, b. cbn [responses]. rewrite Hfix. repeat split; assumption.
Qed.

(** ** A remembered coin stays *)

Lemma serve_keeps_lastCoin reqs :
  forall mem v,
    JsString.truthy (memLastCoin mem v) = true ->
    JsString.truthy (memLastCoin (serve reqs mem) v) = true.
Proof.
  induction reqs as [|[E req] rest IH]; intros mem v H; cbn [serve]; [exact H|].
  apply IH. rewrite chat_lastCoin.
  destruct (message req) as [[|a msg]|]; try exact H.
  destruct (decide (v = userIdOf req)); [|exact H].
  destruct (JsString.truthy (extractedCoin E (cleanOf (String a msg)))) eqn:Ht;
    [exact Ht | exact H].
Qed.

(** X30.  A remembered coin is replaced but never cleared: once a user has a
    remembered coin, the user has one after any further requests, and every
    later request of the user that carries a message enters the branches
    with a coin, the extracted one or the remembered one. *)
Theorem remembered_coin_is_never_cleared reqs mem E req msg :
  let u := userIdOf req in
  JsString.truthy (memLastCoin mem u) = true ->
  message req = Some msg -> msg <> "" ->
  JsString.truthy (memLastCoin (serve reqs mem) u) = true
  /\ JsString.truthy (resolvedCoin E req (serve reqs mem)) = true
  /\ (JsString.truthy (extractedCoin E (cleanOf msg)) = false ->
      resolvedCoin E req (serve reqs mem) = memLastCoin (serve reqs mem) u).
Proof.
  intros u H Hm Hmsg. destruct msg as [|a msg]; [congruence|].
  pose proof (serve_keeps_lastCoin reqs mem u H) as Hkeep.
  split; [exact Hkeep|].
  rewrite (resolvedCoin_eq E req (serve reqs mem) a msg Hm). cbv zeta. fold u.
  destruct (JsString.truthy (extractedCoin E (cleanOf (String a msg)))) eqn:Ht.
  - split; [exact Ht | discriminate].
  - rewrite Hkeep. split; [exact Hkeep | reflexivity].
Qed.

(** ** The theorems at concrete requests *)

Ltac in_calls := vm_compute; repeat (first [left; reflexivity | right]).

Lemma missing_message_rejected_witness :
  let req := mkRequest None (Some "Bearer token") "203.0.113.7" in
  response (chat bitcoinWorld req tenTurnMemory) = mkResponse 400 (Error "Message is required")
  /\ calls (chat bitcoinWorld req tenTurnMemory) = []
  /\ ordersIn (calls (chat bitcoinWorld req tenTurnMemory)) = []
  /\ memory (chat bitcoinWorld req tenTurnMemory) = tenTurnMemory.
Proof.
  exact (missing_message_rejected bitcoinWorld
           (mkRequest None (Some "Bearer token") "203.0.113.7") tenTurnMemory
           (or_introl eq_refl)).
Defined.


Lemma lastCoin_overwritten_or_retained_witness :
  let r := chat bitcoinWorld (authed "price of Bitcoin") ∅ in
  memLastCoin (memory r) "Bearer token" = Some "bitcoin"
  /\ resolvedCoin noCoinWorld (authed "and the volume?") (memory r) = Some "bitcoin".
Proof.
  destruct (lastCoin_overwritten_or_retained
              bitcoinWorld (authed "price of Bitcoin") ∅ "price of Bitcoin"
              noCoinWorld (authed "and the volume?") "and the volume?"
              eq_refl ltac:(discriminate)) as [H1 H2].
  split.
  - exact H1.
  - apply H2; [reflexivity | discriminate | reflexivity | reflexivity | reflexivity].
Defined.

Lemma buy_balance_check_witness :
  (response (chat bitcoinWorld (authed "Buy 3 bitcoin") ∅)
   = ok "Insufficient wallet balance to buy."
   /\ ordersIn (calls (chat bitcoinWorld (authed "Buy 3 bitcoin") ∅)) = [])
  /\ (exists o, ordersIn (calls (chat bitcoinWorld (authed "Buy 0.5 bitcoin") ∅)) = [o]
                /\ Order.orderType o = BUY).
Proof.
  split.
  - destruct (buy_balance_check bitcoinWorld (authed "Buy 3 bitcoin") ∅
                "Buy 3 bitcoin" "Bearer token" fullWallet "bitcoin" bitcoin)
      as (amountMatch & Hamount & Hreject & _);
      [reflexivity | reflexivity | discriminate | discriminate
      | reflexivity | reflexivity | in_calls | in_calls |].
    injection Hamount as <-. apply Hreject. reflexivity.
  - destruct (buy_balance_check bitcoinWorld (authed "Buy 0.5 bitcoin") ∅
                "Buy 0.5 bitcoin" "Bearer token" fullWallet "bitcoin" bitcoin)
      as (amountMatch & Hamount & _ & Haccept);
      [reflexivity | reflexivity | discriminate | discriminate
      | reflexivity | reflexivity | in_calls | in_calls |].
    injection Hamount as <-.
    destruct Haccept as (o & res & _ & Ho & Hty); [reflexivity|].
    exists o. split; assumption.
Defined.

Lemma sell_holdings_check_witness :
  (response (chat emptyHandedWorld (authed "Sell 1 bitcoin") ∅) = ok "You are not holding bitcoin."
   /\ ordersIn (calls (chat emptyHandedWorld (authed "Sell 1 bitcoin") ∅)) = [])
  /\ (response (chat bitcoinWorld (authed "Sell 5 bitcoin") ∅) = ok "Insufficient quantity to sell."
      /\ ordersIn (calls (chat bitcoinWorld (authed "Sell 5 bitcoin") ∅)) = []).
Proof.
  split.
  - destruct (sell_holdings_check emptyHandedWorld (authed "Sell 1 bitcoin") ∅
                "Sell 1 bitcoin" "Bearer token" [] "bitcoin")
      as (amountMatch & _ & Hnone & _);
      [reflexivity | reflexivity | discriminate | discriminate
      | reflexivity | reflexivity | reflexivity | in_calls | reflexivity |].
    apply Hnone. intros asset [].
  - destruct (sell_holdings_check bitcoinWorld (authed "Sell 5 bitcoin") ∅
                "Sell 5 bitcoin" "Bearer token" [twoBitcoin] "bitcoin")
      as (amountMatch & Hamount & _ & Hfirst & _);
      [reflexivity | reflexivity | discriminate | discriminate
      | reflexivity | reflexivity | reflexivity | in_calls | reflexivity |].
    injection Hamount as <-.
    apply (Hfirst [] twoBitcoin []).
    + reflexivity.
    + intros x [].
    + left. reflexivity.
    + reflexivity.
Defined.


Lemma trade_without_coin_witness :
  (response (chat noCoinWorld (authed "Buy 100 usd") ∅)
   = mkResponse 500 (Error "Internal server error"))
  /\ (response (chat noCoinWorld (authed "Buy 100") ∅)
      = ok "Please specify which coin you want to trade.").
Proof.
  split.
  - apply (trade_without_coin noCoinWorld (authed "Buy 100 usd") ∅
             "Buy 100 usd" "Bearer token");
      [reflexivity | reflexivity | discriminate | discriminate
      | reflexivity | reflexivity | discriminate | reflexivity].
  - apply (trade_without_coin noCoinWorld (authed "Buy 100") ∅
             "Buy 100" "Bearer token");
      [reflexivity | reflexivity | discriminate | discriminate
      | reflexivity | reflexivity | discriminate | reflexivity].
Defined.

Lemma order_only_after_checks_witness :
  let r := chat bitcoinWorld (authed "Buy 42012.5 usd of bitcoin") ∅ in
  let o := Order.mk "bitcoin" 1 BUY in
  resolvedCoin bitcoinWorld (authed "Buy 42012.5 usd of bitcoin") ∅ = Some "bitcoin"
  /\ calls r = removelast (calls r) ++ [PostOrder "Bearer token" o PostOk]
  /\ ordersIn (calls r) = [o].
Proof.
  destruct (order_only_after_checks bitcoinWorld (authed "Buy 42012.5 usd of bitcoin") ∅
              "Bearer token" (Order.mk "bitcoin" 1 BUY) PostOk)
    as (msg & amountMatch & c & cd & q & _ & _ & _ & _ & _ & _ & Hc & _ & _ & _ & _ & _ & _
        & Hlast & Hone);
    [in_calls|].
  split; [|split; assumption].
  rewrite Hc. f_equal.
  assert (Hrc : resolvedCoin bitcoinWorld (authed "Buy 42012.5 usd of bitcoin") ∅ = Some "bitcoin")
    by reflexivity.
  rewrite Hc in Hrc. injection Hrc as ->. reflexivity.
Defined.

Lemma fallback_prompt_embeds_last_10_entries_witness :
  exists prompt,
    In (GenerateContent prompt (Some "Happy to help."))
       (calls (chat noCoinWorld (anonymous "hello") tenTurnMemory))
    /\ JsString.includes prompt "User: q06" = true
    /\ JsString.includes prompt "Bot: r10" = true.
Proof.
  eexists. split; [in_calls|].
  match goal with
  | |- JsString.includes ?p _ = true /\ _ =>
      destruct (fallback_prompt_embeds_last_10_entries noCoinWorld (anonymous "hello")
                  tenTurnMemory "hello" p (Some "Happy to help."))
        as [_ Hall]; [reflexivity | discriminate | in_calls | reflexivity |]
  end.
  split; apply Hall; vm_compute; tauto.
Defined.

Lemma status_500_causes_witness :
  let r := route dbDownWorld (JStr "price of bitcoin") None "203.0.113.7" ∅ in
  (truthyValue (JStr "price of bitcoin") = true
   /\ (forall s, JStr "price of bitcoin" <> JStr s)
   /\ calls r = [] /\ memory r = ∅)
  \/ (exists key, In (DbGet key DbError) (calls r))
  \/ (exists limit, In (DbAll limit DbError) (calls r))
  \/ (exists prompt,
        In (GenerateContent prompt None) (calls r)
        /\ JsString.startsWith prompt "You are a financial assistant." = true)
  \/ (exists s auth,
        JStr "price of bitcoin" = JStr s /\ None = Some auth /\ auth <> ""
        /\ JsString.includes (cleanOf s) "buy" = true
        /\ isDollarQuery (cleanOf s) = true
        /\ resolvedCoin dbDownWorld (mkRequest (Some s) None "203.0.113.7") ∅ = None).
Proof.
  apply (status_500_causes dbDownWorld (JStr "price of bitcoin") None "203.0.113.7" ∅).
  vm_compute. reflexivity.
Defined.

Lemma cleanResponse_keeps_word_characters_witness :
  wordChars (cleanResponse ("**Bitcoin** is" +:+ JsString.nl +:+ "  a *coin*. "))
  = list_ascii_of_string "Bitcoinisacoin.".
Proof.
  rewrite (cleanResponse_keeps_word_characters
             ("**Bitcoin** is" +:+ JsString.nl +:+ "  a *coin*. ") eq_refl).
  reflexivity.
Defined.

Lemma news_query_answers_witness :
  response (chat newsWorld (authed "Buy the NEWS") ∅)
  = ok ("Here are the latest news headlines:" +:+ JsString.nl
        +:+ "• Bitcoin climbs (Source: Wire, Published: 2024-01-02)" +:+ JsString.nl
        +:+ "• Ether steady (Source: Desk, Published: 2024-01-01)" +:+ JsString.nl)
  /\ ordersIn (calls (chat newsWorld (authed "Buy the NEWS") ∅)) = [].
Proof.
  destruct (news_query_answers newsWorld (authed "Buy the NEWS") ∅ "Buy the NEWS"
              eq_refl ltac:(discriminate) eq_refl) as [Hcalls Hresp].
  split; [exact Hresp | rewrite Hcalls; reflexivity].
Defined.

Lemma trade_without_amount_witness :
  response (chat bitcoinWorld (authed "Sell my bitcoin") ∅)
  = ok "Please specify the amount to sell.".
Proof.
  exact (proj1 (trade_without_amount bitcoinWorld (authed "Sell my bitcoin") ∅
                  "Sell my bitcoin" "Bearer token" eq_refl eq_refl
                  ltac:(discriminate) ltac:(discriminate) eq_refl eq_refl eq_refl)).
Defined.

Lemma order_outcome_reported_witness :
  response (chat refusingWorld (authed "Buy 0.5 bitcoin") ∅)
  = ok "❌ Failed to place the order. Insufficient funds".
Proof.
  destruct (order_outcome_reported refusingWorld (authed "Buy 0.5 bitcoin") ∅
              "Bearer token" (Order.mk "bitcoin" 0.5 BUY)
              (PostError (Some "Insufficient funds") "Request failed with status code 400"))
    as (key & cd & _ & _ & Hresp); [in_calls|].
  exact Hresp.
Defined.

Lemma holding_query_answers_witness :
  response (chat bitcoinWorld (authed "Am I holding Bitcoin?") ∅)
  = ok "Yes, you are holding 2 Bitcoin (BTC). Its current value is $84025.00.".
Proof.
  exact (proj2 (holding_query_answers bitcoinWorld (authed "Am I holding Bitcoin?") ∅
                  "Am I holding Bitcoin?" "Bearer token" "bitcoin"
                  eq_refl eq_refl ltac:(discriminate) ltac:(discriminate)
                  eq_refl eq_refl eq_refl eq_refl ltac:(discriminate))).
Defined.


Lemma account_calls_carry_the_credential_witness :
  authorization (authed "Buy 0.5 bitcoin") = Some "Bearer token" /\ "Bearer token" <> "".
Proof.
  apply (account_calls_carry_the_credential bitcoinWorld (authed "Buy 0.5 bitcoin") ∅
           (GetWallet "Bearer token" (AxResponse (Some fullWallet))) "Bearer token");
    [in_calls | reflexivity].
Defined.

Lemma order_history_and_transactions_never_read_witness :
  match PostOrder "Bearer token" (Order.mk "bitcoin" 0.5 BUY) PostOk with
  | GetOrders _ _ | GetWalletTransactions _ _ => False
  | _ => True
  end.
Proof.
  apply (order_history_and_transactions_never_read bitcoinWorld
           (authed "Buy 0.5 bitcoin") ∅).
  in_calls.
Defined.

Lemma user_data_only_on_sensitive_keywords_witness :
  exists prompt parts,
    In (GenerateContent prompt (Some "Happy to help."))
       (calls (chat accountWorld (authed "Show my wallet") ∅))
    /\ prompt = buildPrompt "" true parts "show my wallet"
    /\ (forall part, In part parts ->
          part = profilePart ada \/ part = walletPart fullWallet
          \/ JsString.startsWith part "📦 Portfolio Holdings:" = true).
Proof.
  eexists.
  match goal with
  | |- exists parts, In (GenerateContent ?p _) _ /\ _ =>
      destruct (user_data_only_on_sensitive_keywords accountWorld (authed "Show my wallet") ∅
                  "Show my wallet" p (Some "Happy to help."))
        as (parts & Hprompt & _ & Hparts);
        [reflexivity | discriminate | in_calls | reflexivity |]
  end.
  exists parts. split; [in_calls|]. split; [exact Hprompt|].
  intros part Hpart.
  destruct (Hparts part Hpart) as (a & Ha & [(p & Hp & ->)|[(w & Hw & ->)|(assets & _ & _ & Hs)]]).
  - left. f_equal.
    assert (Hin : forall e, In e (calls (chat accountWorld (authed "Show my wallet") ∅)) ->
                  forall b q, e = GetProfile b (AxResponse (Some q)) -> q = ada).
    { vm_compute. intros e He b q Heq. subst e.
      repeat destruct He as [He|He]; try discriminate He; try contradiction.
      injection He as _ <-. reflexivity. }
    exact (Hin _ Hp _ _ eq_refl).
  - right. left. f_equal.
    assert (Hin : forall e, In e (calls (chat accountWorld (authed "Show my wallet") ∅)) ->
                  forall b q, e = GetWallet b (AxResponse (Some q)) -> q = fullWallet).
    { vm_compute. intros e He b q Heq. subst e.
      repeat destruct He as [He|He]; try discriminate He; try contradiction.
      injection He as _ <-. reflexivity. }
    exact (Hin _ Hw _ _ eq_refl).
  - right. right. exact Hs.
Defined.

Lemma model_asked_at_most_three_times_witness :
  exists rest,
    calls (chat bitcoinWorld (anonymous "Tell me about Bitcoin") ∅)
    = GenerateContent (extractPrompt "tell me about bitcoin") (Some "Bitcoin") :: rest
    /\ length (modelCalls rest) = 2%nat.
Proof.
  destruct (model_asked_at_most_three_times bitcoinWorld
              (anonymous "Tell me about Bitcoin") ∅ "Tell me about Bitcoin"
              eq_refl ltac:(discriminate)) as (rest & Hcalls & Hbound & _).
  exists rest. split; [exact Hcalls|].
  assert (H : calls (chat bitcoinWorld (anonymous "Tell me about Bitcoin") ∅)
              = GenerateContent (extractPrompt "tell me about bitcoin") (Some "Bitcoin")
                :: tl (calls (chat bitcoinWorld (anonymous "Tell me about Bitcoin") ∅)))
    by (vm_compute; reflexivity).
  rewrite H in Hcalls at 1. injection Hcalls as <-. vm_compute. reflexivity.
Defined.

Lemma request_outcome_and_memory_witness :
  let mem := serve [(noCoinWorld, anonymous "hello")] ∅ in
  response (chat dbDownWorld (anonymous "price of bitcoin") mem)
  = mkResponse 500 (Error "Internal server error")
  /\ memHistory (memory (chat dbDownWorld (anonymous "price of bitcoin") mem)) "203.0.113.7"
     = ["User: hello"; "Bot: Happy to help."].
Proof.
  cbv zeta.
  destruct (request_outcome_and_memory [(noCoinWorld, anonymous "hello")]
              dbDownWorld (anonymous "price of bitcoin") "price of bitcoin"
              eq_refl eq_refl ltac:(discriminate))
    as (_ & _ & _ & Hkeep).
  assert (H500 : response (chat dbDownWorld (anonymous "price of bitcoin")
                             (serve [(noCoinWorld, anonymous "hello")] ∅))
                 = mkResponse 500 (Error "Internal server error"))
    by (vm_compute; reflexivity).
  split; [exact H500|]. rewrite (Hkeep H500 "203.0.113.7"). vm_compute. reflexivity.
Defined.

Lemma sessions_of_served_users_witness :
  is_Some (serve [(bitcoinWorld, authed "price of Bitcoin");
                  (noCoinWorld, mkRequest None None "198.51.100.2");
                  (noCoinWorld, anonymous "hello")] ∅ !! "203.0.113.7")
  /\ ~ is_Some (serve [(bitcoinWorld, authed "price of Bitcoin");
                       (noCoinWorld, mkRequest None None "198.51.100.2");
                       (noCoinWorld, anonymous "hello")] ∅ !! "198.51.100.2").
Proof.
  split.
  - apply (sessions_of_served_users
             [(bitcoinWorld, authed "price of Bitcoin");
              (noCoinWorld, mkRequest None None "198.51.100.2");
              (noCoinWorld, anonymous "hello")] "203.0.113.7" eq_refl).
    cbn. auto.
  - intros H.
    apply (sessions_of_served_users
             [(bitcoinWorld, authed "price of Bitcoin");
              (noCoinWorld, mkRequest None None "198.51.100.2");
              (noCoinWorld, anonymous "hello")] "198.51.100.2" eq_refl) in H.
    cbn in H. destruct H as [H|[H|[]]]; discriminate H.
Defined.

Lemma remembered_coin_was_extracted_witness :
  (exists E req msg,
      In (E, req) [(bitcoinWorld, authed "price of Bitcoin")]
      /\ userIdOf req = "Bearer token" /\ message req = Some msg
      /\ extractedCoin E (cleanOf msg) = Some "bitcoin")
  /\ "bitcoin" <> "" /\ "bitcoin" <> "unknown"
  /\ JsString.toLowerCase "bitcoin" = "bitcoin" /\ JsString.trim "bitcoin" = "bitcoin".
Proof.
  exact (remembered_coin_was_extracted [(bitcoinWorld, authed "price of Bitcoin")]
           "Bearer token" "bitcoin" eq_refl eq_refl).
Defined.

Lemma dollar_buy_at_price_zero_witness :
  ordersIn (calls (chat zeroPriceWorld (authed "Buy 100 usd of bitcoin") ∅))
  = [Order.mk "bitcoin" infinity BUY].
Proof.
  assert (Ho : exists o,
             ordersIn (calls (chat zeroPriceWorld (authed "Buy 100 usd of bitcoin") ∅)) = [o]
             /\ In (PostOrder "Bearer token" o PostOk)
                   (calls (chat zeroPriceWorld (authed "Buy 100 usd of bitcoin") ∅))
             /\ Order.coinId o = "bitcoin").
  { eexists. split; [vm_compute; reflexivity|]. split; [in_calls | reflexivity]. }
  destruct Ho as (o & Hone & Hin & Hid). rewrite Hone. f_equal.
  destruct (dollar_buy_at_price_zero zeroPriceWorld (authed "Buy 100 usd of bitcoin") ∅
              "Buy 100 usd of bitcoin" "100" 7036874417766400 (-46)
              "Bearer token" o PostOk eq_refl eq_refl eq_refl eq_refl)
    as [Hq Hty]; [vm_compute; reflexivity | | exact Hin |].
  - intros key cd Hcd. vm_compute in Hcd.
    repeat destruct Hcd as [Hcd|Hcd]; try discriminate Hcd; try contradiction.
    all: injection Hcd as _ <-; vm_compute; reflexivity.
  - destruct o as [id q ty]. cbn in Hq, Hty, Hid. subst. reflexivity.
Defined.

Lemma fallback_reply_is_cleaned_witness :
  response (chat noCoinWorld (anonymous "hello") ∅) = ok "Happy to help.".
Proof.
  eapply eq_trans.
  - refine (proj1 (fallback_reply_is_cleaned noCoinWorld (anonymous "hello") ∅ _
                     "Happy to help." _ _)); [in_calls | reflexivity].
  - reflexivity.
Defined.

Lemma trade_failures_are_explained_witness :
  response (chat noWalletWorld (authed "Buy 1 bitcoin") ∅)
  = ok "❌ Couldn't fetch wallet balance."
  /\ ordersIn (calls (chat noWalletWorld (authed "Buy 1 bitcoin") ∅)) = [].
Proof.
  destruct (trade_failures_are_explained noWalletWorld (authed "Buy 1 bitcoin") ∅
              "Buy 1 bitcoin" "Bearer token" eq_refl eq_refl
              ltac:(discriminate) ltac:(discriminate) eq_refl eq_refl)
    as (_ & Hwallet & _).
  apply (Hwallet (AxError "Network Error")); [in_calls | exact I].
Defined.

Lemma requests_are_case_insensitive_witness :
  chat bitcoinWorld (authed "Buy 0.5 Bitcoin") ∅
  = chat bitcoinWorld (authed "BUY 0.5 BITCOIN") ∅.
Proof.
  apply (requests_are_case_insensitive bitcoinWorld
           (authed "Buy 0.5 Bitcoin") (authed "BUY 0.5 BITCOIN") ∅
           "Buy 0.5 Bitcoin" "BUY 0.5 BITCOIN");
    [reflexivity | reflexivity | discriminate | reflexivity | reflexivity
    | left; split; reflexivity].
Defined.

Lemma fallback_quotes_the_previous_exchange_witness :
  exists prompt,
    In (GenerateContent prompt (Some "Happy to help."))
       (calls (chat noCoinWorld (anonymous "And then?")
                 (memory (chat noCoinWorld (anonymous "Hello") ∅))))
    /\ JsString.includes prompt "User: hello" = true
    /\ JsString.includes prompt "Bot: Happy to help." = true.
Proof.
  eexists. split; [in_calls|].
  match goal with
  | |- JsString.includes ?p _ = true /\ _ =>
      apply (fallback_quotes_the_previous_exchange
               noCoinWorld (anonymous "Hello") ∅ "Hello" "Happy to help."
               noCoinWorld (anonymous "And then?") "And then?" p (Some "Happy to help."));
        [reflexivity | discriminate | reflexivity | reflexivity | discriminate
        | reflexivity | in_calls | reflexivity]
  end.
Defined.


Lemma price_reply_has_two_decimals_witness :
  exists whole cents,
    responses bitcoinWorld bitcoin price
    = Some ("💰 Current price of Bitcoin (BTC) is $" +:+ whole +:+ "." +:+ cents)
    /\ String.length cents = 2%nat
    /\ JsNumber.digitsValue 0 (whole +:+ cents) = 4201250.
Proof.
  destruct (price_reply_has_two_decimals bitcoinWorld bitcoin false 5774154032742400 (-37))
    as (whole & cents & Hreply & _ & _ & _ & Hlen & Hval); [reflexivity | reflexivity |].
  exists whole, cents. split; [exact Hreply|]. split; [exact Hlen|].
  rewrite Hval. vm_compute. reflexivity.
Defined.

Lemma remembered_coin_is_never_cleared_witness :
  resolvedCoin noCoinWorld (authed "and the volume?")
    (serve [(noCoinWorld, authed "hello"); (dbDownWorld, authed "any news?")]
           {[ "Bearer token" := mkSession (Some []) (Some "bitcoin") ]})
  = Some "bitcoin".
Proof.
  destruct (remembered_coin_is_never_cleared
              [(noCoinWorld, authed "hello"); (dbDownWorld, authed "any news?")]
              {[ "Bearer token" := mkSession (Some []) (Some "bitcoin") ]}
              noCoinWorld (authed "and the volume?") "and the volume?")
    as (_ & _ & Hsame); [reflexivity | reflexivity | discriminate |].
  rewrite Hsame by reflexivity. vm_compute. reflexivity.
Defined.

(** ** Where the claims as stated fail *)

(** C4 as stated fails: a database error makes both database reads throw,
    and the request that awaits them ends with status 500. *)
Lemma database_error_reaches_the_handler :
  fst (getCryptoData dbDownWorld (Some "bitcoin") (mkRun ∅ [])) = Throw
  /\ fst (getLatestNews dbDownWorld 5 (mkRun ∅ [])) = Throw
  /\ response (chat dbDownWorld (anonymous "any news?") ∅)
     = mkResponse 500 (Error "Internal server error")
  /\ response (chat dbDownWorld (anonymous "price of bitcoin") ∅)
     = mkResponse 500 (Error "Internal server error").
Proof. repeat split; vm_compute; reflexivity. Qed.

(** C6 as stated fails: with ten exchanges in the history the oldest five
    are among the last ten turns and are not in the prompt. *)
Lemma fallback_prompt_omits_older_turns :
  exists prompt,
    In (GenerateContent prompt (Some "Happy to help."))
       (calls (chat noCoinWorld (anonymous "hello") tenTurnMemory))
    /\ JsString.startsWith prompt "You are a financial assistant." = true
    /\ In "User: q01" (sliceLast 20 (memHistory tenTurnMemory "203.0.113.7"))
    /\ JsString.includes prompt "User: q01" = false
    /\ In "Bot: r05" (sliceLast 20 (memHistory tenTurnMemory "203.0.113.7"))
    /\ JsString.includes prompt "Bot: r05" = false.
Proof.
  eexists. split; [in_calls|].
  repeat split; vm_compute; tauto.
Qed.

(** C8 as stated fails: an amount of 0 passes every check and an order of
    quantity 0 is posted. *)
Lemma order_quantity_may_be_zero :
  exists o,
    ordersIn (calls (chat bitcoinWorld (authed "Buy 0 bitcoin") ∅)) = [o]
    /\ response (chat bitcoinWorld (authed "Buy 0 bitcoin") ∅)
       = ok "Order placed successfully for buying Bitcoin."
    /\ (0 <? Order.quantity o)%float = false.
Proof. eexists. repeat split; vm_compute; reflexivity. Qed.
